(** * smart-ai-broker: the trading engine, embedded and verified

    A shallow embedding of the backend's trading engine
    ([app/services/trading.py], [app/services/indicators.py],
    [app/services/predictions.py], [scheduler/auto_trader.py],
    [scheduler/price_simulator.py], [scheduler/config.py]) together with
    the properties its specification states about it, and of the callers
    of the engine in [app/api/endpoints/trading.py] and
    [scheduler/main.py].

    Numbers.  Python [int] is [Z].  Python [float] is [pyfloat]: the exact
    rational value of the number, together with the three IEEE special
    values the code can meet ([inf], [-inf], [nan]).  Rounding error and
    overflow of binary64 are therefore abstracted, and there is a single
    zero; what division by zero, [nan] comparisons, [min], [max], [round]
    and [int] do is kept.  The properties below avoid resting on that
    abstraction where the program would differ: amounts are compared
    operation by operation, never regrouped, and prices are bounded where
    overflow would matter.  Where binary64 itself decides (a sum that is regrouped,
    a quotient that rounds up, a price that overflows), the lines of the
    source are given a second time on the kernel's binary64 floats, in
    [F64].  Two more limits: the conversion of an [int] to a float is
    total here, where Python raises [OverflowError] from 2^1024 on; and
    strings are byte strings, so that [upper] is Python's [str.upper] on
    ASCII text only.

    Store.  The SQLAlchemy session is a record of tables, each a list of
    rows in insertion order.  A service function is a state transformer
    that may raise: it returns the session as the call leaves it together
    with either a value or the exception.

    Outside world.  What the advisory service answers, what the [random]
    module draws and what the clock shows are arguments of the functions
    that consume them. *)

From Stdlib Require Import ZArith QArith Qround Lqa Lia List String Ascii Bool.
From Stdlib Require Import DecimalString Setoid Morphisms.
From Stdlib Require Floats.
Import ListNotations.

Local Open Scope Z_scope.
Local Open Scope string_scope.

(* ------------------------------------------------------------------ *)
(** ** Python values *)

Module Py.

(** Exceptions that the modelled code raises. *)
Inductive exn : Type :=
| ValueError (msg : string)
| AttributeError
| ZeroDivisionError
| OverflowError.

Inductive result (A : Type) : Type :=
| Ok (a : A)
| Raise (e : exn).
Arguments Ok {A} a.
Arguments Raise {A} e.

Inductive pyfloat : Type :=
| Fin (q : Q)
| PosInf
| NegInf
| NaN.

Definition Qlt_bool (a b : Q) : bool := negb (Qle_bool b a).

Definition is_zero (q : Q) : bool := Qeq_bool q 0.
Definition is_pos (q : Q) : bool := Qlt_bool 0 q.

Definition fneg (x : pyfloat) : pyfloat :=
  match x with
  | Fin q => Fin (- q)
  | PosInf => NegInf
  | NegInf => PosInf
  | NaN => NaN
  end.

Definition fadd (x y : pyfloat) : pyfloat :=
  match x, y with
  | NaN, _ | _, NaN => NaN
  | Fin a, Fin b => Fin (a + b)
  | PosInf, NegInf | NegInf, PosInf => NaN
  | PosInf, _ | _, PosInf => PosInf
  | NegInf, _ | _, NegInf => NegInf
  end.

Definition fsub (x y : pyfloat) : pyfloat := fadd x (fneg y).

(** An infinity of the sign of [q] times the sign [s] ([true] is
    positive); [nan] when [q] is zero. *)
Definition signed_inf (s : bool) (q : Q) : pyfloat :=
  if is_zero q then NaN
  else if Bool.eqb s (is_pos q) then PosInf else NegInf.

Definition fmul (x y : pyfloat) : pyfloat :=
  match x, y with
  | NaN, _ | _, NaN => NaN
  | Fin a, Fin b => Fin (a * b)
  | PosInf, Fin q | Fin q, PosInf => signed_inf true q
  | NegInf, Fin q | Fin q, NegInf => signed_inf false q
  | PosInf, PosInf | NegInf, NegInf => PosInf
  | PosInf, NegInf | NegInf, PosInf => NegInf
  end.

(** Division as numpy does it on float arrays: no exception, a zero
    divisor gives an infinity or [nan]. *)
Definition np_div (x y : pyfloat) : pyfloat :=
  match x, y with
  | NaN, _ | _, NaN => NaN
  | Fin a, Fin b => if is_zero b then signed_inf true a else Fin (a / b)
  | Fin _, PosInf | Fin _, NegInf => Fin 0
  | PosInf, Fin b => if Qlt_bool b 0 then NegInf else PosInf
  | NegInf, Fin b => if Qlt_bool b 0 then PosInf else NegInf
  | _, _ => NaN
  end.

Definition flt (x y : pyfloat) : bool :=
  match x, y with
  | NaN, _ | _, NaN => false
  | Fin a, Fin b => Qlt_bool a b
  | NegInf, NegInf => false
  | NegInf, _ => true
  | _, NegInf => false
  | PosInf, _ => false
  | _, PosInf => true
  end.

Definition fgt (x y : pyfloat) : bool := flt y x.

(** Python's [==] on floats. *)
Definition feqb (x y : pyfloat) : bool :=
  match x, y with
  | Fin a, Fin b => Qeq_bool a b
  | PosInf, PosInf | NegInf, NegInf => true
  | _, _ => false
  end.

(** Python's [/] on floats: a zero divisor raises. *)
Definition truediv (x y : pyfloat) : result pyfloat :=
  if feqb y (Fin 0) then Raise ZeroDivisionError else Ok (np_div x y).

Definition of_int (z : Z) : pyfloat := Fin (inject_Z z).

(** [min(a, b)] and [max(a, b)]: the first argument is kept unless the
    second compares strictly below (above) it. *)
Definition py_min (a b : pyfloat) : pyfloat := if flt b a then b else a.
Definition py_max (a b : pyfloat) : pyfloat := if fgt b a then b else a.

(** Nearest integer, ties to the even one. *)
Definition round_half_even (q : Q) : Z :=
  let f := Qfloor q in
  match Qcompare (q - inject_Z f) (1 # 2) with
  | Lt => f
  | Gt => f + 1
  | Eq => if Z.even f then f else f + 1
  end.

(** [round(x, 2)]. *)
Definition round2 (x : pyfloat) : pyfloat :=
  match x with
  | Fin q => Fin (Qmake (round_half_even (q * 100)) 100)
  | _ => x
  end.

(** [int(x)]: truncation towards zero. *)
Definition py_int (x : pyfloat) : result Z :=
  match x with
  | Fin q => Ok (Z.quot (Qnum q) (Z.pos (Qden q)))
  | NaN => Raise (ValueError "cannot convert float NaN to integer")
  | _ => Raise OverflowError
  end.

Definition str_of_nat_Z (z : Z) : string :=
  NilZero.string_of_uint (N.to_uint (Z.to_N z)).

(** [str(z)] for an [int]. *)
Definition str_int (z : Z) : string :=
  if (z <? 0)%Z then "-" ++ str_of_nat_Z (- z) else str_of_nat_Z z.

Definition two_digits (z : Z) : string :=
  if (z <? 10)%Z then "0" ++ str_of_nat_Z z else str_of_nat_Z z.

(** The format [{x:.2f}]. *)
Definition format_2f (x : pyfloat) : string :=
  match x with
  | Fin q =>
      let n := Z.abs (round_half_even (q * 100)) in
      (if Qlt_bool q 0 then "-" else "")
        ++ str_of_nat_Z (n / 100) ++ "." ++ two_digits (n mod 100)
  | PosInf => "inf"
  | NegInf => "-inf"
  | NaN => "nan"
  end.

(** [str.upper()], on the ASCII letters. *)
Definition upper_ascii (c : ascii) : ascii :=
  let n := nat_of_ascii c in
  if (97 <=? n)%nat && (n <=? 122)%nat then ascii_of_nat (n - 32) else c.

Fixpoint upper (s : string) : string :=
  match s with
  | EmptyString => EmptyString
  | String c s' => String (upper_ascii c) (upper s')
  end.

Fixpoint starts_with (p s : string) : bool :=
  match p, s with
  | EmptyString, _ => true
  | String a p', String b s' => Ascii.eqb a b && starts_with p' s'
  | String _ _, EmptyString => false
  end.

(** [sub in s]. *)
Fixpoint contains (sub s : string) : bool :=
  starts_with sub s ||
  match s with
  | EmptyString => false
  | String _ s' => contains sub s'
  end.

(** Two floats that denote the same value. *)
Definition same (x y : pyfloat) : Prop :=
  match x, y with
  | Fin a, Fin b => Qeq a b
  | PosInf, PosInf | NegInf, NegInf | NaN, NaN => True
  | _, _ => False
  end.

Definition finite (x : pyfloat) : Prop :=
  match x with Fin _ => True | _ => False end.

(** [0 < x], as a proposition. *)
Definition fpos (x : pyfloat) : Prop := flt (Fin 0) x = true.

(** A decimal literal: [dec 85 100] is [0.85]. *)
Definition dec (n : Z) (d : positive) : pyfloat := Fin (Qmake n d).

End Py.
Import Py.

Declare Scope py_scope.
Delimit Scope py_scope with py.
Notation "x + y" := (fadd x y) : py_scope.
Notation "x - y" := (fsub x y) : py_scope.
Notation "x * y" := (fmul x y) : py_scope.
Notation "x <? y" := (flt x y) : py_scope.
Notation "x >? y" := (fgt x y) : py_scope.
Notation "x ~= y" := (same x y) (at level 70, no associativity) : py_scope.


(* ------------------------------------------------------------------ *)
(** ** The tables ([app/models/models.py]) *)

Module User.
Record t : Type := mk { id : Z; username : string }.
End User.

Module Account.
Record t : Type := mk { id : Z; user_id : Z; cash_balance : pyfloat }.
End Account.

Module Ticker.
Record t : Type := mk { id : Z; symbol : string; name : string }.
End Ticker.

Module PriceTick.
Record t : Type :=
  mk { ticker_id : Z; price : pyfloat; volume : Z; timestamp : Z }.
End PriceTick.

Module Portfolio.
Record t : Type :=
  mk { user_id : Z; ticker_id : Z; quantity : Z;
       avg_price : pyfloat; current_price : pyfloat }.
End Portfolio.

Module Trade.
Record t : Type :=
  mk { user_id : Z; ticker_id : Z; action : string; quantity : Z;
       price : pyfloat; total_amount : pyfloat; cash_after : pyfloat }.
End Trade.

Module AutoTradeConfig.
Record t : Type :=
  mk { user_id : Z; enabled : bool;
       confidence_threshold : pyfloat; max_trade_size : Z }.
End AutoTradeConfig.

(** The session: every table the engine reads or writes. *)
Record Session : Type := mkSession {
  users : list User.t;
  accounts : list Account.t;
  tickers : list Ticker.t;
  price_ticks : list PriceTick.t;
  portfolios : list Portfolio.t;
  trades : list Trade.t;
  auto_trade_configs : list AutoTradeConfig.t
}.

Definition set_accounts (db : Session) (l : list Account.t) : Session :=
  mkSession (users db) l (tickers db) (price_ticks db) (portfolios db)
            (trades db) (auto_trade_configs db).

Definition set_price_ticks (db : Session) (l : list PriceTick.t) : Session :=
  mkSession (users db) (accounts db) (tickers db) l (portfolios db)
            (trades db) (auto_trade_configs db).

Definition set_portfolios (db : Session) (l : list Portfolio.t) : Session :=
  mkSession (users db) (accounts db) (tickers db) (price_ticks db) l
            (trades db) (auto_trade_configs db).

Definition set_trades (db : Session) (l : list Trade.t) : Session :=
  mkSession (users db) (accounts db) (tickers db) (price_ticks db)
            (portfolios db) l (auto_trade_configs db).

Definition set_tickers (db : Session) (l : list Ticker.t) : Session :=
  mkSession (users db) (accounts db) l (price_ticks db) (portfolios db)
            (trades db) (auto_trade_configs db).

Definition set_auto_trade_configs (db : Session) (l : list AutoTradeConfig.t)
  : Session :=
  mkSession (users db) (accounts db) (tickers db) (price_ticks db)
            (portfolios db) (trades db) l.

(** [query.filter(p).first()]: the first row, in table order, that
    satisfies [p]. *)
Definition first {A : Type} (p : A -> bool) (rows : list A) : option A :=
  List.find p rows.

(** Assignment to attributes of the row that [first] returned. *)
Fixpoint update_first {A : Type} (p : A -> bool) (f : A -> A)
  (rows : list A) : list A :=
  match rows with
  | [] => []
  | r :: rows' => if p r then f r :: rows' else r :: update_first p f rows'
  end.

(** [db.delete] of the row that [first] returned. *)
Fixpoint delete_first {A : Type} (p : A -> bool) (rows : list A) : list A :=
  match rows with
  | [] => []
  | r :: rows' => if p r then rows' else r :: delete_first p rows'
  end.

(** Assignment to attributes of the row at position [i] of a table: a
    row that [query.all()] returned. *)
Fixpoint update_nth {A : Type} (i : nat) (f : A -> A) (rows : list A)
  : list A :=
  match rows, i with
  | [], _ => []
  | r :: rows', O => f r :: rows'
  | r :: rows', S i' => r :: update_nth i' f rows'
  end.

(** [order_by(PriceTick.timestamp.desc())]: insertion of a row into a
    list already in descending order.  Among rows of equal timestamp,
    whose order SQL leaves open, the row inserted last comes first. *)
Fixpoint insert_desc (t : PriceTick.t) (l : list PriceTick.t)
  : list PriceTick.t :=
  match l with
  | [] => [t]
  | u :: l' =>
      if (PriceTick.timestamp u <? PriceTick.timestamp t)%Z
      then t :: l
      else u :: insert_desc t l'
  end.

Definition order_by_timestamp_desc (l : list PriceTick.t)
  : list PriceTick.t :=
  fold_right insert_desc [] l.

(** The price ticks of one ticker, most recent first. *)
Definition ticks_desc (db : Session) (ticker_id : Z) : list PriceTick.t :=
  order_by_timestamp_desc
    (filter (fun t => (PriceTick.ticker_id t =? ticker_id)%Z)
            (price_ticks db)).

(* ------------------------------------------------------------------ *)
(** ** Stateful, fallible computations *)

Definition M (A : Type) : Type := Session -> Session * result A.

Definition ret {A : Type} (a : A) : M A := fun db => (db, Ok a).

Definition raise {A : Type} (e : exn) : M A := fun db => (db, Raise e).

Definition bind {A B : Type} (m : M A) (k : A -> M B) : M B :=
  fun db =>
    match m db with
    | (db', Ok a) => k a db'
    | (db', Raise e) => (db', Raise e)
    end.

Definition get : M Session := fun db => (db, Ok db).

Definition modify (f : Session -> Session) : M unit :=
  fun db => (f db, Ok tt).

(** A pure computation that may raise. *)
Definition lift {A : Type} (r : result A) : M A := fun db => (db, r).

(** [try: m except Exception: pass]: the exception is dropped, what
    the session held when it was raised stays. *)
Definition try_except (m : M unit) : M unit :=
  fun db =>
    match m db with
    | (db', Ok _) => (db', Ok tt)
    | (db', Raise _) => (db', Ok tt)
    end.

(** [try: m except ValueError: pass]: only a [ValueError] is dropped. *)
Definition except_value_error (m : M unit) : M unit :=
  fun db =>
    match m db with
    | (db', Raise (ValueError _)) => (db', Ok tt)
    | out => out
    end.

Declare Scope monad_scope.
Delimit Scope monad_scope with monad.
Notation "x <- m ;; k" := (bind m (fun x => k))
  (at level 61, m at next level, right associativity) : monad_scope.
Notation "m ;; k" := (bind m (fun _ => k))
  (at level 61, right associativity) : monad_scope.
Local Open Scope monad_scope.

(** A loop over the rows of a list. *)
Fixpoint for_each {A : Type} (body : A -> M unit) (l : list A) : M unit :=
  match l with
  | [] => ret tt
  | a :: l' => body a ;; for_each body l'
  end.

(* ------------------------------------------------------------------ *)
(** ** The execution engine ([app/services/trading.py]) *)

Module Trading.
Local Open Scope py_scope.

(** The dictionary that [execute_buy] and [execute_sell] return, without
    the key the database assigns to the trade row. *)
Record TradeResult : Type := mkResult {
  action : string;
  quantity : Z;
  price : pyfloat;
  total_amount : pyfloat;
  cash_after : pyfloat
}.

Definition account_of (user_id : Z) (a : Account.t) : bool :=
  (Account.user_id a =? user_id)%Z.

Definition position_of (user_id ticker_id : Z) (p : Portfolio.t) : bool :=
  (Portfolio.user_id p =? user_id)%Z && (Portfolio.ticker_id p =? ticker_id)%Z.

Definition set_cash_balance (c : pyfloat) (a : Account.t) : Account.t :=
  Account.mk (Account.id a) (Account.user_id a) c.

Definition get_latest_price (ticker_id : Z) : M pyfloat :=
  db <- get ;;
  match hd_error (ticks_desc db ticker_id) with
  | None => raise (ValueError "No price data available for this ticker")
  | Some price_tick => ret (PriceTick.price price_tick)
  end.

Definition execute_buy (user_id ticker_id quantity : Z) : M TradeResult :=
  current_price <- get_latest_price ticker_id ;;
  let total_cost := current_price * of_int quantity in
  db <- get ;;
  match first (account_of user_id) (accounts db) with
  | None => raise (ValueError "User account not found")
  | Some account =>
      if Account.cash_balance account <? total_cost then
        raise (ValueError
                 ("Insufficient funds. Required: $" ++ format_2f total_cost
                  ++ ", Available: $"
                  ++ format_2f (Account.cash_balance account)))
      else
        let cash := Account.cash_balance account - total_cost in
        modify (fun db =>
          set_accounts db
            (update_first (account_of user_id) (set_cash_balance cash)
                          (accounts db))) ;;
        db <- get ;;
        match first (position_of user_id ticker_id) (portfolios db) with
        | Some portfolio =>
            let total_quantity := (Portfolio.quantity portfolio + quantity)%Z in
            avg <- lift (truediv
                           (Portfolio.avg_price portfolio
                              * of_int (Portfolio.quantity portfolio)
                            + total_cost)
                           (of_int total_quantity)) ;;
            modify (fun db =>
              set_portfolios db
                (update_first (position_of user_id ticker_id)
                   (fun p => Portfolio.mk (Portfolio.user_id p)
                                          (Portfolio.ticker_id p)
                                          total_quantity avg current_price)
                   (portfolios db)))
        | None =>
            modify (fun db =>
              set_portfolios db
                (portfolios db
                   ++ [Portfolio.mk user_id ticker_id quantity
                                    current_price current_price]))
        end ;;
        modify (fun db =>
          set_trades db
            (trades db
               ++ [Trade.mk user_id ticker_id "BUY" quantity current_price
                            total_cost cash])) ;;
        ret (mkResult "BUY" quantity current_price total_cost cash)
  end.

Definition execute_sell (user_id ticker_id quantity : Z) : M TradeResult :=
  current_price <- get_latest_price ticker_id ;;
  let total_revenue := current_price * of_int quantity in
  db <- get ;;
  match first (position_of user_id ticker_id) (portfolios db) with
  | None => raise (ValueError "No position found for this ticker")
  | Some portfolio =>
      if (Portfolio.quantity portfolio <? quantity)%Z then
        raise (ValueError
                 ("Insufficient shares. You have "
                  ++ str_int (Portfolio.quantity portfolio)
                  ++ ", trying to sell " ++ str_int quantity))
      else
        let remaining := (Portfolio.quantity portfolio - quantity)%Z in
        modify (fun db =>
          set_portfolios db
            (update_first (position_of user_id ticker_id)
               (fun p => Portfolio.mk (Portfolio.user_id p)
                                      (Portfolio.ticker_id p) remaining
                                      (Portfolio.avg_price p) current_price)
               (portfolios db))) ;;
        (if (remaining =? 0)%Z then
           modify (fun db =>
             set_portfolios db
               (delete_first (position_of user_id ticker_id) (portfolios db)))
         else ret tt) ;;
        db <- get ;;
        match first (account_of user_id) (accounts db) with
        | None => raise AttributeError
        | Some account =>
            let cash := Account.cash_balance account + total_revenue in
            modify (fun db =>
              set_accounts db
                (update_first (account_of user_id) (set_cash_balance cash)
                              (accounts db))) ;;
            modify (fun db =>
              set_trades db
                (trades db
                   ++ [Trade.mk user_id ticker_id "SELL" quantity
                                current_price total_revenue cash])) ;;
            ret (mkResult "SELL" quantity current_price total_revenue cash)
        end
  end.

Definition set_current_price (c : pyfloat) (p : Portfolio.t) : Portfolio.t :=
  Portfolio.mk (Portfolio.user_id p) (Portfolio.ticker_id p)
               (Portfolio.quantity p) (Portfolio.avg_price p) c.

(** [db.query(Portfolio).filter(Portfolio.user_id == user_id).all()]: the
    rows of the user, each with its position in the table. *)
Definition positions_of_user (user_id : Z) (rows : list Portfolio.t)
  : list (nat * Portfolio.t) :=
  filter (fun ip => (Portfolio.user_id (snd ip) =? user_id)%Z)
         (combine (seq 0 (List.length rows)) rows).

Definition update_portfolio_prices (user_id : Z) : M unit :=
  db <- get ;;
  for_each
    (fun ip =>
       except_value_error
         (current_price <- get_latest_price (Portfolio.ticker_id (snd ip)) ;;
          modify (fun db =>
            set_portfolios db
              (update_nth (fst ip) (set_current_price current_price)
                          (portfolios db)))))
    (positions_of_user user_id (portfolios db)).

End Trading.

(* ------------------------------------------------------------------ *)
(** ** The indicator engine ([app/services/indicators.py])

    A [pd.Series] of floats is a list.  The rolling and exponentially
    weighted means are the textbook ones that pandas documents: the
    rolling mean at an index is the mean of the window that ends there
    and is [nan] until the window is full. *)

Module Indicators.
Local Open Scope py_scope.

Definition Series : Type := list pyfloat.

Definition is_nan (x : pyfloat) : bool :=
  match x with NaN => true | _ => false end.

Definition series_sum (xs : Series) : pyfloat :=
  fold_left fadd xs (Fin 0).

Definition len (xs : Series) : Z := Z.of_nat (List.length xs).

(** [Series.mean()]: missing values are skipped. *)
Definition mean (xs : Series) : pyfloat :=
  let ys := filter (fun x => negb (is_nan x)) xs in
  np_div (series_sum ys) (of_int (len ys)).

(** [Series.tail(n)]. *)
Definition tail (n : nat) (xs : Series) : Series :=
  skipn (List.length xs - n) xs.

(** [Series.iloc[-1]] of a series that is not empty. *)
Definition iloc_last (xs : Series) : pyfloat := List.last xs NaN.

(** [Series.diff()]: the first entry is missing. *)
Fixpoint diff_from (prev : pyfloat) (xs : Series) : Series :=
  match xs with
  | [] => []
  | x :: xs' => (x - prev) :: diff_from x xs'
  end.

Definition diff (xs : Series) : Series :=
  match xs with
  | [] => []
  | x :: xs' => NaN :: diff_from x xs'
  end.

(** [s.where(cond, other)], with the condition given as a test on the
    entry. *)
Definition where_ (cond : pyfloat -> bool) (other : pyfloat) (xs : Series)
  : Series :=
  map (fun x => if cond x then x else other) xs.

(** The mean of a full window, [nan] if an entry is missing. *)
Definition window_mean (w : Series) : pyfloat :=
  if existsb is_nan w then NaN
  else np_div (series_sum w) (of_int (len w)).

(** [s.rolling(window=n).mean()]. *)
Definition rolling_mean (n : nat) (xs : Series) : Series :=
  map (fun i =>
         if (S i <? n)%nat then NaN
         else window_mean (firstn n (skipn (S i - n) xs)))
      (seq 0 (List.length xs)).

(** [s.ewm(span=n, adjust=False).mean()]:
    [y0 = x0], [y_t = (1 - a) y_(t-1) + a x_t] with [a = 2 / (n + 1)]. *)
Fixpoint ewm_from (alpha prev : pyfloat) (xs : Series) : Series :=
  match xs with
  | [] => []
  | x :: xs' =>
      let y := (Fin 1 - alpha) * prev + alpha * x in
      y :: ewm_from alpha y xs'
  end.

Definition ewm_mean (span : Z) (xs : Series) : Series :=
  match xs with
  | [] => []
  | x :: xs' => x :: ewm_from (Fin (2 / inject_Z (span + 1))) x xs'
  end.

(** Entrywise arithmetic on two series of the same index. *)
Fixpoint zip_with (f : pyfloat -> pyfloat -> pyfloat) (xs ys : Series)
  : Series :=
  match xs, ys with
  | x :: xs', y :: ys' => f x y :: zip_with f xs' ys'
  | _, _ => []
  end.

Definition calculate_sma (prices : Series) (period : Z) : option pyfloat :=
  if (len prices <? period)%Z then None
  else Some (mean (tail (Z.to_nat period) prices)).

Definition calculate_ema (prices : Series) (period : Z) : option pyfloat :=
  if (len prices <? period)%Z then None
  else Some (iloc_last (ewm_mean period prices)).

Definition calculate_rsi (prices : Series) (period : Z) : option pyfloat :=
  if (len prices <? period + 1)%Z then None
  else
    let deltas := diff prices in
    let gains := where_ (fun d => d >? Fin 0) (Fin 0) deltas in
    let losses := map fneg (where_ (fun d => d <? Fin 0) (Fin 0) deltas) in
    let avg_gain := rolling_mean (Z.to_nat period) gains in
    let avg_loss := rolling_mean (Z.to_nat period) losses in
    let rs := zip_with np_div avg_gain avg_loss in
    let rsi := map (fun r => Fin 100 - np_div (Fin 100) (Fin 1 + r)) rs in
    Some (iloc_last rsi).

(** The last entries of the two rolling means that [calculate_rsi]
    divides: the average gain and the average loss of the latest
    window. *)
Definition latest_avg_gain (prices : Series) (period : Z) : pyfloat :=
  iloc_last (rolling_mean (Z.to_nat period)
               (where_ (fun d => d >? Fin 0) (Fin 0) (diff prices))).

Definition latest_avg_loss (prices : Series) (period : Z) : pyfloat :=
  iloc_last (rolling_mean (Z.to_nat period)
               (map fneg (where_ (fun d => d <? Fin 0) (Fin 0) (diff prices)))).

Record Macd : Type := mkMacd {
  macd : option pyfloat;
  signal : option pyfloat;
  histogram : option pyfloat
}.

Definition calculate_macd (prices : Series) (fast slow signal_span : Z)
  : Macd :=
  if (len prices <? slow)%Z then mkMacd None None None
  else
    let ema_fast := ewm_mean fast prices in
    let ema_slow := ewm_mean slow prices in
    let macd_line := zip_with fsub ema_fast ema_slow in
    let signal_line := ewm_mean signal_span macd_line in
    let histogram := zip_with fsub macd_line signal_line in
    mkMacd (Some (iloc_last macd_line)) (Some (iloc_last signal_line))
           (Some (iloc_last histogram)).

(** The snapshot: a dictionary from indicator names to optional floats. *)
Definition Snapshot : Type := list (string * option pyfloat).

(** [indicators.get(key)]: [None] for a missing key and for a key that
    holds [None]. *)
Fixpoint get_ (ind : Snapshot) (key : string) : option pyfloat :=
  match ind with
  | [] => None
  | (k, v) :: ind' => if String.eqb k key then v else get_ ind' key
  end.

(** Of the twelve keys of the source, the two outer Bollinger bands and
    the volatility need a square root and are left out: the engine only
    writes them into the advisory prompt and never reads them back. *)
Definition get_technical_indicators (db : Session) (ticker_id : Z) (limit : nat)
  : Snapshot :=
  let price_ticks := firstn limit (ticks_desc db ticker_id) in
  match price_ticks with
  | [] =>
      [("sma_20", None); ("sma_50", None); ("ema_12", None); ("ema_26", None);
       ("rsi_14", None); ("macd", None); ("macd_signal", None);
       ("macd_histogram", None); ("bollinger_middle", None)]
  | _ =>
      let prices := map PriceTick.price (rev price_ticks) in
      let macd_values := calculate_macd prices 12 26 9 in
      [("sma_20", calculate_sma prices 20);
       ("sma_50", calculate_sma prices 50);
       ("ema_12", calculate_ema prices 12);
       ("ema_26", calculate_ema prices 26);
       ("rsi_14", calculate_rsi prices 14);
       ("macd", macd macd_values);
       ("macd_signal", signal macd_values);
       ("macd_histogram", histogram macd_values);
       ("bollinger_middle",
        if (len prices <? 20)%Z then None
        else Some (iloc_last (rolling_mean 20 prices)))]
  end.

End Indicators.

(* ------------------------------------------------------------------ *)
(** ** The signal engine ([app/services/predictions.py]) *)

Module Predictions.
Local Open Scope py_scope.
Import Indicators.

(** The dictionary with the keys ["action"], ["confidence"], ["reason"]. *)
Record Signal : Type := mkSignal {
  action : string;
  confidence : pyfloat;
  reason : string
}.

(** What the advisory service does on one call, as far as
    [get_claude_prediction] branches on it.

    The body of a response is [EmptyContent] when [data["content"]] is
    missing or empty; [Malformed] when anything from there on raises
    ([json.loads] on the text, [.get] on a value that is no dictionary,
    [.upper()] on an action that is no string, [float()] on a confidence
    it cannot convert); and [Object a c r] when the text decodes to a
    dictionary whose ["action"] is the string [a], whose ["confidence"]
    converts to the float [c] and whose ["reason"] is [r], each [None]
    when its key is absent. *)
Inductive reply : Type :=
| EmptyContent
| Malformed
| Object (action : option string) (confidence : option pyfloat)
         (reason : option string).

(** [NoApiKey]: no key is configured.  [Unreachable]: the request raises
    (network error, timeout).  [Response]: the service answered. *)
Inductive advisory : Type :=
| NoApiKey
| Unreachable
| Response (status_code : Z) (body : reply).

(** [d.get(key, default)] on a key that is absent or present. *)
Definition get_default {A : Type} (v : option A) (default : A) : A :=
  match v with Some a => a | None => default end.

(** The three rules of [rule_based_fallback], in the order the function
    applies them to [action], [confidence] and [reason]. *)
Definition rsi_rule (rsi : option pyfloat) : Signal :=
  let hold := mkSignal "HOLD" (dec 5 10) "Insufficient data for clear signal" in
  match rsi with
  | Some rsi =>
      if rsi <? Fin 30 then
        mkSignal "BUY" (dec 7 10)
          ("RSI (" ++ format_2f rsi ++ ") indicates oversold conditions")
      else if rsi >? Fin 70 then
        mkSignal "SELL" (dec 7 10)
          ("RSI (" ++ format_2f rsi ++ ") indicates overbought conditions")
      else hold
  | None => hold
  end.

Definition macd_rule (macd_histogram : option pyfloat) (s : Signal) : Signal :=
  match macd_histogram with
  | Some h =>
      if (h >? Fin 0) && String.eqb (action s) "BUY" then
        mkSignal (action s) (py_min (dec 85 100) (confidence s + dec 15 100))
                 (reason s ++ " with positive MACD momentum")
      else if (h <? Fin 0) && String.eqb (action s) "SELL" then
        mkSignal (action s) (py_min (dec 85 100) (confidence s + dec 15 100))
                 (reason s ++ " with negative MACD momentum")
      else s
  | None => s
  end.

Definition crossover_rule (sma_20 sma_50 : option pyfloat) (s : Signal)
  : Signal :=
  match sma_20, sma_50 with
  | Some sma_20, Some sma_50 =>
      if (sma_20 >? sma_50) && String.eqb (action s) "BUY" then
        mkSignal (action s) (py_min (dec 9 10) (confidence s + dec 1 10))
                 (reason s ++ " and bullish MA crossover")
      else if (sma_20 <? sma_50) && String.eqb (action s) "SELL" then
        mkSignal (action s) (py_min (dec 9 10) (confidence s + dec 1 10))
                 (reason s ++ " and bearish MA crossover")
      else s
  | _, _ => s
  end.

Definition rule_based_fallback (indicators : Snapshot) : Signal :=
  let rsi := get_ indicators "rsi_14" in
  let macd_histogram := get_ indicators "macd_histogram" in
  let sma_20 := get_ indicators "sma_20" in
  let sma_50 := get_ indicators "sma_50" in
  crossover_rule sma_20 sma_50 (macd_rule macd_histogram (rsi_rule rsi)).

Definition get_claude_prediction (indicators : Snapshot) (adv : advisory)
  : Signal :=
  match adv with
  | NoApiKey => rule_based_fallback indicators
  | Unreachable => rule_based_fallback indicators
  | Response status_code body =>
      if (status_code =? 200)%Z then
        match body with
        | Object a c r =>
            mkSignal (upper (get_default a "HOLD"))
                     (get_default c (dec 5 10))
                     (get_default r "AI prediction")
        | EmptyContent => rule_based_fallback indicators
        | Malformed => rule_based_fallback indicators
        end
      else rule_based_fallback indicators
  end.

Definition get_trading_signal (db : Session) (ticker_id : Z) (adv : advisory)
  : Signal :=
  let indicators := get_technical_indicators db ticker_id 100 in
  get_claude_prediction indicators adv.

End Predictions.

(* ------------------------------------------------------------------ *)
(** ** The auto-trading cycle ([scheduler/auto_trader.py]) *)

Module AutoTrader.
Local Open Scope py_scope.
Import Trading.

(** The [account] object of the cycle, as the session holds it now. *)
Definition current (account : Account.t) (db : Session) : Account.t :=
  match first (account_of (Account.user_id account)) (accounts db) with
  | Some a => a
  | None => account
  end.

(** The part of the loop body after the threshold test. *)
Definition execute_signal (config : AutoTradeConfig.t) (user : User.t)
  (account : Account.t) (ticker : Ticker.t) (signal : Predictions.Signal)
  : M unit :=
  let action := Predictions.action signal in
  if String.eqb action "BUY" then
    current_price <- get_latest_price (Ticker.id ticker) ;;
    db <- get ;;
    ratio <- lift (truediv (Account.cash_balance (current account db))
                           current_price) ;;
    affordable <- lift (py_int ratio) ;;
    let max_quantity :=
      Z.min (AutoTradeConfig.max_trade_size config) affordable in
    if (max_quantity >? 0)%Z then
      execute_buy (User.id user) (Ticker.id ticker) max_quantity ;; ret tt
    else ret tt
  else if String.eqb action "SELL" then
    db <- get ;;
    match first (position_of (User.id user) (Ticker.id ticker))
                (portfolios db) with
    | Some portfolio =>
        if (Portfolio.quantity portfolio >? 0)%Z then
          let sell_quantity :=
            Z.min (AutoTradeConfig.max_trade_size config)
                  (Portfolio.quantity portfolio) in
          get_latest_price (Ticker.id ticker) ;;
          execute_sell (User.id user) (Ticker.id ticker) sell_quantity ;;
          ret tt
        else ret tt
    | None => ret tt
    end
  else ret tt.

(** The body of the [try] block, given the signal obtained for the pair. *)
Definition trade_on_signal (config : AutoTradeConfig.t) (user : User.t)
  (account : Account.t) (ticker : Ticker.t) (signal : Predictions.Signal)
  : M unit :=
  if Predictions.confidence signal
       <? AutoTradeConfig.confidence_threshold config
  then ret tt
  else execute_signal config user account ticker signal.

(** One (account, ticker) pair: the [try] block and its handler.
    [advisor] tells what the advisory service does for a pair. *)
Definition process_ticker (advisor : Z -> Z -> Predictions.advisory)
  (config : AutoTradeConfig.t) (user : User.t) (account : Account.t)
  (ticker : Ticker.t) : M unit :=
  try_except
    (db <- get ;;
     let signal :=
       Predictions.get_trading_signal db (Ticker.id ticker)
         (advisor (User.id user) (Ticker.id ticker)) in
     trade_on_signal config user account ticker signal).

Definition process_config (advisor : Z -> Z -> Predictions.advisory)
  (tickers : list Ticker.t) (config : AutoTradeConfig.t) : M unit :=
  db <- get ;;
  match first (fun u => (User.id u =? AutoTradeConfig.user_id config)%Z)
              (users db) with
  | None => ret tt
  | Some user =>
      match first (account_of (User.id user)) (accounts db) with
      | None => ret tt
      | Some account =>
          for_each (process_ticker advisor config user account) tickers
      end
  end.

Definition process_auto_trading (advisor : Z -> Z -> Predictions.advisory)
  : M unit :=
  db <- get ;;
  let configs := filter AutoTradeConfig.enabled (auto_trade_configs db) in
  match configs with
  | [] => ret tt
  | _ => for_each (process_config advisor (tickers db)) configs
  end.

(** The synchronous wrapper: [try: ... except Exception: print]. *)
Definition run_auto_trading (advisor : Z -> Z -> Predictions.advisory)
  : M unit :=
  try_except (process_auto_trading advisor).

End AutoTrader.

(* ------------------------------------------------------------------ *)
(** ** The price simulator ([scheduler/config.py],
       [scheduler/price_simulator.py])

    Times are microseconds ([datetime] resolution).  The values that the
    [random] module and the clock deliver are inputs. *)

Module PriceSimulator.
Local Open Scope py_scope.

(** [scheduler/config.py] *)
Record TickerInit : Type :=
  mkInit { symbol : string; name : string; initial_price : pyfloat }.

Definition TICKERS_INIT : list TickerInit :=
  [ mkInit "AAPL" "Apple Inc." (dec 150 1);
    mkInit "GOOGL" "Alphabet Inc." (dec 140 1);
    mkInit "MSFT" "Microsoft Corporation" (dec 380 1);
    mkInit "TSLA" "Tesla Inc." (dec 250 1);
    mkInit "AMZN" "Amazon.com Inc." (dec 180 1);
    mkInit "NVDA" "NVIDIA Corporation" (dec 500 1);
    mkInit "META" "Meta Platforms Inc." (dec 350 1);
    mkInit "NFLX" "Netflix Inc." (dec 450 1);
    mkInit "AMD" "Advanced Micro Devices Inc." (dec 120 1);
    mkInit "INTC" "Intel Corporation" (dec 45 1) ].

Definition HISTORICAL_MONTHS : Z := 6.
Definition HISTORICAL_INTERVAL_MINUTES : Z := 5.
Definition BATCH_SIZE : Z := 1000.
Definition BASE_VOLATILITY : pyfloat := dec 2 100.
Definition VOLATILITY_RANGE : pyfloat := dec 5 1000.

Definition minutes (n : Z) : Z := (n * 60 * 1000000)%Z.
Definition days (n : Z) : Z := (n * 24 * 60 * 60 * 1000000)%Z.

(** The random values one price step consumes, in the order drawn:
    [random.uniform(-VOLATILITY_RANGE, VOLATILITY_RANGE)],
    [random.uniform(-1, 1)], [random.random()] (tick path only) and
    [random.randint(100000, 10000000)]. *)
Record Draw : Type := mkDraw {
  noise : pyfloat;
  direction : pyfloat;
  chance : pyfloat;
  volume : Z
}.

(** [lo <= x <= hi] for a finite [x]. *)
Definition within (lo hi x : pyfloat) : Prop :=
  finite x /\ (x <? lo) = false /\ (hi <? x) = false.

(** The ranges the [random] module guarantees for the four values. *)
Definition valid_draw (d : Draw) : Prop :=
  within (fneg VOLATILITY_RANGE) VOLATILITY_RANGE (noise d)
  /\ within (dec (-1) 1) (dec 1 1) (direction d)
  /\ (within (Fin 0) (dec 1 1) (chance d) /\ (chance d <? dec 1 1) = true)
  /\ (100000 <= volume d <= 10000000)%Z.

(** [next((t["initial_price"] for t in TICKERS_INIT
          if t["symbol"] == symbol), 100.0)] *)
Definition initial_price_of (sym : string) : pyfloat :=
  match List.find (fun t => String.eqb (symbol t) sym) TICKERS_INIT with
  | Some t => initial_price t
  | None => dec 100 1
  end.

Definition bulk_save (batch : list PriceTick.t) (db : Session) : Session :=
  set_price_ticks db (price_ticks db ++ batch).

(** The variables of the [while] loop of [generate_historical_data], with
    the session and the number of draws consumed so far. *)
Record Loop : Type := mkLoop {
  current_price : pyfloat;
  current_time : Z;
  batch : list PriceTick.t;
  session : Session;
  drawn : nat
}.

Definition historical_step (rng : nat -> Draw) (ticker_id : Z) (st : Loop)
  : Loop :=
  let d := rng (drawn st) in
  let volatility := BASE_VOLATILITY + noise d in
  let price_change := current_price st * volatility * direction d in
  let current_price := py_max (current_price st + price_change) (dec 1 1) in
  let price_tick :=
    PriceTick.mk ticker_id (round2 current_price) (volume d)
                 (current_time st) in
  let batch := (batch st ++ [price_tick])%list in
  let flush := (Z.of_nat (List.length batch) >=? BATCH_SIZE)%Z in
  mkLoop current_price
         (current_time st + minutes HISTORICAL_INTERVAL_MINUTES)%Z
         (if flush then [] else batch)
         (if flush then bulk_save batch (session st) else session st)
         (S (drawn st)).

(** [while current_time <= end_time: ...], unfolded at most [fuel]
    times. *)
Fixpoint historical_loop (fuel : nat) (rng : nat -> Draw) (ticker_id : Z)
  (end_time : Z) (st : Loop) : Loop :=
  match fuel with
  | O => st
  | S fuel' =>
      if (current_time st <=? end_time)%Z
      then historical_loop fuel' rng ticker_id end_time
             (historical_step rng ticker_id st)
      else st
  end.

(** The number of times the loop test can succeed from [start_time]. *)
Definition iterations (start_time end_time : Z) : nat :=
  Z.to_nat ((end_time - start_time)
              / minutes HISTORICAL_INTERVAL_MINUTES + 1).

Definition ticker_is (ticker_id : Z) (t : PriceTick.t) : bool :=
  (PriceTick.ticker_id t =? ticker_id)%Z.

(** The body of the loop over the tickers; the state is the session and
    the number of draws consumed. *)
Definition generate_for_ticker (rng : nat -> Draw) (start_time end_time : Z)
  (acc : Session * nat) (ticker : Ticker.t) : Session * nat :=
  let (db, k) := acc in
  let existing_count :=
    Z.of_nat (List.length (filter (ticker_is (Ticker.id ticker))
                                  (price_ticks db))) in
  if (existing_count >? 0)%Z then (db, k)
  else
    let st :=
      historical_loop (S (iterations start_time end_time)) rng
        (Ticker.id ticker) end_time
        (mkLoop (initial_price_of (Ticker.symbol ticker)) start_time [] db k) in
    match batch st with
    | [] => (session st, drawn st)
    | _ => (bulk_save (batch st) (session st), drawn st)
    end.

(** [now] is what [datetime.utcnow()] returns. *)
Definition generate_historical_data (rng : nat -> Draw) (now : Z)
  (db : Session) : Session :=
  let end_time := now in
  let start_time := (end_time - days (HISTORICAL_MONTHS * 30))%Z in
  fst (fold_left (generate_for_ticker rng start_time end_time)
                 (tickers db) (db, O)).

(** One price step of [simulate_price_tick]. *)
Definition next_price (d : Draw) (last_price : pyfloat) : pyfloat :=
  let volatility := BASE_VOLATILITY + noise d in
  let price_change := last_price * volatility * direction d in
  let new_price := py_max (last_price + price_change) (dec 1 1) in
  let new_price :=
    if chance d <? dec 3 10 then
      let trend := if price_change >? Fin 0 then 1%Z else (-1)%Z in
      new_price + last_price * dec 1 1000 * of_int trend
    else new_price in
  round2 new_price.

Definition tick_for_ticker (rng : nat -> Draw) (clock : nat -> Z)
  (acc : Session * nat) (ticker : Ticker.t) : Session * nat :=
  let (db, k) := acc in
  let last_price :=
    match hd_error (ticks_desc db (Ticker.id ticker)) with
    | Some last_tick => PriceTick.price last_tick
    | None => initial_price_of (Ticker.symbol ticker)
    end in
  let d := rng k in
  let price_tick :=
    PriceTick.mk (Ticker.id ticker) (next_price d last_price) (volume d)
                 (clock k) in
  (set_price_ticks db (price_ticks db ++ [price_tick]), S k).

(** [clock k] is what [datetime.utcnow()] returns for the [k]-th ticker. *)
Definition simulate_price_tick (rng : nat -> Draw) (clock : nat -> Z)
  (db : Session) : Session :=
  fst (fold_left (tick_for_ticker rng clock) (tickers db) (db, O)).

Definition has_symbol (sym : string) (t : Ticker.t) : bool :=
  String.eqb (Ticker.symbol t) sym.

(** The body of the loop of [initialize_tickers].  [assign_id] is the
    primary key the database gives a new row of the table.  A lookup sees
    the rows added earlier in the same call; the symbols of
    [TICKERS_INIT] are distinct, so that no lookup of the call depends on
    it. *)
Definition ensure_ticker (assign_id : list Ticker.t -> Z)
  (ticker_data : TickerInit) : M unit :=
  db <- get ;;
  match first (has_symbol (symbol ticker_data)) (tickers db) with
  | None =>
      modify (fun db =>
        set_tickers db
          (tickers db
             ++ [Ticker.mk (assign_id (tickers db)) (symbol ticker_data)
                           (name ticker_data)]))
  | Some existing => ret tt
  end.

Definition initialize_tickers (assign_id : list Ticker.t -> Z) : M unit :=
  for_each (ensure_ticker assign_id) TICKERS_INIT.

(** [init_data] of [scheduler/main.py]: the tickers, then their
    history. *)
Definition init_data (assign_id : list Ticker.t -> Z) (rng : nat -> Draw)
  (now : Z) : M unit :=
  initialize_tickers assign_id ;;
  modify (generate_historical_data rng now).

End PriceSimulator.

(* ------------------------------------------------------------------ *)
(** ** The trading endpoints ([app/api/endpoints/trading.py])

    A handler receives the request body, already validated against its
    schema, and the authenticated user.  It returns the row it answers
    with, raises an [HTTPException], or lets another exception through. *)

Module Endpoints.
Local Open Scope py_scope.
Import Trading.

Inductive response (A : Type) : Type :=
| Returned (a : A)
| HTTPException (status_code : Z) (detail : string)
| Unhandled (e : exn).
Arguments Returned {A} a.
Arguments HTTPException {A} status_code detail.
Arguments Unhandled {A} e.

(** [schemas.TradeCreate] *)
Record TradeCreate : Type := mkTradeCreate {
  ticker_symbol : string;
  action : string;
  quantity : Z
}.

(** [schemas.AutoTradeConfigUpdate]: every field is optional. *)
Record AutoTradeConfigUpdate : Type := mkConfigUpdate {
  enabled : option bool;
  confidence_threshold : option pyfloat;
  max_trade_size : option Z
}.

(** [str(e)] of a [ValueError] raised with one message. *)
Definition str_exn (e : exn) : string :=
  match e with ValueError msg => msg | _ => "" end.

(** The trade row whose key the engine returned is the row it appended
    last. *)
Definition create_trade (trade_data : TradeCreate) (current_user : User.t)
  (db : Session) : Session * response Trade.t :=
  match first (PriceSimulator.has_symbol (ticker_symbol trade_data))
              (tickers db) with
  | None => (db, HTTPException 404 "Ticker not found")
  | Some ticker =>
      let call :=
        if String.eqb (action trade_data) "BUY"
        then execute_buy (User.id current_user) (Ticker.id ticker)
                         (quantity trade_data)
        else execute_sell (User.id current_user) (Ticker.id ticker)
                          (quantity trade_data) in
      match call db with
      | (db', Ok result) =>
          match rev (trades db') with
          | trade :: _ => (db', Returned trade)
          | [] => (db', Unhandled AttributeError)
          end
      | (db', Raise (ValueError msg)) => (db', HTTPException 400 msg)
      | (db', Raise e) => (db', Unhandled e)
      end
  end.

Definition config_of (user_id : Z) (c : AutoTradeConfig.t) : bool :=
  (AutoTradeConfig.user_id c =? user_id)%Z.

(** The three conditional assignments of [update_auto_config]. *)
Definition apply_update (config_data : AutoTradeConfigUpdate)
  (config : AutoTradeConfig.t) : AutoTradeConfig.t :=
  let config :=
    match enabled config_data with
    | Some e =>
        AutoTradeConfig.mk (AutoTradeConfig.user_id config) e
          (AutoTradeConfig.confidence_threshold config)
          (AutoTradeConfig.max_trade_size config)
    | None => config
    end in
  let config :=
    match confidence_threshold config_data with
    | Some c =>
        AutoTradeConfig.mk (AutoTradeConfig.user_id config)
          (AutoTradeConfig.enabled config) c
          (AutoTradeConfig.max_trade_size config)
    | None => config
    end in
  match max_trade_size config_data with
  | Some m =>
      AutoTradeConfig.mk (AutoTradeConfig.user_id config)
        (AutoTradeConfig.enabled config)
        (AutoTradeConfig.confidence_threshold config) m
  | None => config
  end.

Definition update_auto_config (config_data : AutoTradeConfigUpdate)
  (current_user : User.t) (db : Session)
  : Session * response AutoTradeConfig.t :=
  match first (config_of (User.id current_user)) (auto_trade_configs db) with
  | None => (db, HTTPException 404 "Auto-trading config not found")
  | Some config =>
      (set_auto_trade_configs db
         (update_first (config_of (User.id current_user))
                       (apply_update config_data) (auto_trade_configs db)),
       Returned (apply_update config_data config))
  end.

(** [get_portfolio]: the prices are refreshed, then the rows of the user
    are returned. *)
Definition get_portfolio (current_user : User.t) (db : Session)
  : Session * response (list Portfolio.t) :=
  match update_portfolio_prices (User.id current_user) db with
  | (db', Ok _) =>
      (db', Returned (filter (fun p => (Portfolio.user_id p
                                        =? User.id current_user)%Z)
                             (portfolios db')))
  | (db', Raise e) => (db', Unhandled e)
  end.

End Endpoints.

(* ------------------------------------------------------------------ *)
(** ** The arithmetic of the source in binary64

    The kernel's primitive floats are binary64 with round-to-nearest-even,
    as Python's floats are.  The lines of the source whose result depends
    on rounding or overflow are repeated here on them. *)

Module F64.
Import Floats.
Local Open Scope float_scope.
#[local] Set Warnings "-inexact-float".

(** An [int] of magnitude below 2^53 as a float. *)
Definition of_int (z : Z) : float :=
  if (z <? 0)%Z then - of_uint63 (Uint63.of_Z (- z))
  else of_uint63 (Uint63.of_Z z).

(** [max(a, b)]: [b] when [b > a], else [a]; so [max(nan, b)] is [nan]. *)
Definition py_max (a b : float) : float := if a <? b then b else a.

(** The exact value of a finite float. *)
Definition exact (x : float) : Q :=
  match Prim2SF x with
  | S754_finite s m e =>
      ((if s then -1 else 1) * inject_Z (Z.pos m) * Qpower 2 e)%Q
  | _ => 0%Q
  end.

(** [round(x, 2)]: the exact value is rounded to two decimals, ties to
    even, and the nearest float to that decimal is returned.  From 2^46
    on neighbouring floats are more than a cent apart and [x] is its own
    rounding; below, the number of cents is under 2^53, so that the
    division by 100 rounds once.  [inf] and [nan] are returned as they
    are. *)
Definition round2 (x : float) : float :=
  match Prim2SF x with
  | S754_finite s _ _ =>
      if 70368744177664 <=? abs x then x
      else
        let r := of_int (Z.abs (round_half_even (exact x * 100))) / 100 in
        if s then - r else r
  | _ => x
  end.

(** [int(x)] of a finite float. *)
Definition py_int (x : float) : Z :=
  match Prim2SF x with
  | S754_finite s m e =>
      let n := if (0 <=? e)%Z then (Z.pos m * 2 ^ e)%Z
               else (Z.pos m / 2 ^ (- e))%Z in
      if s then (- n)%Z else n
  | _ => 0%Z
  end.

(** [app/services/trading.py]: what a buy and a sale do to the balance,
    [account.cash_balance -= current_price * quantity] and
    [account.cash_balance += current_price * quantity]. *)
Inductive order : Type :=
| Bought (price : float) (quantity : Z)
| Sold (price : float) (quantity : Z).

Definition settle (cash_balance : float) (o : order) : float :=
  match o with
  | Bought price quantity => cash_balance - price * of_int quantity
  | Sold price quantity => cash_balance + price * of_int quantity
  end.

(** The balance after a sequence of orders that all succeed. *)
Definition balance (cash_balance : float) (orders : list order) : float :=
  fold_left settle orders cash_balance.

(** The sums of [price * quantity] over the buys and over the sales, and
    the initial balance minus the one plus the other. *)
Fixpoint bought (orders : list order) : float :=
  match orders with
  | [] => 0
  | Bought price quantity :: rest => price * of_int quantity + bought rest
  | Sold _ _ :: rest => bought rest
  end.

Fixpoint sold (orders : list order) : float :=
  match orders with
  | [] => 0
  | Sold price quantity :: rest => price * of_int quantity + sold rest
  | Bought _ _ :: rest => sold rest
  end.

Definition regrouped (cash_balance : float) (orders : list order) : float :=
  cash_balance - bought orders + sold orders.

(** [scheduler/auto_trader.py]: [int(account.cash_balance / current_price)]. *)
Definition affordable (cash_balance current_price : float) : Z :=
  py_int (cash_balance / current_price).

(** [scheduler/price_simulator.py]: one turn of the backfill loop on the
    running price,
    [volatility = BASE_VOLATILITY + uniform(-VOLATILITY_RANGE, VOLATILITY_RANGE)],
    [price_change = current_price * volatility * uniform(-1, 1)],
    [current_price = max(current_price + price_change, 1.0)],
    and the price the tick stores, [round(current_price, 2)]. *)
Definition BASE_VOLATILITY : float := 0.02.
Definition VOLATILITY_RANGE : float := 0.005.

Definition historical_price (current_price noise direction : float) : float :=
  let volatility := BASE_VOLATILITY + noise in
  let price_change := current_price * volatility * direction in
  py_max (current_price + price_change) 1.0.


(** The running price after [n] turns that all draw the same values. *)
Definition running_price (noise direction : float) (n : positive)
  (initial_price : float) : float :=
  Pos.iter (fun current_price =>
              historical_price current_price noise direction)
           initial_price n.

(** The two draws are in the ranges of their generators. *)
Definition in_range (noise direction : float) : bool :=
  (- VOLATILITY_RANGE <=? noise) && (noise <=? VOLATILITY_RANGE)
  && (-1 <=? direction) && (direction <=? 1).

End F64.

(* ------------------------------------------------------------------ *)
(** ** Notions the specification uses *)

Module Spec.
Local Open Scope py_scope.
Import Trading.

(** The account [user_id] holds [q] shares of [ticker_id]: the pair has
    one portfolio row, of that quantity. *)
Definition holding (db : Session) (user_id ticker_id q : Z) : Prop :=
  exists p, filter (position_of user_id ticker_id) (portfolios db) = [p]
            /\ Portfolio.quantity p = q.

(** The instrument has pricing data. *)
Definition priced (db : Session) (ticker_id : Z) : Prop :=
  exists tick, In tick (price_ticks db) /\ PriceTick.ticker_id tick = ticker_id.

Definition has_account (db : Session) (user_id : Z) : Prop :=
  exists a, In a (accounts db) /\ Account.user_id a = user_id.

(** The rows of a pair are backed: there is at most one, and when there
    is one the instrument has pricing data and the user an account. *)
Definition backed (db : Session) (user_id ticker_id : Z) : Prop :=
  filter (position_of user_id ticker_id) (portfolios db) = []
  \/ ((exists p, filter (position_of user_id ticker_id) (portfolios db) = [p])
      /\ priced db ticker_id /\ has_account db user_id).

Definition ledger_consistent (db : Session) : Prop :=
  forall user_id ticker_id, backed db user_id ticker_id.

(** What can happen to the store between two observations of an account:
    a buy or a sell by some user, or the simulator appending a tick. *)
Inductive op : Type :=
| Buy (user_id ticker_id quantity : Z)
| Sell (user_id ticker_id quantity : Z)
| Quote (tick : PriceTick.t).

Definition step (o : op) : M unit :=
  match o with
  | Buy u t q => execute_buy u t q ;; ret tt
  | Sell u t q => execute_sell u t q ;; ret tt
  | Quote tick =>
      modify (fun db => set_price_ticks db (price_ticks db ++ [tick]))
  end.

(** A sequence of operations, each of which succeeds. *)
Definition run (ops : list op) : M unit := for_each step ops.

Definition is_buy (t : Trade.t) : bool := String.eqb (Trade.action t) "BUY".
Definition is_sell (t : Trade.t) : bool := String.eqb (Trade.action t) "SELL".

Definition trades_of (user_id : Z) (ts : list Trade.t) : list Trade.t :=
  filter (fun t => (Trade.user_id t =? user_id)%Z) ts.

(** The signed cash delta of a record, applied to a balance. *)
Definition apply_trade (c : pyfloat) (t : Trade.t) : pyfloat :=
  if is_buy t then c - Trade.total_amount t else c + Trade.total_amount t.

(** Every record of [ts] carries, as [cash_after], the balance that
    results from applying it to the balance before it, starting at [c]. *)
Fixpoint recorded (c : pyfloat) (ts : list Trade.t) : Prop :=
  match ts with
  | [] => True
  | t :: ts' =>
      Trade.cash_after t = apply_trade c t /\ recorded (Trade.cash_after t) ts'
  end.

(** The operation is a buy of [ticker_id] by [user_id]. *)
Definition buys_into (user_id ticker_id : Z) (o : op) : Prop :=
  match o with
  | Buy u t _ => u = user_id /\ t = ticker_id
  | _ => False
  end.

(** The pair an operation trades, if it trades. *)
Definition trades_pair (user_id ticker_id : Z) (o : op) : Prop :=
  match o with
  | Buy u t _ | Sell u t _ => u = user_id /\ t = ticker_id
  | Quote _ => False
  end.

(** The rows of a pair: none, or one whose average price is [avg]. *)
Definition basis_kept (avg : pyfloat) (rows : list Portfolio.t) : Prop :=
  rows = [] \/ exists p, rows = [p] /\ Portfolio.avg_price p = avg.

Definition buy_or_sell (t : Trade.t) : Prop :=
  Trade.action t = "BUY" \/ Trade.action t = "SELL".

(** The record an operation appends to the trade log: user, side,
    instrument and quantity. *)
Definition logged (o : op) : list (Z * string * Z * Z) :=
  match o with
  | Buy u t q => [(u, "BUY", t, q)]
  | Sell u t q => [(u, "SELL", t, q)]
  | Quote _ => []
  end.

Definition entry (t : Trade.t) : Z * string * Z * Z :=
  (Trade.user_id t, Trade.action t, Trade.ticker_id t, Trade.quantity t).

Definition priced_at_cost (t : Trade.t) : Prop :=
  Trade.total_amount t = Trade.price t * of_int (Trade.quantity t).

(** The shape the specification gives a signal. *)
Definition in_unit_interval (c : pyfloat) : Prop :=
  match c with
  | Fin q => (0 <= q /\ q <= 1)%Q
  | _ => False
  end.

Definition signal_shape (s : Predictions.Signal) : Prop :=
  (Predictions.action s = "BUY" \/ Predictions.action s = "SELL"
   \/ Predictions.action s = "HOLD")
  /\ in_unit_interval (Predictions.confidence s).

(** An advisory response that leads to the fallback, or whose decoded
    object already has the shape of a signal. *)
Definition advisory_in_shape (adv : Predictions.advisory) : Prop :=
  match adv with
  | Predictions.Response 200 (Predictions.Object a c r) =>
      signal_shape
        (Predictions.mkSignal
           (upper (Predictions.get_default a "HOLD"))
           (Predictions.get_default c (dec 5 10))
           (Predictions.get_default r "AI prediction"))
  | _ => True
  end.

(** A finite price above zero. *)
Definition positive_price (x : pyfloat) : Prop :=
  exists q, x = Fin q /\ (0 < q)%Q.

Definition prices_positive (ticks : list PriceTick.t) : Prop :=
  Forall (fun t => positive_price (PriceTick.price t)) ticks.









Definition in_range (lo hi x : Q) : Prop := (lo <= x /\ x <= hi)%Q.

(** The instrument has at least one price point. *)
Definition has_ticks (db : Session) (ticker_id : Z) : Prop :=
  filter (PriceSimulator.ticker_is ticker_id) (price_ticks db) <> [].

(** Everything the backfill loop has produced so far: what is saved and
    what is still in the batch. *)
Definition produced (st : PriceSimulator.Loop) : list PriceTick.t :=
  (price_ticks (PriceSimulator.session st) ++ PriceSimulator.batch st)%list.

Definition finite_price (st : PriceSimulator.Loop) : Prop :=
  exists q, PriceSimulator.current_price st = Fin q.

(** The two sessions differ at most in their price ticks. *)
Definition same_tables (db db' : Session) : Prop :=
  users db' = users db /\ accounts db' = accounts db
  /\ tickers db' = tickers db /\ portfolios db' = portfolios db
  /\ trades db' = trades db /\ auto_trade_configs db' = auto_trade_configs db.

Definition tick_of (ticker_id : Z) (t : PriceTick.t) : Prop :=
  PriceTick.ticker_id t = ticker_id.

(** The RSI as a function of the relative strength. *)
Definition rsi_of (rs : pyfloat) : pyfloat :=
  Fin 100 - np_div (Fin 100) (Fin 1 + rs).

(** Fifteen equal prices, and fifteen rising ones. *)
Definition flat_series : Indicators.Series := repeat (dec 5 1) 15.

Definition rising_series : Indicators.Series :=
  map (fun n => of_int (Z.of_nat n)) (seq 1 15).

(** A store with one account of 10000 in cash that trades automatically
    above a confidence of 0.8, and one instrument priced at 100. *)
Definition demo_user : User.t := User.mk 7 "ada".
Definition demo_account : Account.t := Account.mk 1 7 (dec 10000 1).
Definition demo_ticker : Ticker.t := Ticker.mk 3 "AAPL" "Apple Inc.".
Definition demo_config : AutoTradeConfig.t :=
  AutoTradeConfig.mk 7 true (dec 8 10) 5.
Definition demo_db : Session :=
  mkSession [demo_user] [demo_account] [demo_ticker]
            [PriceTick.mk 3 (dec 100 1) 500000 10] [] [] [demo_config].

(** Two shares bought at 100, a new price of 110, one share sold. *)
Definition demo_ops : list op :=
  [Buy 7 3 2; Quote (PriceTick.mk 3 (dec 110 1) 400000 20); Sell 7 3 1].

(** A new price of 110 between two buys; then a sale, a buy of another
    instrument, and a second sale. *)
Definition demo_between : list op :=
  [Quote (PriceTick.mk 3 (dec 110 1) 400000 20)].

Definition demo_after : list op :=
  [Sell 7 3 1; Quote (PriceTick.mk 4 (dec 50 1) 300000 30);
   Buy 7 4 1; Sell 7 3 2].

(** An advisory service that always answers with the given action and
    confidence. *)
Definition answers (a : string) (c : pyfloat) : Z -> Z -> Predictions.advisory :=
  fun _ _ =>
    Predictions.Response 200 (Predictions.Object (Some a) (Some c) None).

(** A random source that always returns the same values. *)
Definition steady (noise direction chance : pyfloat) (volume : Z)
  : nat -> PriceSimulator.Draw :=
  fun _ => PriceSimulator.mkDraw noise direction chance volume.

End Spec.
Import Spec.

(* ------------------------------------------------------------------ *)
(** ** Notions for the invariants of the engine *)

Module Notions.
Local Open Scope py_scope.
Import Trading.

(** The tables the execution engine only reads. *)
Definition engine_frame (db db' : Session) : Prop :=
  users db' = users db /\ tickers db' = tickers db
  /\ price_ticks db' = price_ticks db
  /\ auto_trade_configs db' = auto_trade_configs db.

Definition row_of_user (user_id : Z) (p : Portfolio.t) : bool :=
  (Portfolio.user_id p =? user_id)%Z.

(** Nothing that belongs to the user has changed: the account rows, the
    portfolio rows and the trade records. *)
Definition untouched (user_id : Z) (db db' : Session) : Prop :=
  filter (account_of user_id) (accounts db')
  = filter (account_of user_id) (accounts db)
  /\ filter (row_of_user user_id) (portfolios db')
     = filter (row_of_user user_id) (portfolios db)
  /\ trades_of user_id (trades db') = trades_of user_id (trades db).

(** The trade log has only grown. *)
Definition log_extended (db db' : Session) : Prop :=
  exists new, trades db' = (trades db ++ new)%list.

(** What a computation on behalf of one user may do: append to the
    trade log and write rows of that user. *)
Definition contained (user_id : Z) (db db' : Session) : Prop :=
  engine_frame db db' /\ log_extended db db'
  /\ forall u, u <> user_id -> untouched u db db'.

(** No enabled auto-trading configuration belongs to the user. *)
Definition not_enrolled (db : Session) (user_id : Z) : Prop :=
  forall c, In c (auto_trade_configs db) ->
            AutoTradeConfig.enabled c = true ->
            AutoTradeConfig.user_id c <> user_id.

(** The number of shares of the pair, 0 without a row. *)
Definition held (db : Session) (user_id ticker_id : Z) : Z :=
  match first (position_of user_id ticker_id) (portfolios db) with
  | Some p => Portfolio.quantity p
  | None => 0
  end.

(** The shares an operation adds to the pair. *)
Definition net_quantity (user_id ticker_id : Z) (o : op) : Z :=
  match o with
  | Buy u t q =>
      if (u =? user_id)%Z && (t =? ticker_id)%Z then q else 0
  | Sell u t q =>
      if (u =? user_id)%Z && (t =? ticker_id)%Z then (- q)%Z else 0
  | Quote _ => 0
  end.

(** The operation is an order of the user. *)
Definition by_user (user_id : Z) (o : op) : Prop :=
  match o with
  | Buy u _ _ | Sell u _ _ => u = user_id
  | Quote _ => False
  end.

(** A finite float that is not negative. *)
Definition nonnegative (x : pyfloat) : Prop :=
  exists q, x = Fin q /\ (0 <= q)%Q.

Definition quantities_positive (db : Session) : Prop :=
  Forall (fun p => (0 < Portfolio.quantity p)%Z) (portfolios db).

Definition cash_nonnegative (db : Session) : Prop :=
  Forall (fun a => nonnegative (Account.cash_balance a)) (accounts db).

(** An order for a positive number of shares, or a tick with a positive
    price. *)
Definition sound_op (o : op) : Prop :=
  match o with
  | Buy _ _ q | Sell _ _ q => (0 < q)%Z
  | Quote tick => positive_price (PriceTick.price tick)
  end.

(** [lo <= x <= hi] for a finite [x], as a proposition on the value. *)
Definition between (lo hi : Q) (x : pyfloat) : Prop :=
  exists q, x = Fin q /\ (lo <= q)%Q /\ (q <= hi)%Q.

(** The advisory service gives no usable answer, and the rules decide. *)
Definition falls_back (adv : Predictions.advisory) : Prop :=
  match adv with
  | Predictions.Response status_code (Predictions.Object _ _ _) =>
      status_code <> 200
  | _ => True
  end.

(** A quantity that the [Integer] column of the trade log holds; such
    an [int] converts to a float without error. *)
Definition fits_integer_column (n : Z) : Prop :=
  (- 2 ^ 31 <= n < 2 ^ 31)%Z.

(** A text of ASCII characters: on such a text [Py.upper] is
    [str.upper]. *)
Definition ascii_text (s : string) : Prop :=
  Forall (fun c => (nat_of_ascii c < 128)%nat) (list_ascii_of_string s).

(** The action the advisory service answers with, if it does, is ASCII
    text. *)
Definition answers_in_ascii (adv : Predictions.advisory) : Prop :=
  match adv with
  | Predictions.Response _ (Predictions.Object (Some action) _ _) =>
      ascii_text action
  | _ => True
  end.

(** The signal of the rules when the RSI decides nothing. *)
Definition hold_signal : Predictions.Signal :=
  Predictions.mkSignal "HOLD" (dec 5 10) "Insufficient data for clear signal".

(** An entry of a series of differences: missing, or finite. *)
Definition nan_or_finite (x : pyfloat) : Prop := x = NaN \/ finite x.

(** Fifteen falling prices: 19, 18, ..., 5. *)
Definition falling_series : Indicators.Series :=
  map (fun n => of_int (20 - Z.of_nat n)) (seq 1 15).

(** The turns the backfill loop still makes from the time [t]. *)
Definition turns_left (t end_time : Z) : nat :=
  if (t <=? end_time)%Z then PriceSimulator.iterations t end_time else O.

(** [n] points in time from [start], one every five minutes. *)
Definition schedule (start : Z) (n : nat) : list Z :=
  map (fun i =>
         (start + Z.of_nat i
                  * PriceSimulator.minutes
                      PriceSimulator.HISTORICAL_INTERVAL_MINUTES)%Z)
      (seq 0 n).

(** The price [simulate_price_tick] starts from: that of the latest
    tick, or the initial price of the symbol. *)
Definition last_price_of (db : Session) (ticker : Ticker.t) : pyfloat :=
  match hd_error (ticks_desc db (Ticker.id ticker)) with
  | Some last_tick => PriceTick.price last_tick
  | None => PriceSimulator.initial_price_of (Ticker.symbol ticker)
  end.

(** The two sessions differ at most in their ticker table. *)
Definition only_tickers_differ (db db' : Session) : Prop :=
  users db' = users db /\ accounts db' = accounts db
  /\ price_ticks db' = price_ticks db /\ portfolios db' = portfolios db
  /\ trades db' = trades db /\ auto_trade_configs db' = auto_trade_configs db.

(** The ticker table has a row for the symbol. *)
Definition listed (db : Session) (sym : string) : Prop :=
  exists t, first (PriceSimulator.has_symbol sym) (tickers db) = Some t.

(** A portfolio row with the latest price of its instrument, if there is
    one. *)
Definition refreshed (db : Session) (p : Portfolio.t) : Portfolio.t :=
  match hd_error (ticks_desc db (Portfolio.ticker_id p)) with
  | Some tick => Trading.set_current_price (PriceTick.price tick) p
  | None => p
  end.

(** The portfolio table after the rows of a user have been refreshed. *)
Definition refreshed_rows (db : Session) (user_id : Z) : list Portfolio.t :=
  map (fun p => if row_of_user user_id p then refreshed db p else p)
      (portfolios db).

(** The two sessions differ at most in the auto-trading
    configurations. *)
Definition only_configs_differ (db db' : Session) : Prop :=
  users db' = users db /\ accounts db' = accounts db
  /\ tickers db' = tickers db /\ price_ticks db' = price_ticks db
  /\ portfolios db' = portfolios db /\ trades db' = trades db.

(** The configuration rows of the other users. *)
Definition configs_of_others (user_id : Z) (db : Session)
  : list AutoTradeConfig.t :=
  filter (fun c => negb (Endpoints.config_of user_id c))
         (auto_trade_configs db).

End Notions.

(* ================================================================== *)
(** * Properties *)

Local Open Scope Z_scope.

(* ------------------------------------------------------------------ *)
(** ** Facts about Python floats *)

Module PyFacts.
Local Open Scope py_scope.

Lemma Qlt_bool_iff (a b : Q) : Qlt_bool a b = true <-> (a < b)%Q.
Proof.
  unfold Qlt_bool. rewrite negb_true_iff.
  split; intro H.
  - apply Qnot_le_lt. intro Hle. apply Qle_bool_iff in Hle. congruence.
  - destruct (Qle_bool b a) eqn:E; [|reflexivity].
    apply Qle_bool_iff in E. exfalso. apply (Qlt_not_le _ _ H E).
Qed.

Lemma Qlt_bool_false_iff (a b : Q) : Qlt_bool a b = false <-> (b <= a)%Q.
Proof.
  unfold Qlt_bool. rewrite negb_false_iff. apply Qle_bool_iff.
Qed.

Lemma is_zero_iff (q : Q) : is_zero q = true <-> (q == 0)%Q.
Proof. unfold is_zero. apply Qeq_bool_iff. Qed.

Lemma is_zero_false_iff (q : Q) : is_zero q = false <-> ~ (q == 0)%Q.
Proof.
  unfold is_zero. split; intro H.
  - intro E. apply Qeq_bool_iff in E. congruence.
  - destruct (Qeq_bool q 0) eqn:E; [|reflexivity].
    apply Qeq_bool_iff in E. contradiction.
Qed.

Lemma same_refl (x : pyfloat) : x ~= x.
Proof. destruct x; simpl; auto. reflexivity. Qed.

Lemma same_sym (x y : pyfloat) : x ~= y -> y ~= x.
Proof. destruct x, y; simpl; auto. intro H. symmetry. exact H. Qed.

Lemma same_trans (x y z : pyfloat) : x ~= y -> y ~= z -> x ~= z.
Proof.
  destruct x, y, z; simpl; auto; try contradiction.
  intros H1 H2. rewrite H1. exact H2.
Qed.

#[export] Instance same_equivalence : Equivalence same.
Proof.
  split; [exact same_refl | exact same_sym | exact same_trans].
Qed.

Lemma eq_same (x y : pyfloat) : x = y -> x ~= y.
Proof. intros ->. apply same_refl. Qed.

#[export] Instance fneg_proper : Proper (same ==> same) fneg.
Proof.
  intros x y H. destruct x, y; simpl in *; auto. rewrite H. reflexivity.
Qed.

#[export] Instance fadd_proper : Proper (same ==> same ==> same) fadd.
Proof.
  intros x x' Hx y y' Hy.
  destruct x, x', y, y'; simpl in *; auto; try contradiction.
  rewrite Hx, Hy. reflexivity.
Qed.

#[export] Instance fsub_proper : Proper (same ==> same ==> same) fsub.
Proof.
  intros x x' Hx y y' Hy. unfold fsub. rewrite Hx, Hy. reflexivity.
Qed.

Lemma is_zero_proper (a b : Q) : (a == b)%Q -> is_zero a = is_zero b.
Proof.
  intro H. destruct (is_zero b) eqn:E.
  - apply is_zero_iff. apply is_zero_iff in E. rewrite H. exact E.
  - apply is_zero_false_iff. apply is_zero_false_iff in E. rewrite H. exact E.
Qed.

Lemma Qlt_bool_proper (a a' b b' : Q) :
  (a == a')%Q -> (b == b')%Q -> Qlt_bool a b = Qlt_bool a' b'.
Proof.
  intros Ha Hb. destruct (Qlt_bool a' b') eqn:E.
  - apply Qlt_bool_iff. apply Qlt_bool_iff in E. rewrite Ha, Hb. exact E.
  - apply Qlt_bool_false_iff. apply Qlt_bool_false_iff in E.
    rewrite Ha, Hb. exact E.
Qed.

Lemma signed_inf_proper (s : bool) (a b : Q) :
  (a == b)%Q -> signed_inf s a = signed_inf s b.
Proof.
  intro H. unfold signed_inf, is_pos.
  rewrite (is_zero_proper a b H).
  rewrite (Qlt_bool_proper 0 0 a b (Qeq_refl 0) H). reflexivity.
Qed.

#[export] Instance flt_proper : Proper (same ==> same ==> eq) flt.
Proof.
  intros x x' Hx y y' Hy.
  destruct x, x', y, y'; simpl in *; try contradiction; try reflexivity.
  apply Qlt_bool_proper; assumption.
Qed.

Lemma round_half_even_proper (a b : Q) :
  (a == b)%Q -> round_half_even a = round_half_even b.
Proof.
  intro H. unfold round_half_even.
  rewrite (Qfloor_comp a b H).
  assert (E : ((a - inject_Z (Qfloor b)) ?= 1 # 2)%Q
              = ((b - inject_Z (Qfloor b)) ?= 1 # 2)%Q).
  { rewrite H. reflexivity. }
  rewrite E. reflexivity.
Qed.

(** Formatting depends on the value only. *)
Lemma format_2f_proper (x y : pyfloat) : x ~= y -> format_2f x = format_2f y.
Proof.
  destruct x, y; simpl; try contradiction; try reflexivity.
  intro H.
  rewrite (round_half_even_proper (q * 100) (q0 * 100))
    by (rewrite H; reflexivity).
  rewrite (Qlt_bool_proper q q0 0 0 H (Qeq_refl 0)). reflexivity.
Qed.

End PyFacts.
Import PyFacts.

Module TradingFacts.
Local Open Scope py_scope.
Import Trading.

Ltac unfold_m := unfold bind, ret, raise, get, modify, lift in *.

Ltac conjs := repeat match goal with |- _ /\ _ => split end.

Lemma get_latest_price_session (t : Z) (db : Session) :
  fst (get_latest_price t db) = db.
Proof.
  unfold get_latest_price. unfold_m.
  destruct (hd_error (ticks_desc db t)); reflexivity.
Qed.

Lemma get_latest_price_cases (t : Z) (db : Session) :
  (exists tick, hd_error (ticks_desc db t) = Some tick
                /\ get_latest_price t db = (db, Ok (PriceTick.price tick)))
  \/ (hd_error (ticks_desc db t) = None
      /\ get_latest_price t db
         = (db, Raise (ValueError "No price data available for this ticker"))).
Proof.
  unfold get_latest_price. unfold_m.
  destruct (hd_error (ticks_desc db t)) as [tick|] eqn:E.
  - left. exists tick. split; reflexivity.
  - right. split; reflexivity.
Qed.

(** What a successful [execute_buy] has done. *)
Lemma execute_buy_ok (u t q : Z) (db db' : Session) (r : TradeResult) :
  execute_buy u t q db = (db', Ok r) ->
  exists price a,
    get_latest_price t db = (db, Ok price)
    /\ first (account_of u) (accounts db) = Some a
    /\ (Account.cash_balance a <? price * of_int q) = false
    /\ accounts db'
       = update_first (account_of u)
           (set_cash_balance (Account.cash_balance a - price * of_int q))
           (accounts db)
    /\ trades db'
       = (trades db
            ++ [Trade.mk u t "BUY" q price (price * of_int q)
                         (Account.cash_balance a - price * of_int q)])%list
    /\ r = mkResult "BUY" q price (price * of_int q)
                    (Account.cash_balance a - price * of_int q)
    /\ price_ticks db' = price_ticks db
    /\ users db' = users db
    /\ tickers db' = tickers db
    /\ auto_trade_configs db' = auto_trade_configs db
    /\ match first (position_of u t) (portfolios db) with
       | Some p =>
           exists avg,
             truediv (Portfolio.avg_price p * of_int (Portfolio.quantity p)
                      + price * of_int q)
                     (of_int (Portfolio.quantity p + q)) = Ok avg
             /\ portfolios db'
                = update_first (position_of u t)
                    (fun row => Portfolio.mk (Portfolio.user_id row)
                                (Portfolio.ticker_id row)
                                (Portfolio.quantity p + q) avg price)
                    (portfolios db)
       | None =>
           portfolios db'
           = (portfolios db ++ [Portfolio.mk u t q price price])%list
       end.
Proof.
  unfold execute_buy. intro H.
  destruct (get_latest_price_cases t db) as [(tick & Hhd & Hp)|(Hhd & Hp)];
    unfold bind at 1 in H; rewrite Hp in H; [|discriminate].
  exists (PriceTick.price tick).
  unfold_m. simpl in H.
  destruct (first (account_of u) (accounts db)) as [a|] eqn:Ha; [|discriminate].
  exists a.
  destruct (Account.cash_balance a <? PriceTick.price tick * of_int q) eqn:Hlt;
    [discriminate|].
  simpl in H.
  destruct (first (position_of u t) (portfolios db)) as [p|] eqn:Hpos.
  - destruct (truediv _ _) as [avg|e] eqn:Hdiv in H; [|discriminate].
    simpl in H. inversion H; subst; clear H. simpl.
    conjs; try reflexivity; try assumption.
    exists avg. split; [exact Hdiv | reflexivity].
  - simpl in H. inversion H; subst; clear H. simpl.
    conjs; try reflexivity; assumption.
Qed.

(** What a successful [execute_sell] has done. *)
Lemma execute_sell_ok (u t q : Z) (db db' : Session) (r : TradeResult) :
  execute_sell u t q db = (db', Ok r) ->
  exists price p a,
    get_latest_price t db = (db, Ok price)
    /\ first (position_of u t) (portfolios db) = Some p
    /\ (Portfolio.quantity p <? q)%Z = false
    /\ first (account_of u) (accounts db) = Some a
    /\ accounts db'
       = update_first (account_of u)
           (set_cash_balance (Account.cash_balance a + price * of_int q))
           (accounts db)
    /\ trades db'
       = (trades db
            ++ [Trade.mk u t "SELL" q price (price * of_int q)
                         (Account.cash_balance a + price * of_int q)])%list
    /\ r = mkResult "SELL" q price (price * of_int q)
                    (Account.cash_balance a + price * of_int q)
    /\ price_ticks db' = price_ticks db
    /\ users db' = users db
    /\ tickers db' = tickers db
    /\ auto_trade_configs db' = auto_trade_configs db
    /\ portfolios db'
       = let updated :=
           update_first (position_of u t)
             (fun row => Portfolio.mk (Portfolio.user_id row)
                           (Portfolio.ticker_id row)
                           (Portfolio.quantity p - q)
                           (Portfolio.avg_price row) price)
             (portfolios db) in
         if (Portfolio.quantity p - q =? 0)%Z
         then delete_first (position_of u t) updated
         else updated.
Proof.
  unfold execute_sell. intro H.
  destruct (get_latest_price_cases t db) as [(tick & Hhd & Hp)|(Hhd & Hp)];
    unfold bind at 1 in H; rewrite Hp in H; [|discriminate].
  exists (PriceTick.price tick).
  unfold_m. simpl in H.
  destruct (first (position_of u t) (portfolios db)) as [p|] eqn:Hpos;
    [|discriminate].
  exists p.
  destruct (Portfolio.quantity p <? q)%Z eqn:Hlt; [discriminate|].
  simpl in H.
  destruct (Portfolio.quantity p - q =? 0)%Z eqn:Hz; simpl in H;
    (destruct (first (account_of u) (accounts db)) as [a|] eqn:Ha;
     [|discriminate]);
    simpl in H; inversion H; subst; clear H; simpl;
    exists a; conjs; try reflexivity; try assumption.
Qed.


End TradingFacts.
Import TradingFacts.

Module TableFacts.

Section Rows.
Context {A : Type}.
Variable p : A -> bool.

Lemma filter_singleton_first (l : list A) (x : A) :
  filter p l = [x] -> first p l = Some x.
Proof.
  unfold first. induction l as [|a l IH]; simpl; [discriminate|].
  destruct (p a); intro H.
  - congruence.
  - auto.
Qed.

Lemma first_none_filter (l : list A) :
  first p l = None <-> filter p l = [].
Proof.
  unfold first. induction l as [|a l IH]; simpl; [tauto|].
  destruct (p a); [split; discriminate | exact IH].
Qed.

Lemma first_some_holds (l : list A) (x : A) :
  first p l = Some x -> p x = true /\ In x l.
Proof.
  unfold first. intro H. apply find_some in H. tauto.
Qed.


Lemma filter_update_first (f : A -> A) (l : list A) :
  (forall x, p x = true -> p (f x) = true) ->
  filter p (update_first p f l)
  = match filter p l with [] => [] | x :: r => f x :: r end.
Proof.
  intro Hf. induction l as [|a l IH]; simpl; [reflexivity|].
  destruct (p a) eqn:E; simpl.
  - rewrite (Hf a E). reflexivity.
  - rewrite E. exact IH.
Qed.

Lemma filter_delete_first (l : list A) :
  filter p (delete_first p l) = tl (filter p l).
Proof.
  induction l as [|a l IH]; simpl; [reflexivity|].
  destruct (p a) eqn:E; simpl; [reflexivity|].
  rewrite E. exact IH.
Qed.

Lemma first_update_first (f : A -> A) (l : list A) (x : A) :
  (forall x, p x = true -> p (f x) = true) ->
  first p l = Some x -> first p (update_first p f l) = Some (f x).
Proof.
  unfold first. intros Hf. induction l as [|a l IH]; simpl; [discriminate|].
  destruct (p a) eqn:E; simpl.
  - intro H. inversion H; subst. rewrite (Hf x E). reflexivity.
  - rewrite E. exact IH.
Qed.

(** Rows that another predicate selects are left alone when the update
    does not move rows in or out of it. *)
Lemma first_update_other (p' : A -> bool) (f : A -> A) (l : list A) :
  (forall x, p x = true -> p' x = false) ->
  (forall x, p x = true -> p' (f x) = false) ->
  first p' (update_first p f l) = first p' l.
Proof.
  unfold first. intros H1 H2. induction l as [|a l IH]; simpl; [reflexivity|].
  destruct (p a) eqn:E; simpl.
  - rewrite (H1 a E), (H2 a E). reflexivity.
  - destruct (p' a); [reflexivity | exact IH].
Qed.

End Rows.

Lemma insert_desc_not_nil (t : PriceTick.t) (l : list PriceTick.t) :
  insert_desc t l <> [].
Proof.
  destruct l as [|u l]; simpl; [discriminate|].
  destruct (PriceTick.timestamp u <? PriceTick.timestamp t); discriminate.
Qed.

Lemma order_by_not_nil (l : list PriceTick.t) :
  l <> [] -> order_by_timestamp_desc l <> [].
Proof.
  destruct l as [|t l]; [congruence|]. intros _. simpl.
  apply insert_desc_not_nil.
Qed.

Lemma priced_latest (db : Session) (t : Z) :
  priced db t -> exists tick, hd_error (ticks_desc db t) = Some tick.
Proof.
  intros (tick & Hin & Hid). unfold ticks_desc.
  assert (Hne : filter (fun x => PriceTick.ticker_id x =? t) (price_ticks db)
                <> []).
  { intro E.
    assert (Hf : In tick (filter (fun x => PriceTick.ticker_id x =? t)
                                 (price_ticks db))).
    { apply filter_In. split; [exact Hin|]. apply Z.eqb_eq. exact Hid. }
    rewrite E in Hf. exact Hf. }
  apply order_by_not_nil in Hne.
  destruct (order_by_timestamp_desc _) as [|x l]; [congruence|].
  exists x. reflexivity.
Qed.

Lemma priced_get_latest_price (db : Session) (t : Z) :
  priced db t -> exists price, Trading.get_latest_price t db = (db, Ok price).
Proof.
  intro H. destruct (priced_latest db t H) as (tick & Hhd).
  destruct (get_latest_price_cases t db) as [(tick' & Hhd' & Hp)|(Hhd' & _)].
  - eauto.
  - congruence.
Qed.

Lemma insert_desc_in (t x : PriceTick.t) (l : list PriceTick.t) :
  In x (insert_desc t l) -> x = t \/ In x l.
Proof.
  induction l as [|u l IH]; simpl.
  - intros [H|[]]. left. congruence.
  - destruct (PriceTick.timestamp u <? PriceTick.timestamp t)%Z; simpl.
    + intros [H|[H|H]]; auto.
    + intros [H|H]; auto. destruct (IH H); auto.
Qed.

Lemma order_by_in (x : PriceTick.t) (l : list PriceTick.t) :
  In x (order_by_timestamp_desc l) -> In x l.
Proof.
  induction l as [|t l IH]; simpl; [tauto|].
  intro H. apply insert_desc_in in H. destruct H as [H|H]; auto.
Qed.

Lemma latest_tick_of (db : Session) (tid : Z) (x : PriceTick.t) :
  hd_error (ticks_desc db tid) = Some x ->
  In x (price_ticks db) /\ PriceTick.ticker_id x = tid.
Proof.
  unfold ticks_desc. intro H.
  destruct (order_by_timestamp_desc _) as [|y l] eqn:E; [discriminate|].
  inversion H; subst y.
  assert (Hin : In x (order_by_timestamp_desc
                        (filter (fun t => PriceTick.ticker_id t =? tid)%Z
                                (price_ticks db)))).
  { rewrite E. left. reflexivity. }
  apply order_by_in in Hin. apply filter_In in Hin.
  destruct Hin as (Hin & Hid). apply Z.eqb_eq in Hid. tauto.
Qed.

Lemma latest_tick_in (db : Session) (tid : Z) (x : PriceTick.t) :
  hd_error (ticks_desc db tid) = Some x -> In x (price_ticks db).
Proof. intro H. apply (latest_tick_of db tid x H). Qed.


End TableFacts.
Import TableFacts.

Module ExecutionProps.
Local Open Scope py_scope.
Import Trading.


Example oversell_is_refused :
  let db := mkSession [] [Account.mk 1 7 (dec 10000 1)] []
              [PriceTick.mk 3 (dec 15037 100) 500000 10]
              [Portfolio.mk 7 3 4 (dec 150 1) (dec 150 1)] [] [] in
  execute_sell 7 3 5 db
  = (db, Raise (ValueError "Insufficient shares. You have 4, trying to sell 5")).
Proof. reflexivity. Qed.



End ExecutionProps.

Module LedgerProps.
Local Open Scope py_scope.
Import Trading.

Lemma account_of_other (u u' : Z) (x : Account.t) :
  u <> u' -> account_of u' x = true -> account_of u x = false.
Proof.
  unfold account_of. intros Hne H. apply Z.eqb_eq in H. apply Z.eqb_neq.
  congruence.
Qed.

Lemma first_account_after_update (u u' : Z) (c : pyfloat) (l : list Account.t)
  (a a' : Account.t) :
  first (account_of u) l = Some a ->
  first (account_of u') l = Some a' ->
  first (account_of u) (update_first (account_of u') (set_cash_balance c) l)
  = Some (if (u =? u')%Z then set_cash_balance c a else a).
Proof.
  intros Ha Ha'. destruct (Z.eqb_spec u u') as [->|Hne].
  - apply first_update_first; [|exact Ha]. intros x Hx. exact Hx.
  - rewrite first_update_other; [exact Ha| |].
    + intros x. apply account_of_other. exact Hne.
    + intros x Hx. apply (account_of_other u u' _ Hne). exact Hx.
Qed.

(** One operation, seen from the account of [u]: the balance [c'] after
    it and the trade records [new] it appends. *)
Lemma step_account (u : Z) (o : op) (db db' : Session) (a : Account.t) :
  first (account_of u) (accounts db) = Some a ->
  step o db = (db', Ok tt) ->
  exists a' new,
    first (account_of u) (accounts db') = Some a'
    /\ trades db' = (trades db ++ new)%list
    /\ map entry new = logged o
    /\ Forall priced_at_cost new
    /\ Forall buy_or_sell new
    /\ recorded (Account.cash_balance a) (trades_of u new)
    /\ Account.cash_balance a'
       = fold_left apply_trade (trades_of u new) (Account.cash_balance a).
Proof.
  intros Ha H. destruct o as [u' t q|u' t q|tick]; simpl in H.
  - unfold bind, ret in H.
    destruct (execute_buy u' t q db) as [db1 [r|e]] eqn:E; [|discriminate].
    inversion H; subst db1; clear H.
    apply execute_buy_ok in E.
    destruct E as (price & a1 & _ & Ha1 & _ & Hacc & Htr & _).
    eexists. eexists. split.
    { rewrite Hacc. apply (first_account_after_update u u' _ _ a a1 Ha Ha1). }
    split; [exact Htr|].
    split; [reflexivity|].
    split; [repeat constructor|].
    split; [constructor; [left; reflexivity | constructor]|].
    unfold trades_of. simpl.
    destruct (Z.eqb_spec u u') as [->|Hne].
    + rewrite Z.eqb_refl. rewrite Ha in Ha1. inversion Ha1; subst a1.
      simpl. unfold apply_trade. simpl. auto.
    + assert (E : (u' =? u)%Z = false) by (apply Z.eqb_neq; congruence).
      rewrite E. simpl. auto.
  - unfold bind, ret in H.
    destruct (execute_sell u' t q db) as [db1 [r|e]] eqn:E; [|discriminate].
    inversion H; subst db1; clear H.
    apply execute_sell_ok in E.
    destruct E as (price & p & a1 & _ & _ & _ & Ha1 & Hacc & Htr & _).
    eexists. eexists. split.
    { rewrite Hacc. apply (first_account_after_update u u' _ _ a a1 Ha Ha1). }
    split; [exact Htr|].
    split; [reflexivity|].
    split; [repeat constructor|].
    split; [constructor; [right; reflexivity | constructor]|].
    unfold trades_of. simpl.
    destruct (Z.eqb_spec u u') as [->|Hne].
    + rewrite Z.eqb_refl. rewrite Ha in Ha1. inversion Ha1; subst a1.
      simpl. unfold apply_trade. simpl. auto.
    + assert (E : (u' =? u)%Z = false) by (apply Z.eqb_neq; congruence).
      rewrite E. simpl. auto.
  - unfold modify in H. inversion H; subst db'; clear H. simpl.
    exists a, []. rewrite app_nil_r. simpl. auto 10.
Qed.

Lemma recorded_app (c : pyfloat) (xs ys : list Trade.t) :
  recorded c xs ->
  recorded (fold_left apply_trade xs c) ys ->
  recorded c (xs ++ ys).
Proof.
  revert c. induction xs as [|x xs IH]; intros c Hx Hy; simpl in *.
  - exact Hy.
  - destruct Hx as (Hc & Hx). split; [exact Hc|].
    apply IH; [exact Hx|]. rewrite Hc. exact Hy.
Qed.

Lemma trades_of_app (u : Z) (xs ys : list Trade.t) :
  trades_of u (xs ++ ys) = (trades_of u xs ++ trades_of u ys)%list.
Proof. unfold trades_of. apply filter_app. Qed.

Lemma Forall_trades_of (P : Trade.t -> Prop) (u : Z) (ts : list Trade.t) :
  Forall P ts -> Forall P (trades_of u ts).
Proof.
  intro H. unfold trades_of. apply Forall_forall. intros x Hx.
  apply filter_In in Hx. destruct Hx as (Hx & _).
  rewrite Forall_forall in H. auto.
Qed.

(** The invariant behind monetary conservation, over a whole run. *)
Lemma run_account (u : Z) (ops : list op) :
  forall (db db' : Session) (a : Account.t),
    first (account_of u) (accounts db) = Some a ->
    run ops db = (db', Ok tt) ->
    exists a' new,
      first (account_of u) (accounts db') = Some a'
      /\ trades db' = (trades db ++ new)%list
      /\ map entry new = flat_map logged ops
      /\ Forall priced_at_cost new
      /\ Forall buy_or_sell new
      /\ recorded (Account.cash_balance a) (trades_of u new)
      /\ Account.cash_balance a'
         = fold_left apply_trade (trades_of u new) (Account.cash_balance a).
Proof.
  induction ops as [|o ops IH]; intros db db' a Ha H.
  - unfold run in H. simpl in H. unfold ret in H. inversion H; subst db'.
    exists a, []. rewrite app_nil_r. simpl. auto 10.
  - unfold run in H. simpl in H. unfold bind at 1 in H.
    destruct (step o db) as [db1 [[]|e]] eqn:E; [|discriminate].
    destruct (step_account u o db db1 a Ha E)
      as (a1 & new1 & Ha1 & Htr1 & Hl1 & Hc1 & Hb1 & Hr1 & Hf1).
    destruct (IH db1 db' a1 Ha1 H)
      as (a' & new2 & Ha' & Htr2 & Hl2 & Hc2 & Hb2 & Hr2 & Hf2).
    exists a', (new1 ++ new2)%list.
    split; [exact Ha'|].
    split; [rewrite Htr2, Htr1, app_assoc; reflexivity|].
    split; [rewrite map_app, Hl1, Hl2; reflexivity|].
    split; [apply Forall_app; auto|].
    split; [apply Forall_app; auto|].
    rewrite trades_of_app. split.
    + apply recorded_app; [exact Hr1|]. rewrite <- Hf1. exact Hr2.
    + rewrite fold_left_app, <- Hf1. exact Hf2.
Qed.

Lemma recorded_last (ts : list Trade.t) :
  forall (c : pyfloat) (d : Trade.t),
    recorded c ts -> ts <> [] ->
    Trade.cash_after (List.last ts d) = fold_left apply_trade ts c.
Proof.
  induction ts as [|t ts IH]; intros c d Hr Hne; [congruence|].
  destruct Hr as (Hc & Hr). destruct ts as [|t' ts].
  - simpl. exact Hc.
  - change (Trade.cash_after (List.last (t' :: ts) d)
            = fold_left apply_trade (t' :: ts) (apply_trade c t)).
    rewrite <- Hc. apply IH; [exact Hr | discriminate].
Qed.

(** C1, amended.  Monetary conservation, operation by operation.  Over
    any run of operations that all succeed (buys and sells of any user,
    with price ticks arriving in between), the records the run appends
    mirror the operations; each record of the account is a BUY or a SELL
    with [total_amount = price * quantity] and carries in [cash_after]
    the balance right after its operation (the last one, the final
    balance); and the final balance is the initial one with the amounts
    of the records applied in order, subtracted for a BUY and added for a
    SELL.  The balance is not claimed to equal the initial balance minus
    the sum of the buys plus the sum of the sales: floating-point
    addition does not regroup. *)
Theorem monetary_conservation (u : Z) (ops : list op) (db db' : Session)
  (a : Account.t) :
  first (account_of u) (accounts db) = Some a ->
  run ops db = (db', Ok tt) ->
  exists a' new,
    first (account_of u) (accounts db') = Some a'
    /\ trades db' = (trades db ++ new)%list
    /\ map entry new = flat_map logged ops
    /\ Forall buy_or_sell (trades_of u new)
    /\ Forall priced_at_cost (trades_of u new)
    /\ recorded (Account.cash_balance a) (trades_of u new)
    /\ (forall d, trades_of u new <> [] ->
         Trade.cash_after (List.last (trades_of u new) d)
         = Account.cash_balance a')
    /\ Account.cash_balance a'
       = fold_left apply_trade (trades_of u new) (Account.cash_balance a).
Proof.
  intros Ha H.
  destruct (run_account u ops db db' a Ha H)
    as (a' & new & Ha' & Htr & Hl & Hc & Hb & Hr & Hf).
  exists a', new.
  split; [exact Ha'|]. split; [exact Htr|]. split; [exact Hl|].
  split; [apply Forall_trades_of; exact Hb|].
  split; [apply Forall_trades_of; exact Hc|].
  split; [exact Hr|].
  split; [intros d Hne; rewrite Hf; apply recorded_last; assumption|].
  exact Hf.
Qed.

Lemma monetary_conservation_witness :
  let db' := fst (run demo_ops demo_db) in
  exists a' new,
    first (account_of 7) (accounts db') = Some a'
    /\ trades db' = (trades demo_db ++ new)%list
    /\ map entry new = flat_map logged demo_ops
    /\ Forall buy_or_sell (trades_of 7 new)
    /\ Forall priced_at_cost (trades_of 7 new)
    /\ recorded (Account.cash_balance demo_account) (trades_of 7 new)
    /\ (forall d, trades_of 7 new <> [] ->
         Trade.cash_after (List.last (trades_of 7 new) d)
         = Account.cash_balance a')
    /\ Account.cash_balance a'
       = fold_left apply_trade (trades_of 7 new)
                   (Account.cash_balance demo_account).
Proof.
  apply (monetary_conservation 7 demo_ops demo_db
           (fst (run demo_ops demo_db)) demo_account);
    vm_compute; reflexivity.
Defined.

Example conservation_in_numbers :
  option_map Account.cash_balance
    (first (account_of 7) (accounts (fst (run demo_ops demo_db))))
  = Some (dec 10000 1 - dec 100 1 * of_int 2 + dec 110 1 * of_int 1).
Proof. reflexivity. Qed.

End LedgerProps.

Module CostBasisProps.
Local Open Scope py_scope.
Import Trading.

Lemma fmul_comm (x y : pyfloat) : x * y ~= y * x.
Proof. destruct x, y; simpl; auto; try apply same_refl. ring. Qed.

Lemma np_div_proper_l (x x' y : pyfloat) :
  x ~= x' -> np_div x y ~= np_div x' y.
Proof.
  intro H. destruct x, x', y; simpl in *; try contradiction; auto;
    try apply same_refl; try reflexivity.
  destruct (is_zero q1).
  - rewrite (signed_inf_proper true q q0 H). apply same_refl.
  - simpl. rewrite H. reflexivity.
Qed.

Lemma truediv_ok (x y z : pyfloat) : truediv x y = Ok z -> z = np_div x y.
Proof.
  unfold truediv. destruct (feqb y (Fin 0)); [discriminate|].
  intro H. inversion H. reflexivity.
Qed.

Section Frames.
Context {A : Type}.
Variables p p' : A -> bool.
Hypothesis disjoint : forall x, p x = true -> p' x = false.

Lemma filter_update_other (f : A -> A) (l : list A) :
  (forall x, p x = true -> p' (f x) = false) ->
  filter p' (update_first p f l) = filter p' l.
Proof.
  intro Hf. induction l as [|a l IH]; simpl; [reflexivity|].
  destruct (p a) eqn:E; simpl.
  - rewrite (disjoint a E), (Hf a E). reflexivity.
  - destruct (p' a); [f_equal|]; exact IH.
Qed.

Lemma filter_delete_other (l : list A) :
  filter p' (delete_first p l) = filter p' l.
Proof.
  induction l as [|a l IH]; simpl; [reflexivity|].
  destruct (p a) eqn:E; simpl.
  - rewrite (disjoint a E). reflexivity.
  - destruct (p' a); [f_equal|]; exact IH.
Qed.

End Frames.

Lemma position_of_other (u t u' t' : Z) (x : Portfolio.t) :
  ~ (u' = u /\ t' = t) ->
  position_of u' t' x = true -> position_of u t x = false.
Proof.
  unfold position_of. intros Hne H.
  apply andb_true_iff in H. destruct H as (H1 & H2).
  apply Z.eqb_eq in H1, H2.
  apply andb_false_iff.
  destruct (Z.eqb_spec (Portfolio.user_id x) u);
    destruct (Z.eqb_spec (Portfolio.ticker_id x) t); auto.
  exfalso. apply Hne. split; congruence.
Qed.

(** An operation on another pair leaves the rows of [(u, t)] alone. *)
Lemma step_frame (u t : Z) (o : op) (db db' : Session) :
  ~ trades_pair u t o ->
  step o db = (db', Ok tt) ->
  filter (position_of u t) (portfolios db')
  = filter (position_of u t) (portfolios db).
Proof.
  intros Hne H. destruct o as [u' t' q|u' t' q|tick]; simpl in *.
  - unfold bind, ret in H.
    destruct (execute_buy u' t' q db) as [db1 [r|e]] eqn:E; [|discriminate].
    inversion H; subst db1; clear H.
    apply execute_buy_ok in E.
    destruct E as (price & a & _ & _ & _ & _ & _ & _ & _ & _ & _ & _ & Hport).
    destruct (first (position_of u' t') (portfolios db)) as [p0|].
    + destruct Hport as (avg & _ & Hport). rewrite Hport.
      apply (filter_update_other (position_of u' t') (position_of u t)).
      * intro x. apply position_of_other. exact Hne.
      * intros x Hx. apply (position_of_other u t u' t' _ Hne). exact Hx.
    + rewrite Hport, filter_app. simpl.
      replace (position_of u t (Portfolio.mk u' t' q price price)) with false.
      * apply app_nil_r.
      * symmetry. apply (position_of_other u t u' t'); [exact Hne|].
        unfold position_of. simpl. rewrite !Z.eqb_refl. reflexivity.
  - unfold bind, ret in H.
    destruct (execute_sell u' t' q db) as [db1 [r|e]] eqn:E; [|discriminate].
    inversion H; subst db1; clear H.
    apply execute_sell_ok in E.
    destruct E as (price & p0 & a & _ & _ & _ & _ & _ & _ & _ & _ & _ & _
                   & _ & Hport).
    cbv zeta in Hport. rewrite Hport.
    assert (Hupd :
      filter (position_of u t)
        (update_first (position_of u' t')
           (fun row => Portfolio.mk (Portfolio.user_id row)
                         (Portfolio.ticker_id row)
                         (Portfolio.quantity p0 - q)
                         (Portfolio.avg_price row) price)
           (portfolios db))
      = filter (position_of u t) (portfolios db)).
    { apply (filter_update_other (position_of u' t') (position_of u t)).
      - intro x. apply position_of_other. exact Hne.
      - intros x Hx. apply (position_of_other u t u' t' _ Hne). exact Hx. }
    destruct (Portfolio.quantity p0 - q =? 0)%Z; [|exact Hupd].
    rewrite (filter_delete_other (position_of u' t') (position_of u t));
      [exact Hupd|].
    intro x. apply position_of_other. exact Hne.
  - unfold modify in H. inversion H; subst db'. reflexivity.
Qed.

(** The rows of the pair [(u, t)] keep their average price, or go, under
    an operation that is not a buy of [t] by [u]. *)
Lemma step_keeps_basis (u t : Z) (o : op) (db db' : Session) (avg : pyfloat) :
  ~ buys_into u t o ->
  step o db = (db', Ok tt) ->
  basis_kept avg (filter (position_of u t) (portfolios db)) ->
  basis_kept avg (filter (position_of u t) (portfolios db')).
Proof.
  intros Hnb H Hrows.
  destruct o as [u' t' q|u' t' q|tick].
  - rewrite (step_frame u t (Buy u' t' q) db db' Hnb H). exact Hrows.
  - destruct (Z.eqb_spec u' u) as [->|Hu];
      [destruct (Z.eqb_spec t' t) as [->|Ht]|].
    + simpl in H. unfold bind, ret in H.
      destruct (execute_sell u t q db) as [db1 [r|e]] eqn:E; [|discriminate].
      inversion H; subst db1; clear H.
      apply execute_sell_ok in E.
      destruct E as (price & p0 & a & _ & Hpos & _ & _ & _ & _ & _ & _ & _ & _
                     & _ & Hport).
      cbv zeta in Hport. rewrite Hport.
      destruct Hrows as [Hnil|(p & Hp & Havg)].
      * apply first_none_filter in Hnil. congruence.
      * destruct (Portfolio.quantity p0 - q =? 0)%Z.
        -- left. rewrite filter_delete_first, filter_update_first.
           ++ rewrite Hp. reflexivity.
           ++ intros x Hx. exact Hx.
        -- right. rewrite filter_update_first.
           ++ rewrite Hp. eexists. split; [reflexivity|]. exact Havg.
           ++ intros x Hx. exact Hx.
    + rewrite (step_frame u t (Sell u t' q) db db'); [exact Hrows| |exact H].
      simpl. tauto.
    + rewrite (step_frame u t (Sell u' t' q) db db'); [exact Hrows| |exact H].
      simpl. tauto.
  - rewrite (step_frame u t (Quote tick) db db'); [exact Hrows| |exact H].
    simpl. tauto.
Qed.

Lemma run_keeps_basis (u t : Z) (avg : pyfloat) (ops : list op) :
  forall db db',
    Forall (fun o => ~ buys_into u t o) ops ->
    run ops db = (db', Ok tt) ->
    basis_kept avg (filter (position_of u t) (portfolios db)) ->
    basis_kept avg (filter (position_of u t) (portfolios db')).
Proof.
  induction ops as [|o ops IH]; intros db db' Hops H Hrows.
  - unfold run in H. simpl in H. unfold ret in H. inversion H; subst db'.
    exact Hrows.
  - unfold run in H. simpl in H. unfold bind at 1 in H.
    destruct (step o db) as [db1 [[]|e]] eqn:E; [|discriminate].
    inversion Hops as [|? ? Ho Hops']; subst.
    apply (IH db1 db' Hops' H).
    apply (step_keeps_basis u t o db db1 avg Ho E Hrows).
Qed.

Lemma run_frame (u t : Z) (ops : list op) :
  forall db db',
    Forall (fun o => ~ trades_pair u t o) ops ->
    run ops db = (db', Ok tt) ->
    filter (position_of u t) (portfolios db')
    = filter (position_of u t) (portfolios db).
Proof.
  induction ops as [|o ops IH]; intros db db' Hops H.
  - unfold run in H. simpl in H. unfold ret in H. inversion H; subst db'.
    reflexivity.
  - unfold run in H. simpl in H. unfold bind at 1 in H.
    destruct (step o db) as [db1 [[]|e]] eqn:E; [|discriminate].
    inversion Hops as [|? ? Ho Hops']; subst.
    rewrite (IH db1 db' Hops' H).
    apply (step_frame u t o db db1 Ho E).
Qed.

(** C3.  Starting without a position, a buy of [q1] at price [p1]
    followed (after anything that does not trade the pair: new prices,
    other accounts, other instruments) by a buy of [q2] at price [p2]
    leaves one position of [q1 + q2] shares whose average cost is
    [(q1*p1 + q2*p2) / (q1 + q2)].  Whatever runs afterwards, as long as
    it contains no further buy of the instrument by the account (sells of
    any quantity the position covers included), the position keeps that
    average cost until it is deleted. *)
Theorem average_cost_basis (u t q1 q2 : Z) (db0 db1 db1' db2 db3 : Session)
  (r1 r2 : TradeResult) (between ops : list op) :
  first (position_of u t) (portfolios db0) = None ->
  execute_buy u t q1 db0 = (db1, Ok r1) ->
  Forall (fun o => ~ trades_pair u t o) between ->
  run between db1 = (db1', Ok tt) ->
  execute_buy u t q2 db1' = (db2, Ok r2) ->
  Forall (fun o => ~ buys_into u t o) ops ->
  run ops db2 = (db3, Ok tt) ->
  exists p,
    filter (position_of u t) (portfolios db2) = [p]
    /\ Portfolio.quantity p = (q1 + q2)%Z
    /\ Portfolio.avg_price p
       ~= np_div (of_int q1 * price r1 + of_int q2 * price r2)
                 (of_int (q1 + q2))
    /\ (filter (position_of u t) (portfolios db3) = []
        \/ exists p', filter (position_of u t) (portfolios db3) = [p']
                      /\ Portfolio.avg_price p' = Portfolio.avg_price p).
Proof.
  intros Hnone Hb1 Hbetween Hrun1 Hb2 Hops Hrun.
  apply execute_buy_ok in Hb1.
  destruct Hb1 as (p1 & a1 & _ & _ & _ & _ & _ & Hr1 & _ & _ & _ & _ & Hport1).
  rewrite Hnone in Hport1.
  apply first_none_filter in Hnone.
  assert (Hself : position_of u t (Portfolio.mk u t q1 p1 p1) = true).
  { unfold position_of. simpl. rewrite !Z.eqb_refl. reflexivity. }
  assert (Hrows1 :
    filter (position_of u t) (portfolios db1') = [Portfolio.mk u t q1 p1 p1]).
  { rewrite (run_frame u t between db1 db1' Hbetween Hrun1).
    rewrite Hport1, filter_app, Hnone. simpl. rewrite Hself. reflexivity. }
  apply execute_buy_ok in Hb2.
  destruct Hb2 as (p2 & a2 & _ & _ & _ & _ & _ & Hr2 & _ & _ & _ & _ & Hport2).
  rewrite (filter_singleton_first _ _ _ Hrows1) in Hport2.
  destruct Hport2 as (avg & Hdiv & Hport2). simpl in Hdiv.
  assert (Hrows2 :
    filter (position_of u t) (portfolios db2)
    = [Portfolio.mk u t (q1 + q2) avg p2]).
  { rewrite Hport2, filter_update_first.
    - rewrite Hrows1. reflexivity.
    - intros x Hx. exact Hx. }
  exists (Portfolio.mk u t (q1 + q2) avg p2).
  split; [exact Hrows2|]. split; [reflexivity|]. split.
  - simpl. subst r1 r2. simpl. rewrite (truediv_ok _ _ _ Hdiv).
    apply np_div_proper_l. apply fadd_proper; apply fmul_comm.
  - simpl.
    apply (run_keeps_basis u t avg ops db2 db3 Hops Hrun).
    right. eexists. split; [exact Hrows2 | reflexivity].
Qed.

Example basis_after_two_buys :
  let db1 := fst (execute_buy 7 3 2 demo_db) in
  let db1' := fst (run demo_between db1) in
  let db2 := fst (execute_buy 7 3 3 db1') in
  map Portfolio.avg_price (portfolios db2)
  = [np_div (dec 100 1 * of_int 2 + dec 110 1 * of_int 3) (of_int 5)].
Proof. vm_compute. reflexivity. Qed.

Lemma average_cost_basis_witness :
  let db1 := fst (execute_buy 7 3 2 demo_db) in
  let db1' := fst (run demo_between db1) in
  let db2 := fst (execute_buy 7 3 3 db1') in
  let db3 := fst (run demo_after db2) in
  exists p,
    filter (position_of 7 3) (portfolios db2) = [p]
    /\ Portfolio.quantity p = (2 + 3)%Z
    /\ Portfolio.avg_price p
       ~= np_div (of_int 2 * dec 100 1 + of_int 3 * dec 110 1) (of_int (2 + 3))
    /\ (filter (position_of 7 3) (portfolios db3) = []
        \/ exists p', filter (position_of 7 3) (portfolios db3) = [p']
                      /\ Portfolio.avg_price p' = Portfolio.avg_price p).
Proof.
  apply (average_cost_basis 7 3 2 3 demo_db
           (fst (execute_buy 7 3 2 demo_db))
           (fst (run demo_between (fst (execute_buy 7 3 2 demo_db))))
           (fst (execute_buy 7 3 3
                   (fst (run demo_between (fst (execute_buy 7 3 2 demo_db))))))
           (fst (run demo_after
                   (fst (execute_buy 7 3 3
                           (fst (run demo_between
                                   (fst (execute_buy 7 3 2 demo_db))))))))
           (mkResult "BUY" 2 (dec 100 1) (dec 100 1 * of_int 2)
                     (dec 10000 1 - dec 100 1 * of_int 2))
           (mkResult "BUY" 3 (dec 110 1) (dec 110 1 * of_int 3)
                     (dec 10000 1 - dec 100 1 * of_int 2
                      - dec 110 1 * of_int 3))
           demo_between demo_after).
  - vm_compute. reflexivity.
  - vm_compute. reflexivity.
  - constructor; [simpl; tauto|]. constructor.
  - vm_compute. reflexivity.
  - vm_compute. reflexivity.
  - constructor; [simpl; tauto|]. constructor; [simpl; tauto|].
    constructor; [simpl; intros (_ & H); discriminate|].
    constructor; [simpl; tauto|]. constructor.
  - vm_compute. reflexivity.
Defined.

End CostBasisProps.

Module SignalProps.
Local Open Scope py_scope.
Import Indicators Predictions.

Example fallback_oversold_only :
  rule_based_fallback [("rsi_14", Some (dec 25 1))]
  = mkSignal "BUY" (dec 7 10) "RSI (25.00) indicates oversold conditions".
Proof. reflexivity. Qed.

Example fallback_crossover_without_macd :
  confidence
    (rule_based_fallback
       [("rsi_14", Some (dec 75 1)); ("macd_histogram", Some (dec 1 10));
        ("sma_20", Some (dec 90 1)); ("sma_50", Some (dec 100 1))])
  = py_min (dec 9 10) (dec 7 10 + dec 1 10).
Proof. reflexivity. Qed.

Example fallback_nan_rsi_holds :
  rule_based_fallback [("rsi_14", Some NaN); ("macd_histogram", Some (dec 5 10))]
  = mkSignal "HOLD" (dec 5 10) "Insufficient data for clear signal".
Proof. reflexivity. Qed.

(** C4.  With RSI 25, MACD histogram +0.5, SMA(20) 110 and SMA(50) 100,
    whatever else the snapshot holds, the fallback answers BUY with
    confidence exactly 0.90: the RSI rule gives 0.70, the MACD rule lifts
    it to 0.85 and the crossover rule to 0.90; the reason carries the
    momentum clause and the crossover clause. *)
Theorem fallback_full_confirmation (indicators : Snapshot)
  (rsi macd_histogram sma_20 sma_50 : pyfloat) :
  get_ indicators "rsi_14" = Some rsi -> rsi ~= dec 25 1 ->
  get_ indicators "macd_histogram" = Some macd_histogram ->
  macd_histogram ~= dec 5 10 ->
  get_ indicators "sma_20" = Some sma_20 -> sma_20 ~= dec 110 1 ->
  get_ indicators "sma_50" = Some sma_50 -> sma_50 ~= dec 100 1 ->
  let base := rsi_rule (get_ indicators "rsi_14") in
  let confirmed := macd_rule (get_ indicators "macd_histogram") base in
  let s := rule_based_fallback indicators in
  confidence base = dec 7 10
  /\ confidence confirmed = dec 85 100
  /\ action s = "BUY"
  /\ confidence s = dec 9 10
  /\ contains " with positive MACD momentum" (reason s) = true
  /\ contains " and bullish MA crossover" (reason s) = true
  /\ reason s
     = "RSI (25.00) indicates oversold conditions with positive MACD momentum and bullish MA crossover".
Proof.
  intros Hrsi Ersi Hmacd Emacd H20 E20 H50 E50. unfold rule_based_fallback.
  rewrite Hrsi, Hmacd, H20, H50. cbv zeta.
  assert (R1 : (rsi <? Fin 30) = true) by (rewrite Ersi; reflexivity).
  assert (R2 : (macd_histogram >? Fin 0) = true)
    by (unfold fgt; rewrite Emacd; reflexivity).
  assert (R3 : (sma_20 >? sma_50) = true)
    by (unfold fgt; rewrite E20, E50; reflexivity).
  assert (R4 : format_2f rsi = "25.00")
    by (rewrite (format_2f_proper _ _ Ersi); reflexivity).
  unfold rsi_rule. rewrite R1, R4.
  unfold macd_rule. cbn [action confidence reason]. rewrite R2.
  unfold crossover_rule. cbn [action confidence reason]. rewrite R3.
  repeat split; reflexivity.
Qed.

Lemma fallback_full_confirmation_witness :
  let indicators :=
    [("sma_20", Some (dec 110 1)); ("sma_50", Some (dec 200 2));
     ("ema_12", Some (dec 108 1)); ("ema_26", None);
     ("rsi_14", Some (dec 2500 100)); ("macd_histogram", Some (dec 5 10))] in
  let s := rule_based_fallback indicators in
  action s = "BUY" /\ confidence s = dec 9 10.
Proof.
  intros indicators s.
  destruct (fallback_full_confirmation indicators
              (dec 2500 100) (dec 5 10) (dec 110 1) (dec 200 2)
              eq_refl eq_refl eq_refl eq_refl eq_refl eq_refl eq_refl eq_refl)
    as (_ & _ & Ha & Hc & _).
  split; [exact Ha | exact Hc].
Defined.

(** The confidences the three rules can produce. *)
Lemma rsi_rule_cases (rsi : option pyfloat) :
  (action (rsi_rule rsi) = "HOLD" /\ confidence (rsi_rule rsi) = dec 5 10)
  \/ ((action (rsi_rule rsi) = "BUY" \/ action (rsi_rule rsi) = "SELL")
      /\ confidence (rsi_rule rsi) = dec 7 10).
Proof.
  unfold rsi_rule. destruct rsi as [r|]; [|left; split; reflexivity].
  destruct (r <? Fin 30); [right; split; [left|]; reflexivity|].
  destruct (r >? Fin 70); [right; split; [right|]; reflexivity|].
  left. split; reflexivity.
Qed.

Lemma macd_rule_action (h : option pyfloat) (s : Signal) :
  action (macd_rule h s) = action s.
Proof.
  unfold macd_rule. destruct h as [h|]; [|reflexivity].
  destruct (_ && _); [reflexivity|].
  destruct (_ && _); reflexivity.
Qed.

Lemma crossover_rule_action (a b : option pyfloat) (s : Signal) :
  action (crossover_rule a b s) = action s.
Proof.
  unfold crossover_rule. destruct a as [a|], b as [b|]; try reflexivity.
  destruct (_ && _); [reflexivity|].
  destruct (_ && _); reflexivity.
Qed.

Lemma macd_rule_confidence (h : option pyfloat) (s : Signal) :
  confidence (macd_rule h s) = confidence s
  \/ confidence (macd_rule h s)
     = py_min (dec 85 100) (confidence s + dec 15 100).
Proof.
  unfold macd_rule. destruct h as [h|]; [|left; reflexivity].
  destruct (_ && _); [right; reflexivity|].
  destruct (_ && _); [right|left]; reflexivity.
Qed.

Lemma crossover_rule_confidence (a b : option pyfloat) (s : Signal) :
  confidence (crossover_rule a b s) = confidence s
  \/ confidence (crossover_rule a b s)
     = py_min (dec 9 10) (confidence s + dec 1 10).
Proof.
  unfold crossover_rule. destruct a as [a|], b as [b|]; try (left; reflexivity).
  destruct (_ && _); [right; reflexivity|].
  destruct (_ && _); [right|left]; reflexivity.
Qed.

(** The fallback always answers BUY, SELL or HOLD with a confidence among
    0.5, 0.7, 0.8, 0.85 and 0.9. *)
Lemma fallback_shape (indicators : Snapshot) :
  signal_shape (rule_based_fallback indicators).
Proof.
  unfold signal_shape, rule_based_fallback. split.
  - rewrite crossover_rule_action, macd_rule_action.
    destruct (rsi_rule_cases (get_ indicators "rsi_14")) as [(H & _)|([H|H] & _)];
      auto.
  - destruct (crossover_rule_confidence
                (get_ indicators "sma_20") (get_ indicators "sma_50")
                (macd_rule (get_ indicators "macd_histogram")
                           (rsi_rule (get_ indicators "rsi_14")))) as [Hc|Hc];
      rewrite Hc; clear Hc;
      destruct (macd_rule_confidence (get_ indicators "macd_histogram")
                  (rsi_rule (get_ indicators "rsi_14"))) as [Hm|Hm];
      rewrite Hm; clear Hm;
      destruct (rsi_rule_cases (get_ indicators "rsi_14"))
        as [(_ & Hr)|(_ & Hr)];
      rewrite Hr; vm_compute; split; discriminate.
Qed.

(** C5 fails as stated: a decoded advisory object is passed through
    without validation.  The reply [{"action": "maybe", "confidence": 7}]
    yields the action MAYBE with confidence 7. *)
Lemma advisory_passes_through_unvalidated :
  let s := get_claude_prediction []
             (Response 200 (Object (Some "maybe") (Some (dec 7 1)) None)) in
  s = mkSignal "MAYBE" (dec 7 1) "AI prediction" /\ ~ signal_shape s.
Proof.
  split; [reflexivity|].
  intros (_ & Hc). simpl in Hc. destruct Hc as (_ & Hc).
  vm_compute in Hc. apply Hc. reflexivity.
Qed.

(** C5, amended.  The signal has an action among BUY, SELL, HOLD and a
    confidence in [0, 1] whenever the advisory response leads to the
    fallback (no key, no answer, a status other than 200, empty or
    malformed content) or its decoded object has that shape itself. *)
Theorem signal_shape_when_advisory_in_shape (indicators : Snapshot)
  (adv : advisory) :
  advisory_in_shape adv ->
  signal_shape (get_claude_prediction indicators adv).
Proof.
  intro H. unfold get_claude_prediction.
  destruct adv as [| |code body]; try apply fallback_shape.
  destruct (code =? 200)%Z eqn:E; [|apply fallback_shape].
  apply Z.eqb_eq in E. subst code.
  destruct body as [| |a c r]; try apply fallback_shape.
  exact H.
Qed.

Lemma signal_shape_when_advisory_in_shape_witness :
  signal_shape
    (get_claude_prediction [("rsi_14", Some (dec 25 1))]
       (Response 200 (Object (Some "sell") (Some (dec 8 10)) None))).
Proof.
  apply signal_shape_when_advisory_in_shape.
  vm_compute. split; [right; left; reflexivity|]. split; discriminate.
Defined.

End SignalProps.

Module IndicatorProps.
Local Open Scope py_scope.
Import Indicators.

Lemma last_map {A B : Type} (f : A -> B) (l : list A) (d : A) (d' : B) :
  l <> [] -> List.last (map f l) d' = f (List.last l d).
Proof.
  induction l as [|a l IH]; [congruence|]. intros _.
  destruct l as [|b l]; [reflexivity|].
  change (List.last (map f (b :: l)) d' = f (List.last (b :: l) d)).
  apply IH. discriminate.
Qed.

Lemma last_zip_with (f : pyfloat -> pyfloat -> pyfloat) (xs ys : Series)
  (d : pyfloat) :
  List.length xs = List.length ys -> xs <> [] ->
  List.last (zip_with f xs ys) d = f (List.last xs d) (List.last ys d).
Proof.
  revert ys. induction xs as [|x xs IH]; intros ys Hlen Hne; [congruence|].
  destruct ys as [|y ys]; [discriminate|].
  destruct xs as [|x' xs]; destruct ys as [|y' ys]; try discriminate.
  - reflexivity.
  - change (List.last (zip_with f (x' :: xs) (y' :: ys)) d
            = f (List.last (x' :: xs) d) (List.last (y' :: ys) d)).
    apply IH; [|discriminate]. simpl in *. lia.
Qed.

Lemma zip_with_length (f : pyfloat -> pyfloat -> pyfloat) (xs ys : Series) :
  List.length xs = List.length ys ->
  List.length (zip_with f xs ys) = List.length xs.
Proof.
  revert ys. induction xs as [|x xs IH]; intros [|y ys] H; simpl in *;
    try reflexivity; try discriminate.
  f_equal. apply IH. lia.
Qed.

Lemma diff_from_length (prev : pyfloat) (xs : Series) :
  List.length (diff_from prev xs) = List.length xs.
Proof.
  revert prev. induction xs as [|x xs IH]; intro prev; simpl; [reflexivity|].
  f_equal. apply IH.
Qed.

Lemma diff_length (xs : Series) : List.length (diff xs) = List.length xs.
Proof.
  destruct xs as [|x xs]; simpl; [reflexivity|].
  f_equal. apply diff_from_length.
Qed.

Lemma where_length (c : pyfloat -> bool) (o : pyfloat) (xs : Series) :
  List.length (where_ c o xs) = List.length xs.
Proof. unfold where_. apply length_map. Qed.

Lemma rolling_mean_length (n : nat) (xs : Series) :
  List.length (rolling_mean n xs) = List.length xs.
Proof. unfold rolling_mean. rewrite length_map. apply length_seq. Qed.

(** With enough points, the RSI is computed from the latest average gain
    and the latest average loss. *)
Lemma calculate_rsi_latest (prices : Series) (period : Z) :
  (0 <= period)%Z -> (period + 1 <= len prices)%Z ->
  calculate_rsi prices period
  = Some (rsi_of (np_div (latest_avg_gain prices period)
                         (latest_avg_loss prices period))).
Proof.
  intros Hp Hlen. unfold calculate_rsi.
  destruct (len prices <? period + 1)%Z eqn:E;
    [apply Z.ltb_lt in E; lia|]. clear E.
  cbv zeta. f_equal. unfold iloc_last, latest_avg_gain, latest_avg_loss.
  assert (Hne : List.length prices <> O).
  { unfold len in Hlen. lia. }
  rewrite (last_map _ _ NaN NaN).
  - unfold rsi_of. f_equal. f_equal. f_equal.
    apply last_zip_with.
    + rewrite !rolling_mean_length, length_map, !where_length. reflexivity.
    + intro H. apply (f_equal (@List.length _)) in H.
      rewrite rolling_mean_length, where_length, diff_length in H.
      simpl in H. contradiction.
  - intro H. apply (f_equal (@List.length _)) in H.
    rewrite zip_with_length in H.
    + rewrite rolling_mean_length, where_length, diff_length in H.
      simpl in H. contradiction.
    + rewrite !rolling_mean_length, length_map, !where_length. reflexivity.
Qed.

Lemma rsi_of_zero_loss (gain loss : pyfloat) :
  loss ~= Fin 0 -> fpos gain -> rsi_of (np_div gain loss) = Fin 100.
Proof.
  unfold fpos. intros Hl Hg.
  destruct loss as [z| | |]; simpl in Hl; try contradiction.
  destruct gain as [g| | |]; simpl in Hg; try discriminate.
  - simpl. rewrite (proj2 (is_zero_iff z) Hl).
    unfold signed_inf, is_pos. rewrite Hg.
    assert (Hz : is_zero g = false).
    { apply is_zero_false_iff. apply Qlt_bool_iff in Hg. intro E.
      rewrite E in Hg. apply (Qlt_irrefl 0 Hg). }
    rewrite Hz. reflexivity.
  - simpl.
    assert (Hz : Qlt_bool z 0 = false).
    { apply Qlt_bool_false_iff. rewrite Hl. apply Qle_refl. }
    rewrite Hz. reflexivity.
Qed.

Lemma rsi_of_zero_gain_and_loss (gain loss : pyfloat) :
  loss ~= Fin 0 -> gain ~= Fin 0 -> rsi_of (np_div gain loss) = NaN.
Proof.
  intros Hl Hg.
  destruct loss as [z| | |]; simpl in Hl; try contradiction.
  destruct gain as [g| | |]; simpl in Hg; try contradiction.
  simpl. rewrite (proj2 (is_zero_iff z) Hl).
  unfold signed_inf. rewrite (proj2 (is_zero_iff g) Hg). reflexivity.
Qed.

(** C6 fails as stated on a constant series: the average loss is 0, and
    so is the average gain, and the RSI is [nan], not 100. *)
Lemma rsi_of_constant_series_is_nan :
  len flat_series = 15%Z
  /\ latest_avg_loss flat_series 14 ~= Fin 0
  /\ calculate_rsi flat_series 14 = Some NaN
  /\ calculate_rsi flat_series 14 <> Some (Fin 100).
Proof.
  split; [reflexivity|]. split; [reflexivity|].
  split; [reflexivity|]. discriminate.
Qed.

(** C6, amended.  With fewer than 15 points the RSI is unavailable
    ([None]).  With at least 15 points and an average loss of 0 over the
    latest window, the RSI is 100 when the average gain is positive, and
    [nan] when the average gain is 0 as well (a constant window). *)
Theorem rsi_without_losses (prices : Series) :
  ((len prices < 15)%Z -> calculate_rsi prices 14 = None)
  /\ ((15 <= len prices)%Z ->
      latest_avg_loss prices 14 ~= Fin 0 ->
      (fpos (latest_avg_gain prices 14) ->
       calculate_rsi prices 14 = Some (Fin 100))
      /\ (latest_avg_gain prices 14 ~= Fin 0 ->
          calculate_rsi prices 14 = Some NaN)).
Proof.
  split.
  - intro H. unfold calculate_rsi.
    apply Z.ltb_lt in H. simpl Z.add. rewrite H. reflexivity.
  - intros Hlen Hloss.
    rewrite (calculate_rsi_latest prices 14); [|lia|lia].
    split; intro Hgain; f_equal.
    + apply rsi_of_zero_loss; assumption.
    + apply rsi_of_zero_gain_and_loss; assumption.
Qed.

Lemma rsi_without_losses_witness :
  calculate_rsi (firstn 14 rising_series) 14 = None
  /\ calculate_rsi rising_series 14 = Some (Fin 100).
Proof.
  split.
  - apply (proj1 (rsi_without_losses (firstn 14 rising_series))).
    reflexivity.
  - apply (proj2 (rsi_without_losses rising_series)).
    + discriminate.
    + reflexivity.
    + reflexivity.
Defined.

End IndicatorProps.

Module AutoTraderProps.
Local Open Scope py_scope.
Import Trading AutoTrader.

Lemma feqb_not_flt (x y : pyfloat) : feqb x y = true -> (x <? y) = false.
Proof.
  destruct x, y; simpl; try discriminate; try reflexivity.
  intro H. apply Qeq_bool_iff in H. apply Qlt_bool_false_iff.
  rewrite H. apply Qle_refl.
Qed.

Lemma process_ticker_unfold (advisor : Z -> Z -> Predictions.advisory)
  (config : AutoTradeConfig.t) (user : User.t) (account : Account.t)
  (ticker : Ticker.t) (db : Session) :
  process_ticker advisor config user account ticker db
  = try_except
      (trade_on_signal config user account ticker
         (Predictions.get_trading_signal db (Ticker.id ticker)
            (advisor (User.id user) (Ticker.id ticker)))) db.
Proof. reflexivity. Qed.

Example at_threshold_buys :
  trades (fst (process_auto_trading (answers "BUY" (dec 8 10)) demo_db))
  = [Trade.mk 7 3 "BUY" 5 (dec 100 1) (dec 100 1 * of_int 5)
              (dec 10000 1 - dec 100 1 * of_int 5)].
Proof. reflexivity. Qed.

Example below_threshold_skips :
  process_auto_trading (answers "BUY" (dec 75 100)) demo_db = (demo_db, Ok tt).
Proof. reflexivity. Qed.

(** C7.  For the pair (account, instrument) of one cycle: a signal whose
    confidence is strictly below the account's threshold leaves the
    session untouched (nothing is executed); a confidence equal to the
    threshold passes the filter, so the pair goes on to the execution
    step; with threshold 0.8 and confidence 0.75 nothing is executed. *)
Theorem threshold_filter_boundary (advisor : Z -> Z -> Predictions.advisory)
  (config : AutoTradeConfig.t) (user : User.t) (account : Account.t)
  (ticker : Ticker.t) (db : Session) :
  let signal :=
    Predictions.get_trading_signal db (Ticker.id ticker)
      (advisor (User.id user) (Ticker.id ticker)) in
  let threshold := AutoTradeConfig.confidence_threshold config in
  ((Predictions.confidence signal <? threshold) = true ->
   process_ticker advisor config user account ticker db = (db, Ok tt))
  /\ (feqb (Predictions.confidence signal) threshold = true ->
      process_ticker advisor config user account ticker db
      = try_except (execute_signal config user account ticker signal) db)
  /\ (threshold ~= dec 8 10 -> Predictions.confidence signal ~= dec 75 100 ->
      process_ticker advisor config user account ticker db = (db, Ok tt)).
Proof.
  intros signal threshold. rewrite process_ticker_unfold.
  fold signal. unfold trade_on_signal. fold threshold.
  split; [|split].
  - intro H. rewrite H. reflexivity.
  - intro H. rewrite (feqb_not_flt _ _ H). reflexivity.
  - intros Ht Hc. rewrite Hc, Ht. reflexivity.
Qed.

Lemma threshold_filter_boundary_witness :
  process_ticker (answers "BUY" (dec 75 100))
    demo_config demo_user demo_account demo_ticker demo_db
  = (demo_db, Ok tt).
Proof.
  apply (threshold_filter_boundary (answers "BUY" (dec 75 100))
           demo_config demo_user demo_account demo_ticker demo_db);
    reflexivity.
Defined.

(** C10.  A signal whose action is neither BUY nor SELL (HOLD, or any
    other string the advisory sent) leaves the session untouched, whatever
    its confidence. *)
Theorem only_buy_and_sell_execute (advisor : Z -> Z -> Predictions.advisory)
  (config : AutoTradeConfig.t) (user : User.t) (account : Account.t)
  (ticker : Ticker.t) (db : Session) :
  let signal :=
    Predictions.get_trading_signal db (Ticker.id ticker)
      (advisor (User.id user) (Ticker.id ticker)) in
  Predictions.action signal <> "BUY" ->
  Predictions.action signal <> "SELL" ->
  process_ticker advisor config user account ticker db = (db, Ok tt).
Proof.
  intros signal Hb Hs. rewrite process_ticker_unfold.
  fold signal. unfold trade_on_signal.
  destruct (_ <? _); [reflexivity|].
  unfold execute_signal.
  apply String.eqb_neq in Hb, Hs. rewrite Hb, Hs. reflexivity.
Qed.

Lemma only_buy_and_sell_execute_witness :
  process_ticker (answers "hold" (dec 95 100))
    demo_config demo_user demo_account demo_ticker demo_db
  = (demo_db, Ok tt).
Proof.
  apply (only_buy_and_sell_execute (answers "hold" (dec 95 100))
           demo_config demo_user demo_account demo_ticker demo_db);
    discriminate.
Defined.

End AutoTraderProps.

Module SimulatorProps.
Local Open Scope py_scope.
Import PriceSimulator.

Lemma round_half_even_lower (n : Z) (q : Q) :
  (inject_Z n <= q)%Q -> (n <= round_half_even q)%Z.
Proof.
  intro H. unfold round_half_even.
  assert (Hf : (n <= Qfloor q)%Z).
  { rewrite <- (Qfloor_Z n). apply Qfloor_resp_le. exact H. }
  destruct (Qcompare _ _); [destruct (Z.even _)| |]; lia.
Qed.

Lemma round2_positive (q : Q) :
  (1 # 100 <= q)%Q -> positive_price (round2 (Fin q)).
Proof.
  intro H. simpl. eexists. split; [reflexivity|].
  assert (Hr : (1 <= round_half_even (q * 100))%Z).
  { apply round_half_even_lower. change (inject_Z 1) with 1%Q. lra. }
  unfold Qlt. simpl. lia.
Qed.

Lemma py_max_floor (q : Q) :
  exists w, py_max (Fin q) (dec 1 1) = Fin w /\ (1 <= w)%Q /\ (q <= w)%Q.
Proof.
  unfold py_max, fgt, dec. simpl.
  destruct (Qlt_bool q 1) eqn:E.
  - exists 1%Q. apply Qlt_bool_iff in E. repeat split; lra.
  - exists q. apply Qlt_bool_false_iff in E. repeat split; lra.
Qed.

Lemma within_range (lo hi : Q) (x : pyfloat) :
  within (Fin lo) (Fin hi) x -> exists q, x = Fin q /\ in_range lo hi q.
Proof.
  intros (Hfin & Hlo & Hhi).
  destruct x as [q| | |]; simpl in Hfin; try contradiction.
  exists q. split; [reflexivity|]. simpl in Hlo, Hhi.
  apply Qlt_bool_false_iff in Hlo, Hhi. split; assumption.
Qed.

Lemma valid_draw_ranges (d : Draw) :
  valid_draw d ->
  (exists n, noise d = Fin n /\ in_range (- (5 # 1000)) (5 # 1000) n)
  /\ (exists r, direction d = Fin r /\ in_range (- (1)) 1 r)
  /\ (exists c, chance d = Fin c).
Proof.
  intros (Hn & Hr & (Hc & _) & _).
  split; [|split].
  - apply (within_range (- (5 # 1000)) (5 # 1000)). exact Hn.
  - apply (within_range (- (1)) 1). exact Hr.
  - destruct (within_range 0 1 _ Hc) as (c & Hc' & _). exists c. exact Hc'.
Qed.

(** The relative price change of one step is at most 2.5 percent. *)
Lemma change_bound (l n r : Q) :
  (0 < l)%Q -> in_range (- (5 # 1000)) (5 # 1000) n -> in_range (- (1)) 1 r ->
  (- ((25 # 1000) * l) <= l * ((2 # 100) + n) * r)%Q.
Proof.
  unfold in_range. intros Hl (Hn1 & Hn2) (Hr1 & Hr2).
  assert (H1 : (0 <= (l * ((2 # 100) + n)) * (r + 1))%Q).
  { apply Qmult_le_0_compat; [apply Qmult_le_0_compat|]; lra. }
  assert (H2 : (0 <= l * ((25 # 1000) - ((2 # 100) + n)))%Q).
  { apply Qmult_le_0_compat; lra. }
  lra.
Qed.

Lemma next_price_positive (d : Draw) (l : Q) :
  valid_draw d -> (0 < l)%Q -> positive_price (next_price d (Fin l)).
Proof.
  intros Hd Hl.
  destruct (valid_draw_ranges d Hd)
    as ((n & Hn & Hnr) & (r & Hr & Hrr) & (c & Hc)).
  unfold next_price. rewrite Hn, Hr, Hc.
  unfold BASE_VOLATILITY, dec.
  cbn [fadd fmul].
  destruct (py_max_floor (l + l * ((2 # 100) + n) * r)) as (w & Hw & Hw1 & Hw2).
  unfold dec in Hw. rewrite Hw.
  pose proof (change_bound l n r Hl Hnr Hrr) as Hb.
  destruct (Fin c <? Fin (3 # 10)).
  - destruct (Fin (l * ((2 # 100) + n) * r) >? Fin 0);
      cbn [fadd fmul of_int]; apply round2_positive.
    + change (inject_Z 1) with 1%Q. lra.
    + change (inject_Z (-1)) with (-1 # 1)%Q. lra.
  - apply round2_positive. lra.
Qed.

Lemma same_tables_refl (db : Session) : same_tables db db.
Proof. unfold same_tables. auto 10. Qed.

Lemma same_tables_trans (a b c : Session) :
  same_tables a b -> same_tables b c -> same_tables a c.
Proof.
  unfold same_tables.
  intros (H1 & H2 & H3 & H4 & H5 & H6) (G1 & G2 & G3 & G4 & G5 & G6).
  repeat split; congruence.
Qed.

Lemma same_tables_bulk_save (b : list PriceTick.t) (db : Session) :
  same_tables db (bulk_save b db).
Proof. unfold same_tables. simpl. auto 10. Qed.

Lemma initial_price_positive (sym : string) :
  positive_price (initial_price_of sym).
Proof.
  unfold initial_price_of.
  destruct (find (fun t => (symbol t =? sym)%string) TICKERS_INIT)
    as [t|] eqn:F.
  - apply find_some in F. destruct F as (Hin & _).
    assert (Hall : Forall (fun t => positive_price (initial_price t))
                          TICKERS_INIT).
    { unfold TICKERS_INIT, dec.
      repeat constructor; eexists; (split; [reflexivity|reflexivity]). }
    rewrite Forall_forall in Hall. apply Hall. exact Hin.
  - eexists. split; reflexivity.
Qed.

(** One turn of the backfill loop appends one tick of the instrument, at
    the loop's current time, and moves the time on. *)
Lemma historical_step_produced (rng : nat -> Draw) (tid : Z) (st : Loop) :
  let st' := historical_step rng tid st in
  (exists tick, produced st' = (produced st ++ [tick])%list
                /\ tick_of tid tick
                /\ PriceTick.price tick = round2 (current_price st'))
  /\ same_tables (session st) (session st').
Proof.
  unfold historical_step. cbv zeta. split.
  - eexists. split.
    + unfold produced. cbn [session batch].
      destruct (_ >=? _)%Z; cbn [bulk_save set_price_ticks price_ticks].
      * rewrite app_nil_r, app_assoc. reflexivity.
      * rewrite app_assoc. reflexivity.
    + split; reflexivity.
  - cbn [session].
    destruct (_ >=? _)%Z;
      [apply same_tables_bulk_save | apply same_tables_refl].
Qed.

(** With draws in range the loop's price stays finite and at least 1. *)
Lemma historical_step_price (rng : nat -> Draw) (tid : Z) (st : Loop) :
  (forall k, valid_draw (rng k)) -> finite_price st ->
  exists w, current_price (historical_step rng tid st) = Fin w /\ (1 <= w)%Q.
Proof.
  intros Hrng (q & Hq).
  destruct (valid_draw_ranges _ (Hrng (drawn st)))
    as ((n & Hn & _) & (r & Hr & _) & _).
  unfold historical_step. cbv zeta. cbn [current_price].
  rewrite Hq, Hn, Hr. unfold BASE_VOLATILITY, dec. cbn [fadd fmul].
  destruct (py_max_floor (q + q * ((2 # 100) + n) * r)) as (w & Hw & Hw1 & _).
  exists w. split; [exact Hw | exact Hw1].
Qed.

Lemma historical_loop_spec (rng : nat -> Draw) (tid end_time : Z) :
  forall (fuel : nat) (st : Loop),
    let st' := historical_loop fuel rng tid end_time st in
    exists new,
      produced st' = (produced st ++ new)%list
      /\ Forall (tick_of tid) new
      /\ ((0 < fuel)%nat -> (current_time st <= end_time)%Z -> new <> [])
      /\ same_tables (session st) (session st')
      /\ ((forall k, valid_draw (rng k)) -> finite_price st ->
          prices_positive new).
Proof.
  induction fuel as [|fuel IH]; intros st; simpl.
  - exists []. rewrite app_nil_r. split; [reflexivity|].
    split; [constructor|]. split; [intro H; inversion H|].
    split; [apply same_tables_refl|]. intros _ _. constructor.
  - destruct (current_time st <=? end_time)%Z eqn:E.
    + destruct (historical_step_produced rng tid st)
        as ((tick & Hprod & Hid & Hprice) & Hsame).
      destruct (IH (historical_step rng tid st))
        as (new & Hnew & Hall & _ & Hsame' & Hpos).
      exists (tick :: new).
      split; [rewrite Hnew, Hprod, <- app_assoc; reflexivity|].
      split; [constructor; assumption|].
      split; [intros _ _; discriminate|].
      split; [exact (same_tables_trans _ _ _ Hsame Hsame')|].
      intros Hrng Hfin.
      destruct (historical_step_price rng tid st Hrng Hfin) as (w & Hw & Hw1).
      constructor.
      * rewrite Hprice, Hw. apply round2_positive. lra.
      * apply Hpos; [exact Hrng|]. exists w. exact Hw.
    + exists []. rewrite app_nil_r. split; [reflexivity|].
      split; [constructor|].
      split; [intros _ H; apply Z.leb_gt in E; lia|].
      split; [apply same_tables_refl|]. intros _ _. constructor.
Qed.

(** The loop stops because the time has passed the end, not for lack of
    fuel. *)
Lemma historical_loop_exits (rng : nat -> Draw) (tid end_time : Z) :
  forall (fuel : nat) (st : Loop),
    ((end_time - current_time st) / minutes HISTORICAL_INTERVAL_MINUTES + 1
     < Z.of_nat fuel)%Z ->
    (end_time < current_time (historical_loop fuel rng tid end_time st))%Z.
Proof.
  assert (Hstep : (0 < minutes HISTORICAL_INTERVAL_MINUTES)%Z) by reflexivity.
  induction fuel as [|fuel IH]; intros st H; simpl.
  - destruct (Z.le_gt_cases (current_time st) end_time) as [Hle|Hgt]; [|lia].
    assert (0 <= (end_time - current_time st)
                 / minutes HISTORICAL_INTERVAL_MINUTES)%Z
      by (apply Z.div_pos; lia).
    simpl in H. lia.
  - destruct (current_time st <=? end_time)%Z eqn:E.
    + apply IH. unfold historical_step. cbn [current_time].
      replace (end_time
               - (current_time st + minutes HISTORICAL_INTERVAL_MINUTES))%Z
        with (end_time - current_time st
              + (-1) * minutes HISTORICAL_INTERVAL_MINUTES)%Z by ring.
      rewrite Z.div_add by lia. lia.
    + apply Z.leb_gt in E. exact E.
Qed.

Lemma iterations_enough (start_time end_time : Z) :
  ((end_time - start_time) / minutes HISTORICAL_INTERVAL_MINUTES + 1
   < Z.of_nat (S (iterations start_time end_time)))%Z.
Proof. unfold iterations. lia. Qed.

(** Once the loop has stopped on its test, more fuel changes nothing. *)
Lemma historical_loop_more_fuel (rng : nat -> Draw) (tid end_time : Z) :
  forall (fuel extra : nat) (st : Loop),
    (end_time < current_time (historical_loop fuel rng tid end_time st))%Z ->
    historical_loop (fuel + extra) rng tid end_time st
    = historical_loop fuel rng tid end_time st.
Proof.
  induction fuel as [|fuel IH]; intros extra st H; simpl in *.
  - destruct extra as [|extra]; [reflexivity|]. simpl.
    destruct (current_time st <=? end_time)%Z eqn:E; [|reflexivity].
    apply Z.leb_le in E. lia.
  - destruct (current_time st <=? end_time)%Z; [|reflexivity].
    apply IH. exact H.
Qed.

(** The loop of [generate_for_ticker] runs to completion: with the fuel
    it is given it stops on its test, and any larger fuel gives the same
    state. *)
Lemma backfill_loop_completes (rng : nat -> Draw) (tid end_time : Z)
  (st : Loop) (extra : nat) :
  let fuel := S (iterations (current_time st) end_time) in
  (end_time < current_time (historical_loop fuel rng tid end_time st))%Z
  /\ historical_loop (fuel + extra) rng tid end_time st
     = historical_loop fuel rng tid end_time st.
Proof.
  intro fuel.
  assert (H : (end_time
               < current_time (historical_loop fuel rng tid end_time st))%Z).
  { apply historical_loop_exits. apply iterations_enough. }
  split; [exact H|]. apply historical_loop_more_fuel. exact H.
Qed.

Lemma has_ticks_count (db : Session) (tid : Z) :
  has_ticks db tid <->
  (Z.of_nat (List.length (filter (ticker_is tid) (price_ticks db))) >? 0)%Z
  = true.
Proof.
  unfold has_ticks. destruct (filter _ _) as [|x l]; simpl.
  - split; [congruence | discriminate].
  - split; [intros _; reflexivity | discriminate].
Qed.

Lemma has_ticks_grows (db db' : Session) (tid : Z) (new : list PriceTick.t) :
  price_ticks db' = (price_ticks db ++ new)%list ->
  has_ticks db tid -> has_ticks db' tid.
Proof.
  unfold has_ticks. intros H Hne E. rewrite H, filter_app in E.
  apply app_eq_nil in E. tauto.
Qed.

(** The body of the backfill for one instrument: it only appends ticks
    of that instrument, appends none when the instrument has some
    already, and leaves the instrument with at least one. *)
Lemma generate_for_ticker_spec (rng : nat -> Draw) (now : Z)
  (db : Session) (k : nat) (ticker : Ticker.t) :
  let start_time := (now - days (HISTORICAL_MONTHS * 30))%Z in
  let out := generate_for_ticker rng start_time now (db, k) ticker in
  exists new,
    price_ticks (fst out) = (price_ticks db ++ new)%list
    /\ (has_ticks db (Ticker.id ticker) -> out = (db, k))
    /\ has_ticks (fst out) (Ticker.id ticker)
    /\ same_tables db (fst out)
    /\ ((forall k, valid_draw (rng k)) -> prices_positive new).
Proof.
  intros start_time. unfold generate_for_ticker.
  destruct (_ >? 0)%Z eqn:E.
  - apply has_ticks_count in E. simpl.
    exists []. rewrite app_nil_r.
    split; [reflexivity|]. split; [reflexivity|]. split; [exact E|].
    split; [apply same_tables_refl|]. intros _. constructor.
  - assert (Hno : ~ has_ticks db (Ticker.id ticker)).
    { intro H. apply has_ticks_count in H. congruence. }
    set (st0 := mkLoop (initial_price_of (Ticker.symbol ticker)) start_time
                       [] db k).
    assert (Hfin : finite_price st0).
    { destruct (initial_price_positive (Ticker.symbol ticker)) as (q & Hq & _).
      exists q. exact Hq. }
    destruct (historical_loop_spec rng (Ticker.id ticker) now
                (S (iterations start_time now)) st0)
      as (new & Hnew & Hall & Hne & Hsame & Hpos).
    set (st := historical_loop (S (iterations start_time now)) rng
                 (Ticker.id ticker) now st0) in *.
    assert (Hp0 : produced st0 = price_ticks db).
    { unfold produced, st0. simpl. apply app_nil_r. }
    rewrite Hp0 in Hnew. unfold produced in Hnew.
    assert (Hout :
      price_ticks
        (fst match batch st with
             | [] => (session st, drawn st)
             | _ :: _ => (bulk_save (batch st) (session st), drawn st)
             end)
      = (price_ticks db ++ new)%list).
    { destruct (batch st) as [|b bs] eqn:B; simpl.
      - rewrite <- Hnew, app_nil_r. reflexivity.
      - rewrite <- Hnew. reflexivity. }
    exists new. split; [exact Hout|].
    split; [intro H; contradiction|]. split; [|split].
    + unfold has_ticks. rewrite Hout, filter_app.
      assert (Hnn : new <> []).
      { apply Hne; [lia|]. unfold st0. cbn [current_time].
        unfold start_time, days, HISTORICAL_MONTHS. lia. }
      destruct new as [|x new]; [congruence|].
      inversion Hall as [|? ? Hid _]; subst. unfold tick_of in Hid.
      simpl. unfold ticker_is at 2. rewrite Hid, Z.eqb_refl.
      intro H. apply app_eq_nil in H. destruct H as (_ & H). discriminate.
    + cbn [session] in Hsame.
      destruct (batch st); simpl; [exact Hsame|].
      apply (same_tables_trans _ _ _ Hsame). apply same_tables_bulk_save.
    + intro Hrng. apply Hpos; assumption.
Qed.

Lemma prices_positive_app (xs ys : list PriceTick.t) :
  prices_positive xs -> prices_positive ys -> prices_positive (xs ++ ys).
Proof. unfold prices_positive. intros. apply Forall_app. split; assumption. Qed.

(** The loop over the instruments. *)
Lemma generate_fold_spec (rng : nat -> Draw) (now : Z)
  (ts : list Ticker.t) :
  forall (db : Session) (k : nat),
    let start_time := (now - days (HISTORICAL_MONTHS * 30))%Z in
    let out := fold_left (generate_for_ticker rng start_time now) ts (db, k) in
    exists new,
      price_ticks (fst out) = (price_ticks db ++ new)%list
      /\ ((forall t, In t ts -> has_ticks db (Ticker.id t)) -> out = (db, k))
      /\ (forall t, In t ts -> has_ticks (fst out) (Ticker.id t))
      /\ same_tables db (fst out)
      /\ ((forall k, valid_draw (rng k)) -> prices_positive new).
Proof.
  induction ts as [|t ts IH]; intros db k; cbv zeta; cbn [fold_left fst].
  - exists []. rewrite app_nil_r. split; [reflexivity|].
    split; [reflexivity|]. split; [intros t []|].
    split; [apply same_tables_refl|]. intros _. constructor.
  - destruct (generate_for_ticker_spec rng now db k t)
      as (new1 & Hnew1 & Hskip1 & Hhas1 & Hsame1 & Hpos1).
    cbv zeta in *.
    destruct (generate_for_ticker rng (now - days (HISTORICAL_MONTHS * 30)) now
                (db, k) t) as [db1 k1] eqn:G.
    simpl in Hnew1, Hhas1, Hsame1.
    destruct (IH db1 k1) as (new2 & Hnew2 & Hskip2 & Hhas2 & Hsame2 & Hpos2).
    cbv zeta in *.
    exists (new1 ++ new2)%list.
    split; [rewrite Hnew2, Hnew1, app_assoc; reflexivity|].
    split; [|split; [|split]].
    + intro Hall.
      assert (E : (db1, k1) = (db, k)) by (apply Hskip1; apply Hall; left; reflexivity).
      inversion E; subst db1 k1.
      apply Hskip2. intros t' Hin. apply Hall. right. exact Hin.
    + intros t' [->|Hin].
      * apply (has_ticks_grows db1 _ _ new2 Hnew2 Hhas1).
      * apply Hhas2. exact Hin.
    + exact (same_tables_trans _ _ _ Hsame1 Hsame2).
    + intro Hrng. apply prices_positive_app; auto.
Qed.

(** C9.  The backfill appends nothing for an instrument that already has
    a price point, and leaves every instrument with at least one; run a
    second time (at any later time, with any random values) it returns
    the session of the first run unchanged, so the number of points is
    that of a single run. *)
Theorem backfill_idempotent (rng rng' : nat -> Draw) (now now' : Z)
  (db : Session) :
  let once := generate_historical_data rng now db in
  let twice := generate_historical_data rng' now' once in
  (forall ticker k,
      has_ticks db (Ticker.id ticker) ->
      generate_for_ticker rng (now - days (HISTORICAL_MONTHS * 30)) now
        (db, k) ticker = (db, k))
  /\ (forall ticker, In ticker (tickers db) ->
                     has_ticks once (Ticker.id ticker))
  /\ twice = once
  /\ List.length (price_ticks twice) = List.length (price_ticks once).
Proof.
  intros once twice.
  destruct (generate_fold_spec rng now (tickers db) db O)
    as (new & _ & _ & Hhas & Hsame & _).
  cbv zeta in *. fold (generate_historical_data rng now db) in Hhas, Hsame.
  fold once in Hhas, Hsame.
  assert (Htwice : twice = once).
  { unfold twice, generate_historical_data.
    destruct (generate_fold_spec rng' now' (tickers once) once O)
      as (new' & _ & Hskip & _).
    cbv zeta in Hskip. rewrite Hskip; [reflexivity|].
    destruct Hsame as (_ & _ & Ht & _). rewrite Ht. exact Hhas. }
  split.
  - intros ticker k H.
    destruct (generate_for_ticker_spec rng now db k ticker)
      as (new1 & _ & Hskip & _).
    apply Hskip. exact H.
  - split; [exact Hhas|]. split; [exact Htwice|]. rewrite Htwice. reflexivity.
Qed.

(** The body of the tick loop appends one tick, with a positive price
    when the stored prices are positive and the draw is in range. *)
Lemma tick_for_ticker_spec (rng : nat -> Draw) (clock : nat -> Z)
  (db : Session) (k : nat) (ticker : Ticker.t) :
  let out := tick_for_ticker rng clock (db, k) ticker in
  exists tick,
    price_ticks (fst out) = (price_ticks db ++ [tick])%list
    /\ same_tables db (fst out)
    /\ ((forall k, valid_draw (rng k)) -> prices_positive (price_ticks db) ->
        positive_price (PriceTick.price tick)).
Proof.
  unfold tick_for_ticker. simpl. eexists.
  split; [reflexivity|].
  split; [apply (same_tables_bulk_save [_] db)|].
  intros Hrng Hpos. cbn [PriceTick.price].
  destruct (hd_error (ticks_desc db (Ticker.id ticker))) as [last|] eqn:E.
  - apply latest_tick_in in E.
    unfold prices_positive in Hpos. rewrite Forall_forall in Hpos.
    destruct (Hpos last E) as (l & Hl & Hl0). rewrite Hl.
    apply next_price_positive; [apply Hrng | exact Hl0].
  - destruct (initial_price_positive (Ticker.symbol ticker)) as (l & Hl & Hl0).
    rewrite Hl. apply next_price_positive; [apply Hrng | exact Hl0].
Qed.

Lemma tick_fold_spec (rng : nat -> Draw) (clock : nat -> Z)
  (ts : list Ticker.t) :
  forall (db : Session) (k : nat),
    let out := fold_left (tick_for_ticker rng clock) ts (db, k) in
    exists new,
      price_ticks (fst out) = (price_ticks db ++ new)%list
      /\ List.length new = List.length ts
      /\ same_tables db (fst out)
      /\ ((forall k, valid_draw (rng k)) -> prices_positive (price_ticks db) ->
          prices_positive new).
Proof.
  induction ts as [|t ts IH]; intros db k; cbv zeta; cbn [fold_left fst].
  - exists []. rewrite app_nil_r. split; [reflexivity|].
    split; [reflexivity|]. split; [apply same_tables_refl|].
    intros _ _. constructor.
  - destruct (tick_for_ticker_spec rng clock db k t)
      as (tick & Htick & Hsame1 & Hpos1).
    cbv zeta in *.
    destruct (tick_for_ticker rng clock (db, k) t) as [db1 k1] eqn:G.
    simpl in Htick, Hsame1.
    destruct (IH db1 k1) as (new & Hnew & Hlen & Hsame2 & Hpos2).
    cbv zeta in *.
    exists (tick :: new).
    split; [rewrite Hnew, Htick, <- app_assoc; reflexivity|].
    split; [simpl; congruence|].
    split; [exact (same_tables_trans _ _ _ Hsame1 Hsame2)|].
    intros Hrng Hpos.
    assert (Ht : positive_price (PriceTick.price tick)) by auto.
    constructor; [exact Ht|].
    apply Hpos2; [exact Hrng|]. rewrite Htick.
    apply prices_positive_app; [exact Hpos|]. constructor; [exact Ht|constructor].
Qed.



Lemma steady_valid :
  forall k, valid_draw (steady (dec 1 1000) (dec (-1) 2) (dec 1 10) 200000 k).
Proof.
  intro k. unfold valid_draw, within, steady. simpl.
  repeat split; try reflexivity; discriminate.
Qed.



Example tick_with_downward_momentum :
  map PriceTick.price
    (price_ticks
       (simulate_price_tick (steady (dec 1 1000) (dec (-1) 2) (dec 1 10) 200000)
          (fun k => 30) demo_db))
  = [dec 100 1; dec 9885 100].
Proof. reflexivity. Qed.

End SimulatorProps.

Module ReachabilityProps.
Local Open Scope py_scope.
Import Trading CostBasisProps.

Lemma get_latest_price_priced (t : Z) (db : Session) (price : pyfloat) :
  get_latest_price t db = (db, Ok price) -> priced db t.
Proof.
  intro H.
  destruct (get_latest_price_cases t db) as [(tick & Hhd & _)|(_ & Hp)].
  - exists tick. apply (latest_tick_of db t tick Hhd).
  - rewrite Hp in H. discriminate.
Qed.

Lemma priced_grows (db db' : Session) (t : Z) (new : list PriceTick.t) :
  price_ticks db' = (price_ticks db ++ new)%list ->
  priced db t -> priced db' t.
Proof.
  intros H (tick & Hin & Hid). exists tick. split; [|exact Hid].
  rewrite H. apply in_or_app. left. exact Hin.
Qed.

Lemma has_account_update (l : list Account.t) (u u' : Z) (c : pyfloat) :
  (exists a, In a l /\ Account.user_id a = u) ->
  exists a, In a (update_first (account_of u') (set_cash_balance c) l)
            /\ Account.user_id a = u.
Proof.
  intros (a & Hin & Hu). induction l as [|x l IH]; [contradiction|].
  simpl. destruct (account_of u' x) eqn:E.
  - destruct Hin as [->|Hin].
    + exists (set_cash_balance c a). split; [left; reflexivity | exact Hu].
    + exists a. split; [right; exact Hin | exact Hu].
  - destruct Hin as [->|Hin].
    + exists a. split; [left; reflexivity | exact Hu].
    + destruct (IH Hin) as (a' & Hin' & Hu').
      exists a'. split; [right; exact Hin' | exact Hu'].
Qed.

(** An operation only appends price ticks and keeps every account. *)
Lemma step_keeps_backing (o : op) (db db' : Session) (u t : Z) :
  step o db = (db', Ok tt) ->
  (priced db t -> priced db' t) /\ (has_account db u -> has_account db' u).
Proof.
  intro H. destruct o as [u' t' q|u' t' q|tick]; simpl in H.
  - unfold bind, ret in H.
    destruct (execute_buy u' t' q db) as [db1 [r|e]] eqn:E; [|discriminate].
    inversion H; subst db1; clear H. apply execute_buy_ok in E.
    destruct E as (price & a & _ & _ & _ & Hacc & _ & _ & Hticks & _).
    split.
    + apply (priced_grows db db' t []). rewrite app_nil_r. exact Hticks.
    + unfold has_account. rewrite Hacc. apply has_account_update.
  - unfold bind, ret in H.
    destruct (execute_sell u' t' q db) as [db1 [r|e]] eqn:E; [|discriminate].
    inversion H; subst db1; clear H. apply execute_sell_ok in E.
    destruct E as (price & p & a & _ & _ & _ & _ & Hacc & _ & _ & Hticks & _).
    split.
    + apply (priced_grows db db' t []). rewrite app_nil_r. exact Hticks.
    + unfold has_account. rewrite Hacc. apply has_account_update.
  - unfold modify in H. inversion H; subst db'. simpl. split.
    + apply (priced_grows db _ t [tick]). reflexivity.
    + tauto.
Qed.

Lemma step_consistent (o : op) (db db' : Session) :
  step o db = (db', Ok tt) -> ledger_consistent db -> ledger_consistent db'.
Proof.
  intros H Hinv u t.
  destruct (step_keeps_backing o db db' u t H) as (Hpriced & Haccount).
  assert (Hframe : ~ trades_pair u t o -> backed db' u t).
  { intro Hne. unfold backed. rewrite (step_frame u t o db db' Hne H).
    destruct (Hinv u t) as [Hnil|(Hone & Hp & Ha)]; [left; exact Hnil|].
    right. auto. }
  destruct o as [u' t' q|u' t' q|tick]; [| |apply Hframe; simpl; tauto].
  - (* a buy *)
    destruct (Z.eqb_spec u' u) as [->|Hu];
      [destruct (Z.eqb_spec t' t) as [->|Ht]|];
      [|apply Hframe; simpl; tauto|apply Hframe; simpl; tauto].
    simpl in H. unfold bind, ret in H.
    destruct (execute_buy u t q db) as [db1 [r|e]] eqn:E; [|discriminate].
    inversion H; subst db1; clear H. apply execute_buy_ok in E.
    destruct E as (price & a & Hprice & Ha & _ & _ & _ & _ & _ & _ & _ & _
                   & Hport).
    right. split; [|split].
    + destruct (first (position_of u t) (portfolios db)) as [p0|] eqn:Hpos.
      * destruct Hport as (avg & _ & Hport). rewrite Hport.
        rewrite filter_update_first by (intros x Hx; exact Hx).
        destruct (Hinv u t) as [Hnil|((p & Hp) & _)].
        -- apply first_none_filter in Hnil. congruence.
        -- rewrite Hp. eexists. reflexivity.
      * apply first_none_filter in Hpos. rewrite Hport, filter_app, Hpos.
        simpl. unfold position_of at 1. simpl. rewrite !Z.eqb_refl. simpl.
        eexists. reflexivity.
    + apply Hpriced. apply (get_latest_price_priced t db price Hprice).
    + apply Haccount. apply first_some_holds in Ha. destruct Ha as (Hu & Hin).
      exists a. split; [exact Hin|]. apply Z.eqb_eq. exact Hu.
  - (* a sell *)
    destruct (Z.eqb_spec u' u) as [->|Hu];
      [destruct (Z.eqb_spec t' t) as [->|Ht]|];
      [|apply Hframe; simpl; tauto|apply Hframe; simpl; tauto].
    simpl in H. unfold bind, ret in H.
    destruct (execute_sell u t q db) as [db1 [r|e]] eqn:E; [|discriminate].
    inversion H; subst db1; clear H. apply execute_sell_ok in E.
    destruct E as (price & p0 & a & _ & Hpos & _ & _ & _ & _ & _ & _ & _ & _
                   & _ & Hport).
    cbv zeta in Hport. unfold backed. rewrite Hport.
    destruct (Hinv u t) as [Hnil|((p & Hp) & Hpr & Hac)].
    + apply first_none_filter in Hnil. congruence.
    + destruct (Portfolio.quantity p0 - q =? 0)%Z.
      * left. rewrite filter_delete_first, filter_update_first
          by (intros x Hx; exact Hx).
        rewrite Hp. reflexivity.
      * right. rewrite filter_update_first by (intros x Hx; exact Hx).
        rewrite Hp. split; [eexists; reflexivity|]. auto.
Qed.

Lemma run_consistent (ops : list op) :
  forall db db',
    run ops db = (db', Ok tt) -> ledger_consistent db -> ledger_consistent db'.
Proof.
  induction ops as [|o ops IH]; intros db db' H Hinv.
  - unfold run in H. simpl in H. unfold ret in H. inversion H; subst db'.
    exact Hinv.
  - unfold run in H. simpl in H. unfold bind at 1 in H.
    destruct (step o db) as [db1 [[]|e]] eqn:E; [|discriminate].
    apply (IH db1 db' H). apply (step_consistent o db db1 E Hinv).
Qed.

(** Every position the engine can reach from a ledger without positions
    is the only row of its pair, in an instrument with pricing data, of
    a user with an account. *)
Lemma reachable_holdings_backed (ops : list op) (db0 db : Session)
  (u t : Z) (p : Portfolio.t) :
  portfolios db0 = [] ->
  run ops db0 = (db, Ok tt) ->
  first (position_of u t) (portfolios db) = Some p ->
  holding db u t (Portfolio.quantity p) /\ priced db t /\ has_account db u.
Proof.
  intros Hempty Hrun Hpos.
  assert (Hinv : ledger_consistent db).
  { apply (run_consistent ops db0 db Hrun).
    intros u' t'. left. rewrite Hempty. reflexivity. }
  destruct (Hinv u t) as [Hnil|((p' & Hp') & Hpr & Hac)].
  - apply first_none_filter in Hnil. congruence.
  - rewrite (filter_singleton_first _ _ _ Hp') in Hpos.
    inversion Hpos; subst p'.
    split; [|auto]. exists p. split; [exact Hp' | reflexivity].
Qed.

End ReachabilityProps.

(* ------------------------------------------------------------------ *)
(** ** The program's arithmetic on binary64

    [pyfloat] computes with exact values.  The decimal constants of the
    fallback and of the threshold example are not binary64 numbers, so the
    comparisons the results above rest on are checked here on binary64
    itself, with the arithmetic of the kernel's primitive floats; and the
    statements that hold of exact values only are refuted here, on the
    operations of [F64]. *)

Module Binary64.
Import Floats.
Local Open Scope float_scope.
#[local] Set Warnings "-inexact-float".

(** [min(0.85, 0.7 + 0.15)] is 0.85 and [min(0.9, 0.85 + 0.1)] is 0.9. *)
Example macd_cap_binary64 :
  (0.7 + 0.15 <? 0.85) = false /\ (0.7 + 0.15 =? 0.85) = true.
Proof. split; reflexivity. Qed.

Example crossover_cap_binary64 : (0.85 + 0.1 <? 0.9) = false.
Proof. reflexivity. Qed.

(** Without the MACD confirmation the crossover rule stays below its cap. *)
Example crossover_alone_binary64 :
  (0.7 + 0.1 <? 0.9) = true /\ (0 <=? 0.7 + 0.1) = true.
Proof. split; reflexivity. Qed.

Example below_threshold_binary64 : (0.75 <? 0.8) = true.
Proof. reflexivity. Qed.

(** The quotient of two zero averages is [nan]; a positive average gain
    over a zero average loss gives an RSI of 100. *)
Example zero_over_zero_binary64 : PrimFloat.is_nan (0 / 0) = true.
Proof. reflexivity. Qed.

Example rsi_of_infinite_strength_binary64 :
  (100 - 100 / (1 + 3 / 0) =? 100) = true.
Proof. reflexivity. Qed.

(** Without the MACD confirmation a crossover gives [0.7 + 0.1], which is
    0.7999999999999999 and below 0.8. *)
Example crossover_alone_below_0_8_binary64 :
  (0.7 + 0.1 <? 0.8) = true /\ (0.7 <? 0.7 + 0.1) = true.
Proof. split; reflexivity. Qed.

(** C1 as stated fails on binary64.  From a balance of 10000.0, a buy of
    5 at 497.28, a buy of 4 at 36.93 and, the first instrument having
    moved to 230.96, a sale of 3 of it: the program, which subtracts and
    adds in order, ends on 8058.76; the initial balance minus the sum of
    the buys plus the sum of the sales is 8058.760000000001. *)
Lemma balance_is_not_regrouped :
  (F64.balance 10000
     [F64.Bought 497.28 5; F64.Bought 36.93 4; F64.Sold 230.96 3]
   =? 8058.7600000000002) = true
  /\ (F64.regrouped 10000
        [F64.Bought 497.28 5; F64.Bought 36.93 4; F64.Sold 230.96 3]
      =? 8058.7600000000011) = true
  /\ (F64.balance 10000
        [F64.Bought 497.28 5; F64.Bought 36.93 4; F64.Sold 230.96 3]
      =? F64.regrouped 10000
           [F64.Bought 497.28 5; F64.Bought 36.93 4; F64.Sold 230.96 3])
     = false.
Proof. repeat split; vm_compute; reflexivity. Qed.


(** One turn before, the running price is still finite. *)
Example last_finite_backfill_price_binary64 :
  (F64.running_price 0.004 0.99 29961 500 =? 1.7617736030159482e+308) = true.
Proof. vm_compute. reflexivity. Qed.

(** A buy and a sale of 9 at 60.69 from a balance of 9998.680000000002
    end on 9998.68, one unit in the last place lower. *)
Example round_trip_rounds_binary64 :
  (F64.balance 9998.6800000000021 [F64.Bought 60.69 9; F64.Sold 60.69 9]
   =? 9998.6800000000003) = true
  /\ (F64.balance 9998.6800000000021 [F64.Bought 60.69 9; F64.Sold 60.69 9]
      <? 9998.6800000000021) = true.
Proof. split; vm_compute; reflexivity. Qed.

(** [int(cash_balance / current_price)] can be a quantity the balance
    does not pay for: 3.03 / 1.01 is 3, and 1.01 * 3 is above 3.03;
    12308.56 / 139.87 is 88, and 139.87 * 88 is above 12308.56. *)
Example sizing_can_overshoot_binary64 :
  F64.affordable 3.03 1.01 = 3%Z
  /\ (3.03 <? 1.01 * F64.of_int 3) = true
  /\ F64.affordable 12308.56 139.87 = 88%Z
  /\ (12308.56 <? 139.87 * F64.of_int 88) = true.
Proof. repeat split; vm_compute; reflexivity. Qed.

End Binary64.

Import Notions.

(* ------------------------------------------------------------------ *)
(** ** Refusals and frames of the execution engine *)

Module RefusalProps.
Local Open Scope py_scope.
Import Trading LedgerProps CostBasisProps.

Lemma untouched_refl (u : Z) (db : Session) : untouched u db db.
Proof. repeat split. Qed.

Lemma untouched_trans (u : Z) (a b c : Session) :
  untouched u a b -> untouched u b c -> untouched u a c.
Proof.
  intros (A1 & A2 & A3) (B1 & B2 & B3). repeat split; congruence.
Qed.

Lemma engine_frame_refl (db : Session) : engine_frame db db.
Proof. repeat split. Qed.

Lemma engine_frame_trans (a b c : Session) :
  engine_frame a b -> engine_frame b c -> engine_frame a c.
Proof.
  intros (A1 & A2 & A3 & A4) (B1 & B2 & B3 & B4). repeat split; congruence.
Qed.

Lemma log_extended_refl (db : Session) : log_extended db db.
Proof. exists []. symmetry. apply app_nil_r. Qed.

Lemma log_extended_trans (a b c : Session) :
  log_extended a b -> log_extended b c -> log_extended a c.
Proof.
  intros (n1 & H1) (n2 & H2). exists (n1 ++ n2)%list.
  rewrite H2, H1. symmetry. apply app_assoc.
Qed.

Lemma row_of_user_other (u u' t : Z) (x : Portfolio.t) :
  u <> u' -> position_of u' t x = true -> row_of_user u x = false.
Proof.
  unfold position_of, row_of_user. intros Hne H.
  apply andb_true_iff in H. destruct H as (H & _).
  apply Z.eqb_eq in H. apply Z.eqb_neq. congruence.
Qed.

Lemma accounts_of_other (u u' : Z) (c : pyfloat) (l : list Account.t) :
  u <> u' ->
  filter (account_of u) (update_first (account_of u') (set_cash_balance c) l)
  = filter (account_of u) l.
Proof.
  intro Hne. apply filter_update_other.
  - intros x Hx. apply (account_of_other u u' x Hne Hx).
  - intros x Hx. unfold account_of in *. simpl.
    apply Z.eqb_eq in Hx. apply Z.eqb_neq. congruence.
Qed.

Lemma rows_of_other_update (u u' t : Z) (f : Portfolio.t -> Portfolio.t)
  (l : list Portfolio.t) :
  u <> u' ->
  (forall x, Portfolio.user_id (f x) = Portfolio.user_id x) ->
  filter (row_of_user u) (update_first (position_of u' t) f l)
  = filter (row_of_user u) l.
Proof.
  intros Hne Hf. apply filter_update_other.
  - intros x Hx. apply (row_of_user_other u u' t x Hne Hx).
  - intros x Hx. pose proof (row_of_user_other u u' t x Hne Hx) as H.
    unfold row_of_user in *. rewrite Hf. exact H.
Qed.

Lemma rows_of_other_delete (u u' t : Z) (l : list Portfolio.t) :
  u <> u' ->
  filter (row_of_user u) (delete_first (position_of u' t) l)
  = filter (row_of_user u) l.
Proof.
  intro Hne. apply filter_delete_other.
  intros x Hx. apply (row_of_user_other u u' t x Hne Hx).
Qed.

Lemma filter_snoc_out {A : Type} (p : A -> bool) (l : list A) (x : A) :
  p x = false -> filter p (l ++ [x]) = filter p l.
Proof.
  intro H. rewrite filter_app. simpl. rewrite H. apply app_nil_r.
Qed.

Ltac other_user Hne :=
  repeat split; simpl;
  repeat first
    [ rewrite accounts_of_other by exact Hne
    | rewrite rows_of_other_delete by exact Hne
    | rewrite rows_of_other_update by (first [exact Hne | reflexivity])
    | (unfold trades_of; rewrite filter_snoc_out
         by (simpl; apply Z.eqb_neq; congruence))
    | (rewrite filter_snoc_out
         by (unfold row_of_user; simpl; apply Z.eqb_neq; congruence)) ];
  try reflexivity.

Ltac log_tac :=
  first [ solve [eexists; simpl; reflexivity]
        | solve [exists []; simpl; symmetry; apply app_nil_r] ].

Ltac no_effect :=
  simpl; intros ->; split; [apply engine_frame_refl|];
  split; [apply log_extended_refl | intros; apply untouched_refl].

(** Whatever [execute_buy] does, it does to the tables of its user. *)
Lemma execute_buy_effect (u t q : Z) (db : Session) :
  let db' := fst (execute_buy u t q db) in
  engine_frame db db' /\ log_extended db db'
  /\ (forall u', u' <> u -> untouched u' db db').
Proof.
  intro db'. assert (E : db' = fst (execute_buy u t q db)) by reflexivity.
  clearbody db'. revert E. unfold execute_buy.
  destruct (get_latest_price_cases t db) as [(tick & _ & Hp)|(_ & Hp)];
    unfold bind at 1; rewrite Hp; [|no_effect].
  generalize (PriceTick.price tick) as price. intro price.
  unfold_m. simpl.
  destruct (first (account_of u) (accounts db)) as [a|]; [|no_effect].
  destruct (Account.cash_balance a <? price * of_int q); [no_effect|].
  simpl.
  destruct (first (position_of u t) (portfolios db)) as [p|].
  - destruct (truediv _ _) as [avg|e]; simpl; intros ->.
    + split; [repeat split|]. split; [log_tac|].
      intros u' Hne. other_user Hne.
    + split; [repeat split|]. split; [log_tac|].
      intros u' Hne. other_user Hne.
  - simpl. intros ->. split; [repeat split|]. split; [log_tac|].
    intros u' Hne. other_user Hne.
Qed.

(** The same for [execute_sell]. *)
Lemma execute_sell_effect (u t q : Z) (db : Session) :
  let db' := fst (execute_sell u t q db) in
  engine_frame db db' /\ log_extended db db'
  /\ (forall u', u' <> u -> untouched u' db db').
Proof.
  intro db'. assert (E : db' = fst (execute_sell u t q db)) by reflexivity.
  clearbody db'. revert E. unfold execute_sell.
  destruct (get_latest_price_cases t db) as [(tick & _ & Hp)|(_ & Hp)];
    unfold bind at 1; rewrite Hp; [|no_effect].
  generalize (PriceTick.price tick) as price. intro price.
  unfold_m. simpl.
  destruct (first (position_of u t) (portfolios db)) as [p|]; [|no_effect].
  destruct (Portfolio.quantity p <? q)%Z; [no_effect|].
  simpl.
  destruct (Portfolio.quantity p - q =? 0)%Z; simpl;
    destruct (first (account_of u) (accounts db)) as [a|]; simpl;
    intros ->;
    (split; [repeat split|]);
    (split; [log_tac|]);
    intros u' Hne; other_user Hne.
Qed.

(** How [execute_buy] can fail: with a [ValueError] before anything is
    written, or on the division for the average price. *)
Lemma execute_buy_raises (u t q : Z) (db db' : Session) (e : exn) :
  execute_buy u t q db = (db', Raise e) ->
  (exists msg, e = ValueError msg /\ db' = db) \/ e = ZeroDivisionError.
Proof.
  unfold execute_buy.
  destruct (get_latest_price_cases t db) as [(tick & _ & Hp)|(_ & Hp)];
    unfold bind at 1; rewrite Hp;
    [|intro H; inversion H; left; eexists; split; reflexivity].
  unfold_m. simpl.
  destruct (first (account_of u) (accounts db)) as [a|];
    [|intro H; inversion H; left; eexists; split; reflexivity].
  destruct (Account.cash_balance a <? PriceTick.price tick * of_int q);
    [intro H; inversion H; left; eexists; split; reflexivity|].
  simpl.
  destruct (first (position_of u t) (portfolios db)) as [p|]; simpl.
  - destruct (truediv _ _) as [avg|e'] eqn:E; simpl; [discriminate|].
    unfold truediv in E.
    destruct (feqb _ _); inversion E. intro H. inversion H. right.
    reflexivity.
  - discriminate.
Qed.

(** How [execute_sell] can fail: with a [ValueError] before anything is
    written, or on the account that is missing. *)
Lemma execute_sell_raises (u t q : Z) (db db' : Session) (e : exn) :
  execute_sell u t q db = (db', Raise e) ->
  (exists msg, e = ValueError msg /\ db' = db) \/ e = AttributeError.
Proof.
  unfold execute_sell.
  destruct (get_latest_price_cases t db) as [(tick & _ & Hp)|(_ & Hp)];
    unfold bind at 1; rewrite Hp;
    [|intro H; inversion H; left; eexists; split; reflexivity].
  unfold_m. simpl.
  destruct (first (position_of u t) (portfolios db)) as [p|];
    [|intro H; inversion H; left; eexists; split; reflexivity].
  destruct (Portfolio.quantity p <? q)%Z;
    [intro H; inversion H; left; eexists; split; reflexivity|].
  simpl.
  destruct (Portfolio.quantity p - q =? 0)%Z; simpl;
    destruct (first (account_of u) (accounts db)) as [a|]; simpl;
    try discriminate; intro H; inversion H; right; reflexivity.
Qed.

(** X1.  A trade that the engine refuses with a [ValueError] (no price
    data, no account, insufficient funds, no position, insufficient
    shares) has written nothing: the session is the one the call
    received. *)
Theorem refused_trade_writes_nothing (u t q : Z) (db db' : Session)
  (msg : string) :
  (execute_buy u t q db = (db', Raise (ValueError msg)) -> db' = db)
  /\ (execute_sell u t q db = (db', Raise (ValueError msg)) -> db' = db).
Proof.
  split; intro H.
  - destruct (execute_buy_raises u t q db db' _ H) as [(m & _ & E)|E];
      [exact E | discriminate].
  - destruct (execute_sell_raises u t q db db' _ H) as [(m & _ & E)|E];
      [exact E | discriminate].
Qed.



(** A seller whose account row is missing: the position is written, the
    exception is not a [ValueError]. *)
Example sell_without_account :
  let db := mkSession [] [] []
              [PriceTick.mk 3 (dec 100 1) 500000 10]
              [Portfolio.mk 7 3 4 (dec 90 1) (dec 90 1)] [] [] in
  snd (execute_sell 7 3 1 db) = Raise AttributeError
  /\ map Portfolio.quantity (portfolios (fst (execute_sell 7 3 1 db))) = [3].
Proof. split; reflexivity. Qed.

End RefusalProps.

(* ------------------------------------------------------------------ *)
(** ** Invariants of the ledger *)

Module PositionProps.
Local Open Scope py_scope.
Import Trading LedgerProps CostBasisProps ReachabilityProps RefusalProps.

Section Rows.
Context {A : Type}.
Variable p : A -> bool.

Lemma first_filter (l : list A) : first p l = hd_error (filter p l).
Proof.
  unfold first. induction l as [|a l IH]; simpl; [reflexivity|].
  destruct (p a); [reflexivity | exact IH].
Qed.

Lemma first_snoc (l : list A) (x : A) :
  first p l = None -> p x = true -> first p (l ++ [x]) = Some x.
Proof.
  intros Hn Hx. rewrite first_filter, filter_app.
  apply first_none_filter in Hn. rewrite Hn. simpl. rewrite Hx. reflexivity.
Qed.

Lemma delete_update_first (f : A -> A) (l : list A) :
  (forall x, p x = true -> p (f x) = true) ->
  delete_first p (update_first p f l) = delete_first p l.
Proof.
  intro Hf. induction l as [|a l IH]; simpl; [reflexivity|].
  destruct (p a) eqn:E; simpl.
  - rewrite (Hf a E). reflexivity.
  - rewrite E. f_equal. exact IH.
Qed.

Lemma Forall_update_first (P : A -> Prop) (f : A -> A) (l : list A) :
  Forall P l -> (forall x, In x l -> p x = true -> P (f x)) ->
  Forall P (update_first p f l).
Proof.
  induction l as [|a l IH]; simpl; intros H Hf; [constructor|].
  inversion H; subst.
  destruct (p a) eqn:E.
  - constructor; [apply Hf; auto | assumption].
  - constructor; [assumption | apply IH; auto].
Qed.

Lemma Forall_delete_first (P : A -> Prop) (l : list A) :
  Forall P l -> Forall P (delete_first p l).
Proof.
  induction l as [|a l IH]; simpl; intro H; [constructor|].
  inversion H; subst. destruct (p a); [assumption|].
  constructor; auto.
Qed.

End Rows.

Lemma run_cons (o : op) (ops : list op) (db db' : Session) :
  run (o :: ops) db = (db', Ok tt) ->
  exists db1, step o db = (db1, Ok tt) /\ run ops db1 = (db', Ok tt).
Proof.
  unfold run. simpl. unfold bind.
  destruct (step o db) as [db1 [[]|e]]; [|discriminate].
  intro H. exists db1. split; [reflexivity | exact H].
Qed.

(** The session a step leaves, whatever the outcome. *)
Lemma step_untouched (u : Z) (o : op) (db : Session) :
  ~ by_user u o -> untouched u db (fst (step o db)).
Proof.
  destruct o as [u' t q|u' t q|tick]; simpl; intro Hne.
  - unfold bind, ret.
    pose proof (execute_buy_effect u' t q db) as (_ & _ & H).
    destruct (execute_buy u' t q db) as [db1 [r|e]]; simpl in *;
      apply H; congruence.
  - unfold bind, ret.
    pose proof (execute_sell_effect u' t q db) as (_ & _ & H).
    destruct (execute_sell u' t q db) as [db1 [r|e]]; simpl in *;
      apply H; congruence.
  - repeat split.
Qed.

(** X4.  Orders touch only the user who places them.  Through any
    sequence of buys, sells and new ticks, run until it ends or until the
    first exception, the account rows, the portfolio rows and the trade
    records of a user who places none of the orders stay as they were. *)
Theorem orders_touch_only_their_user (u : Z) (ops : list op) (db : Session) :
  Forall (fun o => ~ by_user u o) ops ->
  untouched u db (fst (run ops db)).
Proof.
  intro H. revert db. induction H as [|o ops Ho _ IH]; intro db.
  - apply untouched_refl.
  - unfold run. simpl. unfold bind.
    pose proof (step_untouched u o db Ho) as H1.
    destruct (step o db) as [db1 [[]|e]]; simpl in *.
    + apply (untouched_trans u db db1 _ H1). apply IH.
    + exact H1.
Qed.

Lemma orders_touch_only_their_user_witness :
  untouched 8
    (mkSession [] [Account.mk 1 7 (dec 10000 1); Account.mk 2 8 (dec 500 1)] []
               [PriceTick.mk 3 (dec 100 1) 500000 10]
               [Portfolio.mk 8 3 1 (dec 90 1) (dec 90 1)] [] [])
    (fst (run demo_ops
            (mkSession []
               [Account.mk 1 7 (dec 10000 1); Account.mk 2 8 (dec 500 1)] []
               [PriceTick.mk 3 (dec 100 1) 500000 10]
               [Portfolio.mk 8 3 1 (dec 90 1) (dec 90 1)] [] []))).
Proof.
  apply (orders_touch_only_their_user 8 demo_ops).
  unfold demo_ops.
  constructor; [simpl; lia|].
  constructor; [simpl; tauto|].
  constructor; [simpl; lia|].
  constructor.
Defined.

(** What one successful step does to the holding of a pair. *)
Lemma step_held (u t : Z) (o : op) (db db' : Session) :
  ledger_consistent db ->
  step o db = (db', Ok tt) ->
  held db' u t = (held db u t + net_quantity u t o)%Z.
Proof.
  intros Hinv H.
  assert (Hframe : ~ trades_pair u t o -> held db' u t = held db u t).
  { intro Hne. unfold held. rewrite !first_filter.
    rewrite (step_frame u t o db db' Hne H). reflexivity. }
  destruct o as [u' t' q|u' t' q|tick];
    [| |simpl; rewrite Z.add_0_r; apply Hframe; simpl; tauto].
  - simpl net_quantity.
    destruct (Z.eqb_spec u' u) as [->|Hu];
      [destruct (Z.eqb_spec t' t) as [->|Ht]|]; simpl andb; cbv iota;
      [|rewrite Z.add_0_r; apply Hframe; simpl; tauto
       |rewrite Z.add_0_r; apply Hframe; simpl; tauto].
    simpl in H. unfold bind, ret in H.
    destruct (execute_buy u t q db) as [db1 [r|e]] eqn:E; [|discriminate].
    inversion H; subst db1; clear H. apply execute_buy_ok in E.
    destruct E as (price & a & _ & _ & _ & _ & _ & _ & _ & _ & _ & _ & Hport).
    unfold held.
    destruct (first (position_of u t) (portfolios db)) as [p0|] eqn:Hpos.
    + destruct Hport as (avg & _ & Hport). rewrite Hport.
      rewrite (first_update_first _ _ _ p0) by (auto; intros x Hx; exact Hx).
      reflexivity.
    + rewrite Hport. rewrite first_snoc; [reflexivity|exact Hpos|].
      unfold position_of. simpl. rewrite !Z.eqb_refl. reflexivity.
  - simpl net_quantity.
    destruct (Z.eqb_spec u' u) as [->|Hu];
      [destruct (Z.eqb_spec t' t) as [->|Ht]|]; simpl andb; cbv iota;
      [|rewrite Z.add_0_r; apply Hframe; simpl; tauto
       |rewrite Z.add_0_r; apply Hframe; simpl; tauto].
    simpl in H. unfold bind, ret in H.
    destruct (execute_sell u t q db) as [db1 [r|e]] eqn:E; [|discriminate].
    inversion H; subst db1; clear H. apply execute_sell_ok in E.
    destruct E as (price & p0 & a & _ & Hpos & _ & _ & _ & _ & _ & _ & _ & _
                   & _ & Hport).
    cbv zeta in Hport. unfold held. rewrite Hpos, Hport.
    destruct (Portfolio.quantity p0 - q =? 0)%Z eqn:Hz.
    + apply Z.eqb_eq in Hz.
      rewrite delete_update_first by (intros x Hx; exact Hx).
      rewrite first_filter, filter_delete_first.
      destruct (Hinv u t) as [Hnil|((p & Hp) & _)].
      * apply first_none_filter in Hnil. congruence.
      * rewrite Hp. simpl. lia.
    + rewrite (first_update_first _ _ _ p0) by (auto; intros x Hx; exact Hx).
      simpl. lia.
Qed.

(** X5.  Shares are conserved.  From a ledger with at most one row per
    pair, after any sequence of operations that all succeed, a pair
    holds what it held before plus the quantities of its buys minus the
    quantities of its sells. *)
Theorem shares_conserved (u t : Z) (ops : list op) (db db' : Session) :
  ledger_consistent db ->
  run ops db = (db', Ok tt) ->
  held db' u t
  = (held db u t + fold_right Z.add 0 (map (net_quantity u t) ops))%Z.
Proof.
  revert db. induction ops as [|o ops IH]; intros db Hinv H.
  - unfold run in H. simpl in H. inversion H; subst. simpl. lia.
  - apply run_cons in H. destruct H as (db1 & H1 & H2).
    rewrite (IH db1 (step_consistent o db db1 H1 Hinv) H2).
    rewrite (step_held u t o db db1 Hinv H1). simpl. lia.
Qed.

Lemma shares_conserved_witness :
  held (fst (run demo_ops demo_db)) 7 3
  = (held demo_db 7 3
     + fold_right Z.add 0 (map (net_quantity 7 3) demo_ops))%Z.
Proof.
  apply (shares_conserved 7 3 demo_ops demo_db).
  - intros u t. left. reflexivity.
  - vm_compute. reflexivity.
Defined.

End PositionProps.

(* ------------------------------------------------------------------ *)
(** ** Solvency *)

Module SolvencyProps.
Local Open Scope py_scope.
Import Trading LedgerProps CostBasisProps ReachabilityProps RefusalProps.
Import PositionProps.

(** A price the engine reads is the price of a stored tick. *)
Lemma latest_price_stored (t : Z) (db : Session) (price : pyfloat) :
  get_latest_price t db = (db, Ok price) ->
  exists tick, In tick (price_ticks db) /\ PriceTick.ticker_id tick = t
               /\ PriceTick.price tick = price.
Proof.
  intro H.
  destruct (get_latest_price_cases t db) as [(tick & Hhd & Hp)|(_ & Hp)];
    rewrite Hp in H; inversion H; subst.
  destruct (latest_tick_of db t tick Hhd) as (Hin & Hid).
  exists tick. auto.
Qed.

Lemma latest_price_positive (t : Z) (db : Session) (price : pyfloat) :
  prices_positive (price_ticks db) ->
  get_latest_price t db = (db, Ok price) -> positive_price price.
Proof.
  intros Hpos H. destruct (latest_price_stored t db price H)
    as (tick & Hin & _ & <-).
  unfold prices_positive in Hpos. rewrite Forall_forall in Hpos.
  apply Hpos. exact Hin.
Qed.

Lemma step_quantities (o : op) (db db' : Session) :
  sound_op o -> step o db = (db', Ok tt) ->
  quantities_positive db -> quantities_positive db'.
Proof.
  unfold quantities_positive. intros Hs H Hq.
  destruct o as [u t q|u t q|tick]; simpl in Hs, H.
  - unfold bind, ret in H.
    destruct (execute_buy u t q db) as [db1 [r|e]] eqn:E; [|discriminate].
    inversion H; subst db1; clear H. apply execute_buy_ok in E.
    destruct E as (price & a & _ & _ & _ & _ & _ & _ & _ & _ & _ & _ & Hport).
    destruct (first (position_of u t) (portfolios db)) as [p0|] eqn:Hpos.
    + destruct Hport as (avg & _ & Hport). rewrite Hport.
      apply Forall_update_first; [exact Hq|].
      intros x _ _. simpl.
      apply first_some_holds in Hpos. destruct Hpos as (_ & Hin).
      rewrite Forall_forall in Hq. specialize (Hq p0 Hin). lia.
    + rewrite Hport. apply Forall_app. split; [exact Hq|].
      constructor; [simpl; exact Hs | constructor].
  - unfold bind, ret in H.
    destruct (execute_sell u t q db) as [db1 [r|e]] eqn:E; [|discriminate].
    inversion H; subst db1; clear H. apply execute_sell_ok in E.
    destruct E as (price & p0 & a & _ & Hpos & Hlt & _ & _ & _ & _ & _ & _ & _
                   & _ & Hport).
    cbv zeta in Hport. rewrite Hport.
    destruct (Portfolio.quantity p0 - q =? 0)%Z eqn:Hz.
    + rewrite delete_update_first by (intros x Hx; exact Hx).
      apply Forall_delete_first. exact Hq.
    + apply Forall_update_first; [exact Hq|]. intros x _ _. simpl.
      apply Z.ltb_ge in Hlt. apply Z.eqb_neq in Hz. lia.
  - unfold modify in H. inversion H; subst. exact Hq.
Qed.

(** X6.  No empty or negative position.  When every order is for a
    positive number of shares and every stored quantity is positive,
    every stored quantity is positive after any sequence of operations
    that all succeed: a sell down to zero removes the row. *)
Theorem positions_stay_positive (ops : list op) (db db' : Session) :
  Forall sound_op ops ->
  Forall (fun p => (0 < Portfolio.quantity p)%Z) (portfolios db) ->
  run ops db = (db', Ok tt) ->
  Forall (fun p => (0 < Portfolio.quantity p)%Z) (portfolios db').
Proof.
  intro Hs. revert db. induction Hs as [|o ops Ho _ IH]; intros db Hq H.
  - unfold run in H. simpl in H. inversion H; subst. exact Hq.
  - apply run_cons in H. destruct H as (db1 & H1 & H2).
    apply (IH db1); [|exact H2].
    apply (step_quantities o db db1 Ho H1 Hq).
Qed.

Lemma demo_ops_sound : Forall sound_op demo_ops.
Proof.
  unfold demo_ops.
  constructor; [simpl; lia|].
  constructor; [simpl; eexists; split; [reflexivity|reflexivity]|].
  constructor; [simpl; lia|].
  constructor.
Qed.

Lemma positions_stay_positive_witness :
  Forall (fun p => (0 < Portfolio.quantity p)%Z)
         (portfolios (fst (run demo_ops demo_db))).
Proof.
  apply (positions_stay_positive demo_ops demo_db).
  - exact demo_ops_sound.
  - constructor.
  - vm_compute. reflexivity.
Defined.

Lemma nonnegative_after_buy (c pr : Q) (q : Z) :
  (Fin c <? Fin pr * of_int q) = false ->
  nonnegative (Fin c - Fin pr * of_int q).
Proof.
  simpl. intro H. apply Qlt_bool_false_iff in H.
  eexists. split; [reflexivity|]. lra.
Qed.

Lemma nonnegative_after_sell (c pr : Q) (q : Z) :
  (0 <= c)%Q -> (0 < pr)%Q -> (0 < q)%Z ->
  nonnegative (Fin c + Fin pr * of_int q).
Proof.
  intros Hc Hp Hq. simpl. eexists. split; [reflexivity|].
  assert (0 <= pr * inject_Z q)%Q.
  { apply Qmult_le_0_compat; [lra|].
    change 0%Q with (inject_Z 0). rewrite <- Zle_Qle. lia. }
  lra.
Qed.

Lemma step_cash (o : op) (db db' : Session) :
  sound_op o -> step o db = (db', Ok tt) ->
  prices_positive (price_ticks db) -> cash_nonnegative db ->
  prices_positive (price_ticks db') /\ cash_nonnegative db'.
Proof.
  unfold cash_nonnegative. intros Hs H Hp Hc.
  destruct o as [u t q|u t q|tick]; simpl in Hs, H.
  - unfold bind, ret in H.
    destruct (execute_buy u t q db) as [db1 [r|e]] eqn:E; [|discriminate].
    inversion H; subst db1; clear H. apply execute_buy_ok in E.
    destruct E as (price & a & Hprice & Ha & Hlt & Hacc & _ & _ & Hticks & _).
    rewrite Hticks, Hacc. split; [exact Hp|].
    apply Forall_update_first; [exact Hc|]. intros x _ _. simpl.
    destruct (latest_price_positive t db price Hp Hprice) as (pr & -> & Hpr).
    apply first_some_holds in Ha. destruct Ha as (_ & Hin).
    rewrite Forall_forall in Hc. destruct (Hc a Hin) as (c & Hc1 & Hc2).
    rewrite Hc1 in *. apply nonnegative_after_buy. exact Hlt.
  - unfold bind, ret in H.
    destruct (execute_sell u t q db) as [db1 [r|e]] eqn:E; [|discriminate].
    inversion H; subst db1; clear H. apply execute_sell_ok in E.
    destruct E as (price & p0 & a & Hprice & _ & _ & Ha & Hacc & _ & _
                   & Hticks & _).
    rewrite Hticks, Hacc. split; [exact Hp|].
    apply Forall_update_first; [exact Hc|]. intros x _ _. simpl.
    destruct (latest_price_positive t db price Hp Hprice) as (pr & -> & Hpr).
    apply first_some_holds in Ha. destruct Ha as (_ & Hin).
    rewrite Forall_forall in Hc. destruct (Hc a Hin) as (c & Hc1 & Hc2).
    rewrite Hc1. apply nonnegative_after_sell; assumption.
  - unfold modify in H. inversion H; subst. simpl. split; [|exact Hc].
    apply SimulatorProps.prices_positive_app; [exact Hp|].
    constructor; [exact Hs | constructor].
Qed.

(** X7.  No overdraft.  When the stored prices are positive, every order
    is for a positive number of shares and every new tick has a positive
    price, the cash balances, if finite and not negative before, are
    finite and not negative after any sequence of operations that all
    succeed: a buy that costs more than the balance is refused. *)
Theorem cash_never_negative (ops : list op) (db db' : Session) :
  Forall sound_op ops ->
  prices_positive (price_ticks db) ->
  Forall (fun a => nonnegative (Account.cash_balance a)) (accounts db) ->
  run ops db = (db', Ok tt) ->
  Forall (fun a => nonnegative (Account.cash_balance a)) (accounts db').
Proof.
  intro Hs. revert db. induction Hs as [|o ops Ho _ IH]; intros db Hp Hc H.
  - unfold run in H. simpl in H. inversion H; subst. exact Hc.
  - apply run_cons in H. destruct H as (db1 & H1 & H2).
    destruct (step_cash o db db1 Ho H1 Hp Hc) as (Hp1 & Hc1).
    apply (IH db1 Hp1 Hc1 H2).
Qed.

Lemma cash_never_negative_witness :
  Forall (fun a => nonnegative (Account.cash_balance a))
         (accounts (fst (run demo_ops demo_db))).
Proof.
  apply (cash_never_negative demo_ops demo_db).
  - exact demo_ops_sound.
  - constructor; [|constructor]. eexists. split; reflexivity.
  - constructor; [|constructor]. eexists. split; [reflexivity|].
    simpl. discriminate.
  - vm_compute. reflexivity.
Defined.

End SolvencyProps.

(* ------------------------------------------------------------------ *)
(** ** Price lookup, and a buy followed by a sell *)

Module RoundTripProps.
Local Open Scope py_scope.
Import Trading LedgerProps CostBasisProps ReachabilityProps RefusalProps.
Import PositionProps SolvencyProps.

Lemma order_by_head_latest (l : list PriceTick.t) (x : PriceTick.t) :
  hd_error (order_by_timestamp_desc l) = Some x ->
  forall y, In y l -> (PriceTick.timestamp y <= PriceTick.timestamp x)%Z.
Proof.
  revert x. induction l as [|a l IH]; intros x H y Hy; [destruct Hy|].
  simpl in H.
  destruct (order_by_timestamp_desc l) as [|u L] eqn:E.
  - destruct l as [|b l]; [|exfalso; apply (order_by_not_nil (b :: l));
                             [discriminate | exact E]].
    simpl in H. inversion H; subst. destruct Hy as [->|[]]. lia.
  - simpl in H.
    destruct (PriceTick.timestamp u <? PriceTick.timestamp a)%Z eqn:Hlt;
      simpl in H; inversion H; subst; clear H.
    + apply Z.ltb_lt in Hlt. destruct Hy as [->|Hy]; [lia|].
      specialize (IH u eq_refl y Hy). lia.
    + apply Z.ltb_ge in Hlt. destruct Hy as [->|Hy]; [lia|].
      apply (IH x eq_refl y Hy).
Qed.

(** X8.  The price the engine trades at is the price of the most recent
    tick of the instrument: a stored tick of that instrument that no
    other tick of it is later than. *)
Theorem latest_price_is_most_recent (t : Z) (db db' : Session)
  (price : pyfloat) :
  get_latest_price t db = (db', Ok price) ->
  exists tick,
    In tick (price_ticks db) /\ PriceTick.ticker_id tick = t
    /\ PriceTick.price tick = price
    /\ forall x, In x (price_ticks db) -> PriceTick.ticker_id x = t ->
                 (PriceTick.timestamp x <= PriceTick.timestamp tick)%Z.
Proof.
  intro H.
  destruct (get_latest_price_cases t db) as [(tick & Hhd & Hp)|(_ & Hp)];
    rewrite Hp in H; inversion H; subst.
  destruct (latest_tick_of db' t tick Hhd) as (Hin & Hid).
  exists tick. repeat split; auto.
  intros x Hx Hxt. unfold ticks_desc in Hhd.
  apply (order_by_head_latest _ _ Hhd). apply filter_In. split; [exact Hx|].
  apply Z.eqb_eq. exact Hxt.
Qed.

Lemma latest_price_is_most_recent_witness :
  exists tick,
    In tick (price_ticks (fst (run demo_between demo_db)))
    /\ PriceTick.ticker_id tick = 3
    /\ PriceTick.price tick = dec 110 1
    /\ forall x, In x (price_ticks (fst (run demo_between demo_db))) ->
                 PriceTick.ticker_id x = 3 ->
                 (PriceTick.timestamp x <= PriceTick.timestamp tick)%Z.
Proof.
  apply (latest_price_is_most_recent 3 (fst (run demo_between demo_db))
           (fst (run demo_between demo_db)) (dec 110 1)).
  vm_compute. reflexivity.
Defined.

(** The price lookup reads the price ticks only. *)
Lemma get_latest_price_same_ticks (t : Z) (db db' : Session) (r : result pyfloat) :
  price_ticks db' = price_ticks db ->
  get_latest_price t db = (db, r) -> get_latest_price t db' = (db', r).
Proof.
  unfold get_latest_price, ticks_desc. unfold_m. intros ->.
  destruct (hd_error _); intro H; inversion H; reflexivity.
Qed.

Lemma delete_first_snoc {A : Type} (p : A -> bool) (l : list A) (x : A) :
  first p l = None -> p x = true -> delete_first p (l ++ [x]) = l.
Proof.
  unfold first. induction l as [|a l IH]; simpl; intros Hn Hx.
  - rewrite Hx. reflexivity.
  - destruct (p a); [discriminate|]. f_equal. apply IH; assumption.
Qed.

Lemma update_update_first {A : Type} (p : A -> bool) (f g : A -> A)
  (l : list A) :
  (forall x, p x = true -> p (f x) = true) ->
  update_first p g (update_first p f l)
  = update_first p (fun x => g (f x)) l.
Proof.
  intro Hf. induction l as [|a l IH]; simpl; [reflexivity|].
  destruct (p a) eqn:E; simpl.
  - rewrite (Hf a E). reflexivity.
  - rewrite E. f_equal. exact IH.
Qed.

(** What a buy into a pair without a position does. *)
Lemma execute_buy_opens (u t q : Z) (db : Session) (price : pyfloat)
  (a : Account.t) :
  get_latest_price t db = (db, Ok price) ->
  first (account_of u) (accounts db) = Some a ->
  (Account.cash_balance a <? price * of_int q) = false ->
  first (position_of u t) (portfolios db) = None ->
  let cash := Account.cash_balance a - price * of_int q in
  execute_buy u t q db
  = (mkSession (users db)
       (update_first (account_of u) (set_cash_balance cash) (accounts db))
       (tickers db) (price_ticks db)
       (portfolios db ++ [Portfolio.mk u t q price price])
       (trades db ++ [Trade.mk u t "BUY" q price (price * of_int q) cash])
       (auto_trade_configs db),
     Ok (mkResult "BUY" q price (price * of_int q) cash)).
Proof.
  intros Hp Ha Hlt Hpos cash. unfold execute_buy.
  unfold bind at 1. rewrite Hp. unfold_m. rewrite Ha, Hlt. simpl.
  rewrite Hpos. reflexivity.
Qed.

(** X9.  A buy followed by a sell of the same quantity at an unchanged
    price.  For a pair without a position and a balance that covers the
    cost: the sell succeeds, the portfolio table is again what it was,
    the log has gained a BUY and a SELL record of the same amount, and
    the balance is the old one with the amount subtracted and then added
    back, in that order; the BUY record carries the balance in between
    and the SELL record the final one.  The final balance is not claimed
    to be the old one: the subtraction and the addition round. *)
Theorem buy_then_sell_round_trip (u t q : Z) (db : Session)
  (price : pyfloat) (a : Account.t) :
  get_latest_price t db = (db, Ok price) ->
  first (account_of u) (accounts db) = Some a ->
  (Account.cash_balance a <? price * of_int q) = false ->
  first (position_of u t) (portfolios db) = None ->
  let db1 := fst (execute_buy u t q db) in
  let db2 := fst (execute_sell u t q db1) in
  let cash1 := Account.cash_balance a - price * of_int q in
  let cash2 := cash1 + price * of_int q in
  (exists r, execute_sell u t q db1 = (db2, Ok r))
  /\ portfolios db2 = portfolios db
  /\ (exists a2, first (account_of u) (accounts db2) = Some a2
                 /\ Account.cash_balance a2 = cash2)
  /\ trades db2
     = (trades db
          ++ [Trade.mk u t "BUY" q price (price * of_int q) cash1;
              Trade.mk u t "SELL" q price (price * of_int q) cash2])%list.
Proof.
  intros Hp Ha Hlt Hpos.
  pose proof (execute_buy_opens u t q db price a Hp Ha Hlt Hpos) as Hbuy.
  cbv zeta in Hbuy. cbv zeta. rewrite Hbuy. simpl fst.
  match goal with
  | |- context [execute_sell u t q ?s] => remember s as db1 eqn:E1
  end.
  assert (Hp1 : get_latest_price t db1 = (db1, Ok price)).
  { apply (get_latest_price_same_ticks t db db1); [subst db1; reflexivity|].
    exact Hp. }
  assert (Hpos1 : first (position_of u t) (portfolios db1)
                  = Some (Portfolio.mk u t q price price)).
  { subst db1. simpl. apply first_snoc; [exact Hpos|].
    unfold position_of. simpl. rewrite !Z.eqb_refl. reflexivity. }
  assert (Ha1 : first (account_of u) (accounts db1)
                = Some (set_cash_balance
                          (Account.cash_balance a - price * of_int q) a)).
  { subst db1. simpl. apply first_update_first; [|exact Ha].
    intros x Hx. exact Hx. }
  assert (Hsell : execute_sell u t q db1
          = (mkSession (users db)
               (update_first (account_of u)
                  (set_cash_balance
                     (Account.cash_balance a - price * of_int q
                      + price * of_int q))
                  (accounts db1))
               (tickers db) (price_ticks db)
               (delete_first (position_of u t)
                  (update_first (position_of u t)
                     (fun p => Portfolio.mk (Portfolio.user_id p)
                                 (Portfolio.ticker_id p) (q - q)
                                 (Portfolio.avg_price p) price)
                     (portfolios db1)))
               (trades db1
                  ++ [Trade.mk u t "SELL" q price (price * of_int q)
                        (Account.cash_balance a - price * of_int q
                         + price * of_int q)])
               (auto_trade_configs db),
             Ok (mkResult "SELL" q price (price * of_int q)
                   (Account.cash_balance a - price * of_int q
                    + price * of_int q)))).
  { unfold execute_sell. unfold bind at 1. rewrite Hp1. unfold_m.
    rewrite Hpos1. simpl Portfolio.quantity. rewrite Z.ltb_irrefl.
    simpl. rewrite Z.sub_diag. simpl. rewrite Ha1. simpl.
    subst db1. reflexivity. }
  rewrite Hsell. simpl fst.
  split; [eexists; reflexivity|].
  split; [|split].
  - simpl.
    rewrite delete_update_first by (intros x Hx; exact Hx).
    rewrite E1. simpl. apply delete_first_snoc; [exact Hpos|].
    unfold position_of. simpl. rewrite !Z.eqb_refl. reflexivity.
  - simpl.
    eexists. split.
    + apply first_update_first; [intros x Hx; exact Hx | exact Ha1].
    + reflexivity.
  - rewrite E1. simpl. rewrite <- app_assoc. reflexivity.
Qed.

Lemma buy_then_sell_round_trip_witness :
  let db1 := fst (execute_buy 7 3 5 demo_db) in
  let db2 := fst (execute_sell 7 3 5 db1) in
  let cash1 := Account.cash_balance demo_account - Fin (100 # 1) * of_int 5 in
  let cash2 := cash1 + Fin (100 # 1) * of_int 5 in
  (exists r, execute_sell 7 3 5 db1 = (db2, Ok r))
  /\ portfolios db2 = portfolios demo_db
  /\ (exists a2, first (account_of 7) (accounts db2) = Some a2
                 /\ Account.cash_balance a2 = cash2)
  /\ trades db2
     = (trades demo_db
          ++ [Trade.mk 7 3 "BUY" 5 (Fin (100 # 1))
                (Fin (100 # 1) * of_int 5) cash1;
              Trade.mk 7 3 "SELL" 5 (Fin (100 # 1))
                (Fin (100 # 1) * of_int 5) cash2])%list.
Proof.
  apply (buy_then_sell_round_trip 7 3 5 demo_db (Fin (100 # 1))
           demo_account); reflexivity.
Defined.

(** X10.  The funds test is strict.  An order whose cost equals the
    balance is executed and leaves a balance of zero; the engine refuses
    only when the balance is below the cost. *)
Theorem buy_of_whole_balance (u t q : Z) (db : Session) (c pr : Q)
  (a : Account.t) :
  get_latest_price t db = (db, Ok (Fin pr)) ->
  first (account_of u) (accounts db) = Some a ->
  Account.cash_balance a = Fin c ->
  (c == pr * inject_Z q)%Q ->
  first (position_of u t) (portfolios db) = None ->
  exists db' r a',
    execute_buy u t q db = (db', Ok r)
    /\ first (account_of u) (accounts db') = Some a'
    /\ Account.cash_balance a' ~= Fin 0
    /\ cash_after r ~= Fin 0
    /\ held db' u t = q.
Proof.
  intros Hp Ha Hc Heq Hpos.
  assert (Hlt : (Account.cash_balance a <? Fin pr * of_int q) = false).
  { rewrite Hc. simpl. apply Qlt_bool_false_iff. rewrite Heq. apply Qle_refl. }
  pose proof (execute_buy_opens u t q db (Fin pr) a Hp Ha Hlt Hpos) as Hbuy.
  cbv zeta in Hbuy. rewrite Hbuy.
  eexists. eexists. eexists. split; [reflexivity|]. simpl.
  split; [apply first_update_first; [intros x Hx; exact Hx | exact Ha]|].
  simpl. rewrite Hc. simpl.
  split; [rewrite Heq; ring|]. split; [rewrite Heq; ring|].
  unfold held. simpl. rewrite first_snoc; [reflexivity | exact Hpos|].
  unfold position_of. simpl. rewrite !Z.eqb_refl. reflexivity.
Qed.

Lemma buy_of_whole_balance_witness :
  exists db' r a',
    execute_buy 7 3 100 demo_db = (db', Ok r)
    /\ first (account_of 7) (accounts db') = Some a'
    /\ Account.cash_balance a' ~= Fin 0
    /\ cash_after r ~= Fin 0
    /\ held db' 7 3 = 100.
Proof.
  apply (buy_of_whole_balance 7 3 100 demo_db (10000 # 1) (100 # 1)
           demo_account); reflexivity.
Defined.

End RoundTripProps.

(* ------------------------------------------------------------------ *)
(** ** Ranges of the indicators *)

Module IndicatorRangeProps.
Local Open Scope py_scope.
Import Indicators IndicatorProps.

Lemma inject_Z_pos (n : Z) : (0 < n)%Z -> (0 < inject_Z n)%Q.
Proof. intro H. change 0%Q with (inject_Z 0). rewrite <- Zlt_Qlt. exact H. Qed.

Lemma np_div_count (s : Q) (n : Z) :
  (0 < n)%Z -> np_div (Fin s) (of_int n) = Fin (s / inject_Z n).
Proof.
  intro H. simpl.
  assert (Hz : is_zero (inject_Z n) = false).
  { apply is_zero_false_iff. pose proof (inject_Z_pos n H). lra. }
  rewrite Hz. reflexivity.
Qed.

Lemma Forall_skipn_of {A : Type} (P : A -> Prop) (k : nat) (l : list A) :
  Forall P l -> Forall P (skipn k l).
Proof.
  intro H. rewrite <- (firstn_skipn k l) in H.
  apply Forall_app in H. tauto.
Qed.

Lemma Forall_firstn_of {A : Type} (P : A -> Prop) (k : nat) (l : list A) :
  Forall P l -> Forall P (firstn k l).
Proof.
  intro H. rewrite <- (firstn_skipn k l) in H.
  apply Forall_app in H. tauto.
Qed.

Lemma not_nil_length {A : Type} (l : list A) :
  (0 < List.length l)%nat -> l <> [].
Proof. destruct l; simpl; [lia | discriminate]. Qed.

Lemma tail_app (older window : Series) :
  tail (List.length window) (older ++ window)%list = window.
Proof.
  unfold tail. rewrite length_app.
  replace (List.length older + List.length window - List.length window)%nat
    with (List.length older + 0)%nat by lia.
  rewrite skipn_app, Nat.add_0_r, skipn_all.
  replace (List.length older - List.length older)%nat with O by lia.
  reflexivity.
Qed.

(** X11.  The simple moving average looks at the latest [period] prices
    only.  Below [period] points it is unavailable; from [period] points
    on it is the mean of the last [period] of them, whatever the prices
    before these are. *)
Theorem sma_of_latest_window (older window : Series) (period : Z) :
  len window = period ->
  calculate_sma (older ++ window)%list period = Some (mean window)
  /\ calculate_sma (older ++ window)%list period = calculate_sma window period
  /\ (forall prices, (len prices < period)%Z ->
       calculate_sma prices period = None).
Proof.
  intro Hlen.
  assert (Hw : forall xs, calculate_sma (xs ++ window)%list period
                          = Some (mean window)).
  { intro xs. unfold calculate_sma.
    assert (E : (len (xs ++ window)%list <? period)%Z = false).
    { apply Z.ltb_ge. unfold len in *. rewrite length_app. lia. }
    rewrite E. unfold len in Hlen. rewrite <- Hlen, Nat2Z.id, tail_app.
    reflexivity. }
  split; [apply Hw|]. split.
  - rewrite (Hw older). symmetry. exact (Hw []).
  - intros prices H. unfold calculate_sma.
    apply Z.ltb_lt in H. rewrite H. reflexivity.
Qed.

Lemma sma_of_latest_window_witness :
  calculate_sma ([dec 90 1; dec 95 1]
                 ++ [dec 100 1; dec 101 1; dec 105 1])%list 3
  = Some (mean [dec 100 1; dec 101 1; dec 105 1])
  /\ calculate_sma ([dec 90 1; dec 95 1]
                    ++ [dec 100 1; dec 101 1; dec 105 1])%list 3
     = calculate_sma [dec 100 1; dec 101 1; dec 105 1] 3
  /\ (forall prices, (len prices < 3)%Z -> calculate_sma prices 3 = None).
Proof.
  apply (sma_of_latest_window [dec 90 1; dec 95 1]
           [dec 100 1; dec 101 1; dec 105 1] 3).
  reflexivity.
Defined.

(** One step of the exponentially weighted mean is a convex
    combination. *)
Lemma ewm_step_between (lo hi al p x : Q) :
  (0 <= al)%Q -> (al <= 1)%Q ->
  (lo <= p)%Q -> (p <= hi)%Q -> (lo <= x)%Q -> (x <= hi)%Q ->
  (lo <= (1 + - al) * p + al * x)%Q /\ ((1 + - al) * p + al * x <= hi)%Q.
Proof.
  intros Ha0 Ha1 Hp1 Hp2 Hx1 Hx2.
  assert (A1 : (0 <= (1 - al) * (p - lo))%Q)
    by (apply Qmult_le_0_compat; lra).
  assert (A2 : (0 <= al * (x - lo))%Q) by (apply Qmult_le_0_compat; lra).
  assert (A3 : (0 <= (1 - al) * (hi - p))%Q)
    by (apply Qmult_le_0_compat; lra).
  assert (A4 : (0 <= al * (hi - x))%Q) by (apply Qmult_le_0_compat; lra).
  split; lra.
Qed.

Lemma ewm_from_between (lo hi al : Q) (xs : Series) :
  (0 <= al)%Q -> (al <= 1)%Q ->
  Forall (between lo hi) xs ->
  forall p, (lo <= p)%Q -> (p <= hi)%Q ->
            Forall (between lo hi) (ewm_from (Fin al) (Fin p) xs).
Proof.
  intros Ha0 Ha1.
  induction 1 as [|x xs (q & -> & Hlo & Hhi) _ IH]; intros p Hp1 Hp2;
    simpl; [constructor|].
  destruct (ewm_step_between lo hi al p q Ha0 Ha1 Hp1 Hp2 Hlo Hhi)
    as (B1 & B2).
  constructor.
  - eexists. split; [reflexivity|]. split; assumption.
  - apply IH; assumption.
Qed.

Lemma alpha_range (span : Z) :
  (1 <= span)%Z ->
  (0 <= 2 / inject_Z (span + 1))%Q /\ (2 / inject_Z (span + 1) <= 1)%Q.
Proof.
  intro H.
  assert (Hpos : (0 < inject_Z (span + 1))%Q) by (apply inject_Z_pos; lia).
  assert (H2 : (2 <= inject_Z (span + 1))%Q).
  { change 2%Q with (inject_Z 2). rewrite <- Zle_Qle. lia. }
  split.
  - apply Qle_shift_div_l; [exact Hpos|]. lra.
  - apply Qle_shift_div_r; [exact Hpos|]. lra.
Qed.

Lemma ewm_mean_between (lo hi : Q) (span : Z) (xs : Series) :
  (1 <= span)%Z -> Forall (between lo hi) xs ->
  Forall (between lo hi) (ewm_mean span xs).
Proof.
  intros Hs H. destruct (alpha_range span Hs) as (A0 & A1).
  destruct H as [|x xs Hx Hxs]; simpl; [constructor|].
  constructor; [exact Hx|].
  destruct Hx as (q & -> & Hlo & Hhi).
  apply ewm_from_between; assumption.
Qed.

Lemma ewm_from_length (al p : pyfloat) (xs : Series) :
  List.length (ewm_from al p xs) = List.length xs.
Proof.
  revert p. induction xs as [|x xs IH]; intro p; simpl; [reflexivity|].
  f_equal. apply IH.
Qed.

Lemma ewm_mean_length (span : Z) (xs : Series) :
  List.length (ewm_mean span xs) = List.length xs.
Proof.
  destruct xs as [|x xs]; simpl; [reflexivity|].
  f_equal. apply ewm_from_length.
Qed.

Lemma last_Forall {A : Type} (P : A -> Prop) (l : list A) (d : A) :
  Forall P l -> l <> [] -> P (List.last l d).
Proof.
  intros H Hne. rewrite Forall_forall in H. apply H.
  destruct l as [|a l]; [congruence|].
  pose proof (@exists_last _ (a :: l) Hne) as (l' & x & E).
  rewrite E, last_last. apply in_or_app. right. left. reflexivity.
Qed.

(** X12.  The exponential moving average is unavailable below [period]
    points and otherwise, like every entry of the smoothed series, lies
    within the range of the prices. *)
Theorem ema_within_price_range (prices : Series) (period : Z) (lo hi : Q) :
  (0 < period)%Z ->
  Forall (between lo hi) prices ->
  ((len prices < period)%Z -> calculate_ema prices period = None)
  /\ ((period <= len prices)%Z ->
      exists m, calculate_ema prices period = Some m /\ between lo hi m)
  /\ Forall (between lo hi) (ewm_mean period prices).
Proof.
  intros Hp H. unfold calculate_ema.
  assert (Hall : Forall (between lo hi) (ewm_mean period prices))
    by (apply ewm_mean_between; [lia | exact H]).
  split; [|split; [|exact Hall]]; intro Hlen.
  - apply Z.ltb_lt in Hlen. rewrite Hlen. reflexivity.
  - assert (E : (len prices <? period)%Z = false) by (apply Z.ltb_ge; lia).
    rewrite E. eexists. split; [reflexivity|].
    unfold iloc_last. apply last_Forall; [exact Hall|].
    apply not_nil_length. rewrite ewm_mean_length. unfold len in Hlen. lia.
Qed.

Lemma ema_within_price_range_witness :
  exists m, calculate_ema rising_series 12 = Some m
            /\ between (1 # 1) (15 # 1) m.
Proof.
  assert (H : Forall (between (1 # 1) (15 # 1)) rising_series).
  { unfold rising_series. apply Forall_forall. intros x Hx.
    apply in_map_iff in Hx. destruct Hx as (n & <- & Hn).
    apply in_seq in Hn. eexists. split; [reflexivity|].
    split.
    - change (1 # 1)%Q with (inject_Z 1). rewrite <- Zle_Qle. lia.
    - change (15 # 1)%Q with (inject_Z 15). rewrite <- Zle_Qle. lia. }
  apply (proj1 (proj2 (ema_within_price_range rising_series 12 (1 # 1)
                         (15 # 1) ltac:(lia) H))).
  vm_compute. discriminate.
Defined.


End IndicatorRangeProps.

(* ------------------------------------------------------------------ *)
(** ** The range of the RSI *)

Module RsiRangeProps.
Local Open Scope py_scope.
Import Indicators IndicatorProps IndicatorRangeProps.

Lemma diff_from_entries (xs : Series) :
  Forall finite xs -> forall prev, finite prev ->
  Forall nan_or_finite (diff_from prev xs).
Proof.
  induction 1 as [|x xs Hx _ IH]; intros prev Hp; simpl; [constructor|].
  constructor; [|apply IH; exact Hx].
  right. destruct x, prev; simpl in *; tauto.
Qed.

Lemma diff_entries (xs : Series) :
  Forall finite xs -> Forall nan_or_finite (diff xs).
Proof.
  intro H. destruct H as [|x xs Hx Hxs]; simpl; constructor.
  - left. reflexivity.
  - apply diff_from_entries; assumption.
Qed.

Lemma gains_nonnegative (deltas : Series) :
  Forall nan_or_finite deltas ->
  Forall nonnegative (where_ (fun d => d >? Fin 0) (Fin 0) deltas).
Proof.
  unfold where_. induction 1 as [|d ds Hd _ IH]; simpl; constructor;
    [|exact IH].
  destruct Hd as [->|Hd].
  - simpl. exists 0%Q. split; [reflexivity | apply Qle_refl].
  - destruct d as [x| | |]; simpl in Hd; try contradiction.
    unfold fgt. simpl. destruct (Qlt_bool 0 x) eqn:E.
    + apply Qlt_bool_iff in E. exists x. split; [reflexivity | lra].
    + exists 0%Q. split; [reflexivity | apply Qle_refl].
Qed.

Lemma losses_nonnegative (deltas : Series) :
  Forall nan_or_finite deltas ->
  Forall nonnegative
         (map fneg (where_ (fun d => d <? Fin 0) (Fin 0) deltas)).
Proof.
  unfold where_. induction 1 as [|d ds Hd _ IH]; simpl; constructor;
    [|exact IH].
  destruct Hd as [->|Hd].
  - simpl. eexists. split; [reflexivity | lra].
  - destruct d as [x| | |]; simpl in Hd; try contradiction.
    simpl. destruct (Qlt_bool x 0) eqn:E.
    + apply Qlt_bool_iff in E. simpl. eexists. split; [reflexivity | lra].
    + simpl. eexists. split; [reflexivity | lra].
Qed.

Lemma nonnegative_no_nan (xs : Series) :
  Forall nonnegative xs -> existsb is_nan xs = false.
Proof.
  induction 1 as [|x xs (q & -> & _) _ IH]; simpl; [reflexivity|exact IH].
Qed.

Lemma sum_nonnegative (xs : Series) :
  Forall nonnegative xs ->
  forall a, exists s, fold_left fadd xs (Fin a) = Fin s /\ (a <= s)%Q.
Proof.
  induction 1 as [|x xs (q & -> & Hq) _ IH]; intro a.
  - exists a. split; [reflexivity | apply Qle_refl].
  - destruct (IH (a + q)%Q) as (s & Hs & H1).
    exists s. split; [exact Hs | lra].
Qed.

Lemma window_mean_nonnegative (w : Series) :
  Forall nonnegative w -> w <> [] -> nonnegative (window_mean w).
Proof.
  intros H Hne. unfold window_mean. rewrite (nonnegative_no_nan w H).
  unfold series_sum, len.
  destruct (sum_nonnegative w H 0) as (s & -> & Hs).
  assert (Hn : (0 < Z.of_nat (List.length w))%Z).
  { destruct w; [congruence|]. simpl. lia. }
  rewrite (np_div_count s _ Hn).
  eexists. split; [reflexivity|].
  apply Qle_shift_div_l; [apply inject_Z_pos; exact Hn | lra].
Qed.

Lemma last_seq (k : nat) : List.last (seq 0 (S k)) O = k.
Proof. rewrite seq_S. apply last_last. Qed.

Lemma rolling_mean_latest (n : nat) (xs : Series) :
  (0 < n)%nat -> (n <= List.length xs)%nat ->
  iloc_last (rolling_mean n xs)
  = window_mean (firstn n (skipn (List.length xs - n) xs)).
Proof.
  intros Hn Hlen. unfold iloc_last, rolling_mean.
  destruct (List.length xs) as [|k] eqn:E; [lia|].
  rewrite (last_map _ _ O NaN) by (rewrite seq_S; intro H;
                                   apply app_eq_nil in H; destruct H; discriminate).
  rewrite last_seq.
  assert (Hlt : (S k <? n)%nat = false) by (apply Nat.ltb_ge; lia).
  rewrite Hlt. reflexivity.
Qed.

Lemma rolling_mean_latest_nonnegative (n : nat) (xs : Series) :
  (0 < n)%nat -> (n <= List.length xs)%nat ->
  Forall nonnegative xs ->
  nonnegative (iloc_last (rolling_mean n xs)).
Proof.
  intros Hn Hlen H. rewrite rolling_mean_latest by assumption.
  apply window_mean_nonnegative.
  - apply Forall_firstn_of, Forall_skipn_of. exact H.
  - apply not_nil_length. rewrite length_firstn, length_skipn. lia.
Qed.

(** The RSI of a relative strength [gain / loss] of two averages that
    are not negative. *)
Lemma rsi_of_range (g l : Q) :
  (0 <= g)%Q -> (0 <= l)%Q ->
  rsi_of (np_div (Fin g) (Fin l)) = NaN
  \/ between 0 100 (rsi_of (np_div (Fin g) (Fin l))).
Proof.
  intros Hg Hl. simpl np_div.
  destruct (is_zero l) eqn:Ez.
  - unfold signed_inf. destruct (is_zero g) eqn:Eg; [left; reflexivity|].
    apply is_zero_false_iff in Eg.
    assert (Hp : is_pos g = true).
    { unfold is_pos. apply Qlt_bool_iff.
      destruct (Qlt_le_dec 0 g) as [H|H]; [exact H|].
      exfalso. apply Eg. lra. }
    rewrite Hp. simpl. right. eexists. split; [reflexivity|]. split; lra.
  - apply is_zero_false_iff in Ez. right.
    assert (Hlp : (0 < l)%Q).
    { destruct (Qlt_le_dec 0 l) as [H|H]; [exact H|]. exfalso. apply Ez. lra. }
    assert (Hr : (0 <= g / l)%Q) by (apply Qle_shift_div_l; [exact Hlp | lra]).
    unfold rsi_of. simpl.
    assert (Hz : is_zero (1 + g / l) = false).
    { apply is_zero_false_iff. lra. }
    rewrite Hz. eexists. split; [reflexivity|].
    assert (H1 : (0 <= 100 / (1 + g / l))%Q)
      by (apply Qle_shift_div_l; lra).
    assert (H2 : (100 / (1 + g / l) <= 100)%Q)
      by (apply Qle_shift_div_r; lra).
    split; lra.
Qed.

Lemma rsi_of_no_gain (g l : Q) :
  (g == 0)%Q -> (0 < l)%Q -> rsi_of (np_div (Fin g) (Fin l)) ~= Fin 0.
Proof.
  intros Hg Hl. simpl np_div.
  assert (Ez : is_zero l = false) by (apply is_zero_false_iff; lra).
  rewrite Ez. unfold rsi_of. simpl.
  assert (Hr : (g / l == 0)%Q).
  { rewrite Hg. unfold Qdiv. ring. }
  assert (Hz : is_zero (1 + g / l) = false).
  { apply is_zero_false_iff. rewrite Hr. lra. }
  rewrite Hz. simpl. rewrite Hr. field.
Qed.

(** X14.  The RSI stays in its range.  For finite prices, a period of at
    least 1 and more points than the period, the RSI is a number between
    0 and 100, or [nan] (when the average gain and the average loss of
    the latest window are both 0).  It is 0 when the window has no gain
    and a positive average loss. *)
Theorem rsi_within_bounds (prices : Series) (period : Z) :
  (1 <= period)%Z ->
  Forall finite prices ->
  (period + 1 <= len prices)%Z ->
  exists r,
    calculate_rsi prices period = Some r
    /\ (r = NaN \/ between 0 100 r)
    /\ (latest_avg_gain prices period ~= Fin 0 ->
        fpos (latest_avg_loss prices period) -> r ~= Fin 0).
Proof.
  intros Hp Hfin Hlen.
  rewrite (calculate_rsi_latest prices period) by lia.
  eexists. split; [reflexivity|].
  assert (Hn : (0 < Z.to_nat period)%nat) by lia.
  assert (Hl : (Z.to_nat period <= List.length prices)%nat)
    by (unfold len in Hlen; lia).
  assert (Hg : nonnegative (latest_avg_gain prices period)).
  { unfold latest_avg_gain. apply rolling_mean_latest_nonnegative.
    - exact Hn.
    - rewrite where_length, diff_length. exact Hl.
    - apply gains_nonnegative, diff_entries. exact Hfin. }
  assert (Hlo : nonnegative (latest_avg_loss prices period)).
  { unfold latest_avg_loss. apply rolling_mean_latest_nonnegative.
    - exact Hn.
    - rewrite length_map, where_length, diff_length. exact Hl.
    - apply losses_nonnegative, diff_entries. exact Hfin. }
  destruct Hg as (g & -> & Hg). destruct Hlo as (l & -> & Hl0).
  split; [apply rsi_of_range; assumption|].
  intros Hz Hpos. apply rsi_of_no_gain.
  - exact Hz.
  - unfold fpos in Hpos. simpl in Hpos. apply Qlt_bool_iff. exact Hpos.
Qed.

Lemma rsi_within_bounds_witness :
  exists r,
    calculate_rsi falling_series 14 = Some r
    /\ (r = NaN \/ between 0 100 r)
    /\ (latest_avg_gain falling_series 14 ~= Fin 0 ->
        fpos (latest_avg_loss falling_series 14) -> r ~= Fin 0).
Proof.
  apply (rsi_within_bounds falling_series 14).
  - lia.
  - unfold falling_series. apply Forall_forall. intros x Hx.
    apply in_map_iff in Hx. destruct Hx as (n & <- & _). exact I.
  - vm_compute. discriminate.
Defined.

(** On fifteen falling prices the RSI is 0. *)
Example rsi_of_falling_series :
  option_map (fun r => feqb r (Fin 0)) (calculate_rsi falling_series 14)
  = Some true.
Proof. vm_compute. reflexivity. Qed.

End RsiRangeProps.

(* ------------------------------------------------------------------ *)
(** ** The rules of the fallback *)

Module FallbackProps.
Local Open Scope py_scope.
Import Indicators Predictions SignalProps.

Lemma rsi_rule_hold (rsi : option pyfloat) :
  (forall r, rsi = Some r -> (r <? Fin 30) = false /\ (r >? Fin 70) = false) ->
  rsi_rule rsi = hold_signal.
Proof.
  intro H. unfold rsi_rule. destruct rsi as [r|]; [|reflexivity].
  destruct (H r eq_refl) as (H1 & H2). rewrite H1, H2. reflexivity.
Qed.

Lemma macd_rule_hold (h : option pyfloat) (s : Signal) :
  action s = "HOLD" -> macd_rule h s = s.
Proof.
  intro Ha. unfold macd_rule. destruct h as [h|]; [|reflexivity].
  rewrite Ha. simpl. rewrite !andb_false_r. reflexivity.
Qed.

Lemma crossover_rule_hold (a b : option pyfloat) (s : Signal) :
  action s = "HOLD" -> crossover_rule a b s = s.
Proof.
  intro Ha. unfold crossover_rule.
  destruct a as [a|]; [|reflexivity]. destruct b as [b|]; [|reflexivity].
  rewrite Ha. simpl. rewrite !andb_false_r. reflexivity.
Qed.

Lemma hold_is_final (h a b : option pyfloat) :
  crossover_rule a b (macd_rule h hold_signal) = hold_signal.
Proof.
  rewrite (macd_rule_hold h hold_signal eq_refl).
  apply crossover_rule_hold. reflexivity.
Qed.

(** X15.  Without a decisive RSI the rules hold.  When the RSI is
    missing, is [nan], or lies between 30 and 70 inclusive, the fallback
    answers HOLD with confidence 0.5, whatever the MACD histogram and
    the moving averages say. *)
Theorem fallback_holds_without_decisive_rsi (indicators : Snapshot) :
  (forall r, get_ indicators "rsi_14" = Some r ->
             (r <? Fin 30) = false /\ (r >? Fin 70) = false) ->
  rule_based_fallback indicators
  = mkSignal "HOLD" (dec 5 10) "Insufficient data for clear signal".
Proof.
  intro H. unfold rule_based_fallback. cbv zeta.
  rewrite (rsi_rule_hold _ H). apply hold_is_final.
Qed.

Lemma fallback_holds_without_decisive_rsi_witness :
  rule_based_fallback
    [("rsi_14", Some (dec 30 1)); ("macd_histogram", Some (dec 5 10));
     ("sma_20", Some (dec 110 1)); ("sma_50", Some (dec 100 1))]
  = mkSignal "HOLD" (dec 5 10) "Insufficient data for clear signal".
Proof.
  apply fallback_holds_without_decisive_rsi.
  intros r H. inversion H; subst. split; reflexivity.
Defined.

Lemma flt_irrefl (x : pyfloat) : (x <? x) = false.
Proof.
  destruct x; simpl; try reflexivity.
  apply Qlt_bool_false_iff. apply Qle_refl.
Qed.

(** X16.  Confirmations only add confidence.  The action of the fallback
    is the one the RSI rule chose; the confidence is never below the one
    the RSI rule gave; it is 0.5 for HOLD, and for BUY and SELL one of
    0.7, [min(0.9, 0.7 + 0.1)] (the crossover alone),
    [min(0.85, 0.7 + 0.15)] (the MACD alone) and
    [min(0.9, min(0.85, 0.7 + 0.15) + 0.1)] (both), the sums being those
    the program computes. *)
Theorem confirmations_only_add_confidence (indicators : Snapshot) :
  let base := rsi_rule (get_ indicators "rsi_14") in
  let s := rule_based_fallback indicators in
  action s = action base
  /\ (confidence s <? confidence base) = false
  /\ ((action s = "HOLD" /\ confidence s = dec 5 10)
      \/ ((action s = "BUY" \/ action s = "SELL")
          /\ (confidence s = dec 7 10
              \/ confidence s = py_min (dec 9 10) (dec 7 10 + dec 1 10)
              \/ confidence s = py_min (dec 85 100) (dec 7 10 + dec 15 100)
              \/ confidence s
                 = py_min (dec 9 10)
                     (py_min (dec 85 100) (dec 7 10 + dec 15 100)
                      + dec 1 10)))).
Proof.
  intros base s.
  assert (Ha : action s = action base).
  { unfold s, rule_based_fallback. cbv zeta.
    rewrite crossover_rule_action, macd_rule_action. reflexivity. }
  split; [exact Ha|].
  destruct (rsi_rule_cases (get_ indicators "rsi_14")) as [(Hb & Hc)|(Hb & Hc)];
    fold base in Hb, Hc.
  - assert (E : s = base).
    { unfold s, rule_based_fallback. cbv zeta. fold base.
      rewrite (macd_rule_hold _ base Hb). apply crossover_rule_hold. exact Hb. }
    rewrite E. split; [apply flt_irrefl|]. left. split; assumption.
  - assert (Hlevels :
      confidence s = dec 7 10
      \/ confidence s = py_min (dec 9 10) (dec 7 10 + dec 1 10)
      \/ confidence s = py_min (dec 85 100) (dec 7 10 + dec 15 100)
      \/ confidence s
         = py_min (dec 9 10)
             (py_min (dec 85 100) (dec 7 10 + dec 15 100) + dec 1 10)).
    { unfold s, rule_based_fallback. cbv zeta. fold base.
      destruct (crossover_rule_confidence (get_ indicators "sma_20")
                  (get_ indicators "sma_50")
                  (macd_rule (get_ indicators "macd_histogram") base))
        as [E|E]; rewrite E;
        destruct (macd_rule_confidence (get_ indicators "macd_histogram")
                    base) as [E'|E']; rewrite E', Hc; tauto. }
    split.
    + rewrite Hc.
      destruct Hlevels as [E|[E|[E|E]]]; rewrite E; reflexivity.
    + right. split; [rewrite Ha; exact Hb|]. exact Hlevels.
Qed.

Lemma upper_ascii_idempotent (c : ascii) :
  upper_ascii (upper_ascii c) = upper_ascii c.
Proof.
  destruct c as [[] [] [] [] [] [] [] []]; reflexivity.
Qed.

Lemma upper_idempotent (s : string) : upper (upper s) = upper s.
Proof.
  induction s as [|c s IH]; simpl; [reflexivity|].
  rewrite upper_ascii_idempotent, IH. reflexivity.
Qed.

Lemma upper_ascii_text (s : string) : ascii_text s -> ascii_text (upper s).
Proof.
  unfold ascii_text. induction s as [|c s IH]; simpl; intro H.
  - constructor.
  - inversion H as [|x l Hc Hs]; subst. constructor; [|exact (IH Hs)].
    revert Hc. clear.
    destruct c as [[] [] [] [] [] [] [] []]; vm_compute; intro; lia.
Qed.

(** X17.  The action of a signal is in upper case.  When the action the
    advisory service answers with is ASCII text, the action the signal
    engine returns is ASCII text that [upper()] leaves unchanged: an
    answer in lower case is normalised, so that the string tests of the
    auto-trader see it. *)
Theorem signal_action_is_upper_case (indicators : Snapshot) (adv : advisory) :
  answers_in_ascii adv ->
  upper (action (get_claude_prediction indicators adv))
  = action (get_claude_prediction indicators adv)
  /\ ascii_text (action (get_claude_prediction indicators adv)).
Proof.
  intro Hascii.
  assert (Hf : upper (action (rule_based_fallback indicators))
               = action (rule_based_fallback indicators)
               /\ ascii_text (action (rule_based_fallback indicators))).
  { destruct (fallback_shape indicators) as ([E|[E|E]] & _);
      rewrite E; (split; [reflexivity|]);
      unfold ascii_text; simpl; repeat constructor. }
  destruct adv as [| |status body]; simpl; try exact Hf.
  destruct (status =? 200)%Z; [|exact Hf].
  destruct body as [| |a c r]; try exact Hf.
  destruct a as [a|]; simpl in *.
  - split; [apply upper_idempotent | apply upper_ascii_text; exact Hascii].
  - split; [reflexivity | unfold ascii_text; simpl; repeat constructor].
Qed.

Lemma signal_action_is_upper_case_witness :
  let adv := Response 200 (Object (Some "buy") (Some (dec 9 10)) None) in
  action (get_claude_prediction [] adv) = "BUY"
  /\ upper (action (get_claude_prediction [] adv))
     = action (get_claude_prediction [] adv)
  /\ ascii_text (action (get_claude_prediction [] adv)).
Proof.
  intro adv. split; [reflexivity|].
  apply (signal_action_is_upper_case [] adv).
  unfold adv, answers_in_ascii, ascii_text. simpl. repeat constructor.
Defined.

Lemma insert_desc_length (t : PriceTick.t) (l : list PriceTick.t) :
  List.length (insert_desc t l) = S (List.length l).
Proof.
  induction l as [|u l IH]; simpl; [reflexivity|].
  destruct (PriceTick.timestamp u <? PriceTick.timestamp t)%Z; simpl;
    [reflexivity|]. rewrite IH. reflexivity.
Qed.

Lemma order_by_length (l : list PriceTick.t) :
  List.length (order_by_timestamp_desc l) = List.length l.
Proof.
  induction l as [|t l IH]; simpl; [reflexivity|].
  rewrite insert_desc_length, IH. reflexivity.
Qed.

Lemma snapshot_rsi (a b c d r : option pyfloat) (rest : Snapshot) :
  get_ (("sma_20", a) :: ("sma_50", b) :: ("ema_12", c) :: ("ema_26", d)
          :: ("rsi_14", r) :: rest) "rsi_14" = r.
Proof. reflexivity. Qed.

Lemma thin_history_rsi (db : Session) (t : Z) :
  (List.length (filter (PriceSimulator.ticker_is t) (price_ticks db)) < 15)%nat ->
  get_ (get_technical_indicators db t 100) "rsi_14" = None.
Proof.
  intro H. unfold get_technical_indicators. cbv zeta.
  destruct (firstn 100 (ticks_desc db t)) as [|x l] eqn:E; [reflexivity|].
  rewrite snapshot_rsi. unfold calculate_rsi.
  assert (Hlen : (len (map PriceTick.price (rev (x :: l))) <? 14 + 1)%Z = true).
  { apply Z.ltb_lt. unfold len. rewrite length_map, length_rev, <- E.
    rewrite length_firstn. unfold ticks_desc. rewrite order_by_length.
    unfold PriceSimulator.ticker_is in H. lia. }
  rewrite Hlen. reflexivity.
Qed.

Lemma falls_back_fallback (indicators : Snapshot) (adv : advisory) :
  falls_back adv ->
  get_claude_prediction indicators adv = rule_based_fallback indicators.
Proof.
  destruct adv as [| |status body]; simpl; try reflexivity.
  destruct (Z.eqb_spec status 200) as [->|Hne]; [|reflexivity].
  destruct body; try reflexivity. intro H. congruence.
Qed.

(** X18.  A thin history gives no trade.  For an instrument with fewer
    than 15 price points, and an advisory service that gives no usable
    answer, the signal is HOLD with confidence 0.5: the RSI is
    unavailable, and nothing else can start a BUY or a SELL. *)
Theorem thin_history_gives_hold (db : Session) (t : Z) (adv : advisory) :
  falls_back adv ->
  (List.length (filter (PriceSimulator.ticker_is t) (price_ticks db)) < 15)%nat ->
  get_trading_signal db t adv
  = mkSignal "HOLD" (dec 5 10) "Insufficient data for clear signal".
Proof.
  intros Hadv Hlen. unfold get_trading_signal. cbv zeta.
  rewrite (falls_back_fallback _ adv Hadv).
  unfold rule_based_fallback. cbv zeta.
  rewrite (thin_history_rsi db t Hlen).
  apply hold_is_final.
Qed.

Lemma thin_history_gives_hold_witness :
  get_trading_signal demo_db 3 (Response 500 (Object (Some "BUY") None None))
  = mkSignal "HOLD" (dec 5 10) "Insufficient data for clear signal".
Proof.
  apply (thin_history_gives_hold demo_db 3).
  - simpl. lia.
  - simpl. lia.
Defined.

End FallbackProps.

(* ------------------------------------------------------------------ *)
(** ** The auto-trading cycle as a whole *)

Module CycleProps.
Local Open Scope py_scope.
Import Trading AutoTrader RefusalProps PositionProps.

Lemma contained_refl (u : Z) (db : Session) : contained u db db.
Proof.
  split; [apply engine_frame_refl|].
  split; [apply log_extended_refl | intros; apply untouched_refl].
Qed.

Lemma contained_trans (u : Z) (a b c : Session) :
  contained u a b -> contained u b c -> contained u a c.
Proof.
  intros (A1 & A2 & A3) (B1 & B2 & B3). split; [|split].
  - apply (engine_frame_trans a b c); assumption.
  - apply (log_extended_trans a b c); assumption.
  - intros u' Hne. apply (untouched_trans u' a b c); auto.
Qed.

Lemma contained_bind {A B : Type} (u : Z) (m : M A) (k : A -> M B)
  (db : Session) :
  contained u db (fst (m db)) ->
  (forall a db1, contained u db1 (fst (k a db1))) ->
  contained u db (fst (bind m k db)).
Proof.
  intros Hm Hk. unfold bind. destruct (m db) as [db1 [a|e]]; simpl in *.
  - apply (contained_trans u db db1); [exact Hm | apply Hk].
  - exact Hm.
Qed.

Lemma contained_pure {A : Type} (u : Z) (m : M A) (db : Session) :
  fst (m db) = db -> contained u db (fst (m db)).
Proof. intros ->. apply contained_refl. Qed.

Lemma contained_buy (u t q : Z) (db : Session) :
  contained u db (fst (execute_buy u t q db)).
Proof. apply (execute_buy_effect u t q db). Qed.

Lemma contained_sell (u t q : Z) (db : Session) :
  contained u db (fst (execute_sell u t q db)).
Proof. apply (execute_sell_effect u t q db). Qed.

Lemma contained_execute_signal (config : AutoTradeConfig.t) (user : User.t)
  (account : Account.t) (ticker : Ticker.t) (signal : Predictions.Signal)
  (db : Session) :
  contained (User.id user) db
            (fst (execute_signal config user account ticker signal db)).
Proof.
  unfold execute_signal. cbv zeta.
  destruct (String.eqb (Predictions.action signal) "BUY").
  - apply contained_bind;
      [apply contained_pure, get_latest_price_session|].
    intros price db1. apply contained_bind; [apply contained_refl|].
    intros db2 db3. apply contained_bind; [apply contained_refl|].
    intros ratio db4. apply contained_bind; [apply contained_refl|].
    intros affordable db5.
    destruct (Z.min _ _ >? 0)%Z; [|apply contained_refl].
    apply contained_bind; [apply contained_buy|].
    intros r db6. apply contained_refl.
  - destruct (String.eqb (Predictions.action signal) "SELL");
      [|apply contained_refl].
    apply contained_bind; [apply contained_refl|].
    intros db1 db2.
    destruct (first _ _) as [p|]; [|apply contained_refl].
    destruct (Portfolio.quantity p >? 0)%Z; [|apply contained_refl].
    apply contained_bind;
      [apply contained_pure, get_latest_price_session|].
    intros price db3. apply contained_bind; [apply contained_sell|].
    intros r db4. apply contained_refl.
Qed.

Lemma try_except_session (m : M unit) (db : Session) :
  fst (try_except m db) = fst (m db) /\ snd (try_except m db) = Ok tt.
Proof.
  unfold try_except. destruct (m db) as [db1 [[]|e]]; split; reflexivity.
Qed.

Lemma process_ticker_spec (advisor : Z -> Z -> Predictions.advisory)
  (config : AutoTradeConfig.t) (user : User.t) (account : Account.t)
  (ticker : Ticker.t) (db : Session) :
  contained (User.id user) db
            (fst (process_ticker advisor config user account ticker db))
  /\ snd (process_ticker advisor config user account ticker db) = Ok tt.
Proof.
  unfold process_ticker.
  destruct (try_except_session
              (db0 <- get ;;
               trade_on_signal config user account ticker
                 (Predictions.get_trading_signal db0 (Ticker.id ticker)
                    (advisor (User.id user) (Ticker.id ticker)))) db)
    as (E1 & E2).
  rewrite E1. split; [|exact E2].
  apply contained_bind; [apply contained_refl|].
  intros db1 db2. unfold trade_on_signal.
  destruct (_ <? _); [apply contained_refl|].
  apply contained_execute_signal.
Qed.

(** A loop whose body never raises and stays contained. *)
Lemma for_each_spec {A : Type} (u : Z) (body : A -> M unit) (l : list A) :
  (forall a db, contained u db (fst (body a db)) /\ snd (body a db) = Ok tt) ->
  forall db, contained u db (fst (for_each body l db))
             /\ snd (for_each body l db) = Ok tt.
Proof.
  intro Hb. induction l as [|a l IH]; intro db; simpl.
  - split; [apply contained_refl | reflexivity].
  - unfold bind. destruct (Hb a db) as (H1 & H2).
    destruct (body a db) as [db1 [[]|e]]; simpl in *; [|discriminate].
    destruct (IH db1) as (H3 & H4). split; [|exact H4].
    apply (contained_trans u db db1); assumption.
Qed.

Lemma process_config_spec (advisor : Z -> Z -> Predictions.advisory)
  (ts : list Ticker.t) (config : AutoTradeConfig.t) (db : Session) :
  contained (AutoTradeConfig.user_id config) db
            (fst (process_config advisor ts config db))
  /\ snd (process_config advisor ts config db) = Ok tt.
Proof.
  unfold process_config, bind, get.
  destruct (first _ (users db)) as [user|] eqn:Eu;
    [|split; [apply contained_refl | reflexivity]].
  apply first_some_holds in Eu. destruct Eu as (Hid & _).
  apply Z.eqb_eq in Hid. rewrite <- Hid.
  destruct (first _ (accounts db)) as [account|];
    [|split; [apply contained_refl | reflexivity]].
  apply for_each_spec. intros ticker db1. apply process_ticker_spec.
Qed.

(** The loop over the enabled configurations. *)
Lemma configs_loop_spec (advisor : Z -> Z -> Predictions.advisory)
  (ts : list Ticker.t) (configs : list AutoTradeConfig.t) :
  forall db,
    let out := for_each (process_config advisor ts) configs db in
    snd out = Ok tt
    /\ engine_frame db (fst out) /\ log_extended db (fst out)
    /\ forall u, (forall c, In c configs -> AutoTradeConfig.user_id c <> u) ->
                 untouched u db (fst out).
Proof.
  induction configs as [|c configs IH]; intro db; simpl.
  - split; [reflexivity|]. split; [apply engine_frame_refl|].
    split; [apply log_extended_refl | intros; apply untouched_refl].
  - unfold bind.
    destruct (process_config_spec advisor ts c db) as ((F1 & L1 & U1) & H2).
    destruct (process_config advisor ts c db) as [db1 [[]|e]]; simpl in *;
      [|discriminate].
    destruct (IH db1) as (H3 & F2 & L2 & U2).
    split; [exact H3|].
    split; [apply (engine_frame_trans db db1); assumption|].
    split; [apply (log_extended_trans db db1); assumption|].
    intros u Hu. apply (untouched_trans u db db1).
    + apply U1. intro E. apply (Hu c); auto.
    + apply U2. intros c' Hc'. apply Hu. auto.
Qed.

Lemma cycle_spec (advisor : Z -> Z -> Predictions.advisory) (db : Session) :
  let out := process_auto_trading advisor db in
  snd out = Ok tt
  /\ engine_frame db (fst out) /\ log_extended db (fst out)
  /\ forall u, not_enrolled db u -> untouched u db (fst out).
Proof.
  unfold process_auto_trading, bind, get.
  destruct (filter AutoTradeConfig.enabled (auto_trade_configs db))
    as [|c cs] eqn:E.
  - simpl. split; [reflexivity|]. split; [apply engine_frame_refl|].
    split; [apply log_extended_refl | intros; apply untouched_refl].
  - cbv zeta.
    destruct (configs_loop_spec advisor (tickers db) (c :: cs) db)
      as (H1 & H2 & H3 & H4).
    split; [exact H1|]. split; [exact H2|]. split; [exact H3|].
    intros u Hu. apply H4. intros c' Hc'. rewrite <- E in Hc'.
    apply filter_In in Hc'. destruct Hc' as (Hin & Hen).
    apply (Hu c' Hin Hen).
Qed.

(** X19.  The cycle is contained.  Whatever the advisory service answers
    and whatever fails inside, [process_auto_trading] returns normally;
    it leaves the users, the tickers, the price ticks and the
    configurations as they were; it only appends to the trade log; and
    it does not touch the account, the positions or the trade records of
    a user without an enabled configuration. *)
Theorem cycle_is_contained (advisor : Z -> Z -> Predictions.advisory)
  (db : Session) :
  let out := process_auto_trading advisor db in
  snd out = Ok tt
  /\ run_auto_trading advisor db = out
  /\ engine_frame db (fst out)
  /\ log_extended db (fst out)
  /\ forall u, not_enrolled db u -> untouched u db (fst out).
Proof.
  pose proof (cycle_spec advisor db) as H.
  cbv zeta in *. destruct H as (H1 & H2 & H3 & H4).
  split; [exact H1|]. split; [|split; [exact H2|split; [exact H3|exact H4]]].
  unfold run_auto_trading, try_except.
  destruct (process_auto_trading advisor db) as [db1 [[]|e]]; simpl in *;
    [reflexivity | discriminate].
Qed.

End CycleProps.

(* ------------------------------------------------------------------ *)
(** ** The order sizes of the auto-trader *)

Module SizingProps.
Local Open Scope py_scope.
Import Trading AutoTrader RefusalProps PositionProps.

(** A buy that raises leaves the log as it was. *)
Lemma execute_buy_raise_log (u t q : Z) (db db' : Session) (e : exn) :
  execute_buy u t q db = (db', Raise e) -> trades db' = trades db.
Proof.
  unfold execute_buy.
  destruct (get_latest_price_cases t db) as [(tick & _ & Hp)|(_ & Hp)];
    unfold bind at 1; rewrite Hp;
    [|intro H; inversion H; reflexivity].
  unfold_m. simpl.
  destruct (first (account_of u) (accounts db)) as [a|];
    [|intro H; inversion H; reflexivity].
  destruct (Account.cash_balance a <? PriceTick.price tick * of_int q);
    [intro H; inversion H; reflexivity|].
  simpl.
  destruct (first (position_of u t) (portfolios db)) as [p|]; simpl.
  - destruct (truediv _ _) as [avg|e'] eqn:E; simpl; [discriminate|].
    intro H. inversion H. reflexivity.
  - discriminate.
Qed.

(** X20.  The size of an automatic BUY.  Under a BUY signal the
    auto-trader leaves the log as it was or appends exactly one record:
    a BUY of the pair at the latest price, for the smaller of
    [max_trade_size] and [int(cash_balance / current_price)] as the
    program computes them, a quantity that is positive, and for which
    the funds test of the engine has passed.  The quotient is not claimed
    to be a quantity the balance pays for: the division rounds, and an
    order it sizes can fail the funds test and be refused. *)
Theorem auto_buy_is_capped_and_checked (config : AutoTradeConfig.t)
  (user : User.t) (account : Account.t) (ticker : Ticker.t)
  (signal : Predictions.Signal) (db : Session) :
  Predictions.action signal = "BUY" ->
  let out := execute_signal config user account ticker signal db in
  trades (fst out) = trades db
  \/ exists price ratio affordable a,
       get_latest_price (Ticker.id ticker) db = (db, Ok price)
       /\ truediv (Account.cash_balance (current account db)) price = Ok ratio
       /\ py_int ratio = Ok affordable
       /\ first (account_of (User.id user)) (accounts db) = Some a
       /\ let n := Z.min (AutoTradeConfig.max_trade_size config) affordable in
          (0 < n <= AutoTradeConfig.max_trade_size config)%Z
          /\ (Account.cash_balance a <? price * of_int n) = false
          /\ snd out = Ok tt
          /\ trades (fst out)
             = (trades db
                  ++ [Trade.mk (User.id user) (Ticker.id ticker) "BUY" n price
                               (price * of_int n)
                               (Account.cash_balance a - price * of_int n)])%list.
Proof.
  intros Hact out.
  assert (E : out = execute_signal config user account ticker signal db)
    by reflexivity.
  clearbody out. unfold execute_signal in E. cbv zeta in E. rewrite Hact in E.
  change ("BUY" =? "BUY")%string with true in E. cbv iota in E.
  destruct (get_latest_price_cases (Ticker.id ticker) db)
    as [(tick & _ & Hp)|(_ & Hp)];
    unfold bind at 1 in E; rewrite Hp in E; [|left; rewrite E; reflexivity].
  generalize dependent (PriceTick.price tick). intros price E Hp.
  unfold bind at 1 in E. unfold get in E.
  unfold bind at 1 in E. unfold lift at 1 in E.
  destruct (truediv (Account.cash_balance (current account db)) price)
    as [ratio|e] eqn:Ht; [|left; rewrite E; reflexivity].
  unfold bind at 1 in E. unfold lift at 1 in E.
  destruct (py_int ratio) as [affordable|e] eqn:Hi;
    [|left; rewrite E; reflexivity].
  destruct (Z.min (AutoTradeConfig.max_trade_size config) affordable >? 0)%Z
    eqn:Hn; [|left; rewrite E; reflexivity].
  apply Z.gtb_lt in Hn.
  unfold bind at 1 in E.
  destruct (execute_buy (User.id user) (Ticker.id ticker)
              (Z.min (AutoTradeConfig.max_trade_size config) affordable) db)
    as [db' [r|e]] eqn:Hb; rewrite E.
  - right.
    destruct (execute_buy_ok _ _ _ _ _ _ Hb)
      as (price' & a & Hp' & Ha & Hlt & _ & Htr & _).
    rewrite Hp in Hp'. injection Hp' as <-.
    exists price, ratio, affordable, a.
    split; [exact Hp|]. split; [exact Ht|]. split; [exact Hi|].
    split; [exact Ha|]. cbv zeta.
    split; [split; [exact Hn | apply Z.le_min_l]|].
    split; [exact Hlt|]. split; [reflexivity | exact Htr].
  - left. simpl. exact (execute_buy_raise_log _ _ _ _ _ _ Hb).
Qed.

Lemma auto_buy_is_capped_and_checked_witness :
  let signal := Predictions.mkSignal "BUY" (dec 9 10) "AI prediction" in
  let account := Account.mk 1 7 (dec 250 1) in
  let db :=
    mkSession [demo_user] [account] [demo_ticker]
              [PriceTick.mk 3 (dec 100 1) 500000 10] [] [] [demo_config] in
  let out := execute_signal demo_config demo_user account demo_ticker signal
               db in
  trades (fst out)
  = [Trade.mk 7 3 "BUY" 2 (dec 100 1) (dec 100 1 * of_int 2)
              (dec 250 1 - dec 100 1 * of_int 2)]
  /\ (trades (fst out) = trades db
      \/ exists price ratio affordable a,
           get_latest_price (Ticker.id demo_ticker) db = (db, Ok price)
           /\ truediv (Account.cash_balance (current account db)) price
              = Ok ratio
           /\ py_int ratio = Ok affordable
           /\ first (account_of (User.id demo_user)) (accounts db) = Some a
           /\ let n := Z.min (AutoTradeConfig.max_trade_size demo_config)
                             affordable in
              (0 < n <= AutoTradeConfig.max_trade_size demo_config)%Z
              /\ (Account.cash_balance a <? price * of_int n) = false
              /\ snd out = Ok tt
              /\ trades (fst out)
                 = (trades db
                      ++ [Trade.mk (User.id demo_user) (Ticker.id demo_ticker)
                                   "BUY" n price (price * of_int n)
                                   (Account.cash_balance a
                                    - price * of_int n)])%list).
Proof.
  intros signal account db out. split; [vm_compute; reflexivity|].
  exact (auto_buy_is_capped_and_checked demo_config demo_user account
           demo_ticker signal db eq_refl).
Defined.

(** What a sell that the position covers does. *)
Lemma execute_sell_succeeds (u t q : Z) (db : Session) (price : pyfloat)
  (p : Portfolio.t) (a : Account.t) :
  get_latest_price t db = (db, Ok price) ->
  first (position_of u t) (portfolios db) = Some p ->
  (q <= Portfolio.quantity p)%Z ->
  first (account_of u) (accounts db) = Some a ->
  exists db',
    execute_sell u t q db
    = (db', Ok (mkResult "SELL" q price (price * of_int q)
                  (Account.cash_balance a + price * of_int q))).
Proof.
  intros Hp Hpos Hq Ha. unfold execute_sell.
  unfold bind at 1. rewrite Hp. unfold_m. rewrite Hpos.
  assert (Hlt : (Portfolio.quantity p <? q)%Z = false)
    by (apply Z.ltb_ge; exact Hq).
  rewrite Hlt. simpl.
  destruct (Portfolio.quantity p - q =? 0)%Z; simpl; rewrite Ha; simpl;
    eexists; reflexivity.
Qed.

(** X21.  The auto-trader caps a SELL at the position.  With a positive
    [max_trade_size], a position of positive quantity, price data and an
    account, a SELL signal sells the smaller of [max_trade_size] and the
    quantity held: a positive number of shares that the position
    covers, so that the engine executes it. *)
Theorem auto_sell_is_capped (config : AutoTradeConfig.t) (user : User.t)
  (account : Account.t) (ticker : Ticker.t) (signal : Predictions.Signal)
  (db : Session) (price : pyfloat) (p : Portfolio.t) (a : Account.t) :
  Predictions.action signal = "SELL" ->
  get_latest_price (Ticker.id ticker) db = (db, Ok price) ->
  first (position_of (User.id user) (Ticker.id ticker)) (portfolios db)
  = Some p ->
  (0 < Portfolio.quantity p)%Z ->
  (0 < AutoTradeConfig.max_trade_size config)%Z ->
  first (account_of (User.id user)) (accounts db) = Some a ->
  let n := Z.min (AutoTradeConfig.max_trade_size config)
                 (Portfolio.quantity p) in
  (0 < n)%Z /\ (n <= AutoTradeConfig.max_trade_size config)%Z
  /\ (n <= Portfolio.quantity p)%Z
  /\ exists db',
       execute_sell (User.id user) (Ticker.id ticker) n db
       = (db', Ok (mkResult "SELL" n price (price * of_int n)
                     (Account.cash_balance a + price * of_int n)))
       /\ execute_signal config user account ticker signal db = (db', Ok tt).
Proof.
  intros Hact Hp Hpos Hq Hm Ha n.
  assert (Hn : (n <= Portfolio.quantity p)%Z) by (unfold n; apply Z.le_min_r).
  split; [unfold n; lia|]. split; [unfold n; apply Z.le_min_l|].
  split; [exact Hn|].
  destruct (execute_sell_succeeds (User.id user) (Ticker.id ticker) n db
              price p a Hp Hpos Hn Ha) as (db' & Hsell).
  exists db'. split; [exact Hsell|].
  unfold execute_signal. cbv zeta. rewrite Hact.
  change ("SELL" =? "BUY")%string with false.
  change ("SELL" =? "SELL")%string with true. cbv iota.
  unfold bind at 1. unfold get. rewrite Hpos.
  assert (Hgt : (Portfolio.quantity p >? 0)%Z = true)
    by (apply Z.gtb_lt; exact Hq).
  rewrite Hgt. unfold bind at 1. rewrite Hp.
  unfold bind at 1. fold n. rewrite Hsell. reflexivity.
Qed.

Lemma auto_sell_is_capped_witness :
  let signal := Predictions.mkSignal "SELL" (dec 9 10) "AI prediction" in
  let db :=
    mkSession [demo_user] [demo_account] [demo_ticker]
              [PriceTick.mk 3 (dec 100 1) 500000 10]
              [Portfolio.mk 7 3 8 (dec 90 1) (dec 90 1)] [] [demo_config] in
  exists db',
    execute_sell 7 3 5 db
    = (db', Ok (mkResult "SELL" 5 (dec 100 1) (dec 100 1 * of_int 5)
                  (dec 10000 1 + dec 100 1 * of_int 5)))
    /\ execute_signal demo_config demo_user demo_account demo_ticker signal db
       = (db', Ok tt).
Proof.
  intros signal db.
  apply (auto_sell_is_capped demo_config demo_user demo_account demo_ticker
           signal db (dec 100 1) (Portfolio.mk 7 3 8 (dec 90 1) (dec 90 1))
           demo_account eq_refl eq_refl eq_refl eq_refl eq_refl eq_refl).
Defined.

End SizingProps.

(* ------------------------------------------------------------------ *)
(** ** One price step, one round of ticks *)

Module TickProps.
Local Open Scope py_scope.
Import Trading PriceSimulator SimulatorProps.

Lemma round_half_even_near (q : Q) :
  (q - (1 # 2) <= inject_Z (round_half_even q))%Q
  /\ (inject_Z (round_half_even q) <= q + (1 # 2))%Q.
Proof.
  unfold round_half_even. cbv zeta.
  pose proof (Qfloor_le q) as Hlo. pose proof (Qlt_floor q) as Hhi.
  assert (E1 : (inject_Z (Qfloor q + 1) == inject_Z (Qfloor q) + 1)%Q).
  { rewrite inject_Z_plus. reflexivity. }
  rewrite E1 in Hhi.
  destruct (Qcompare (q - inject_Z (Qfloor q)) (1 # 2)) eqn:C.
  - apply Qeq_alt in C.
    destruct (Z.even (Qfloor q)); [|rewrite E1]; split; lra.
  - apply Qlt_alt in C. split; lra.
  - apply Qgt_alt in C. rewrite E1. split; lra.
Qed.

(** [round(x, 2)] moves a value by at most half a cent. *)
Lemma round2_near (x : Q) :
  exists q, round2 (Fin x) = Fin q
            /\ (x - (5 # 1000) <= q)%Q /\ (q <= x + (5 # 1000))%Q.
Proof.
  simpl. eexists. split; [reflexivity|].
  destruct (round_half_even_near (x * 100)) as (H1 & H2).
  rewrite (Qmake_Qdiv (round_half_even (x * 100)) 100).
  change (inject_Z (Z.pos 100)) with 100%Q.
  split.
  - apply Qle_shift_div_l; [reflexivity|]. lra.
  - apply Qle_shift_div_r; [reflexivity|]. lra.
Qed.

Lemma change_bound_up (l n r : Q) :
  (0 < l)%Q -> in_range (- (5 # 1000)) (5 # 1000) n -> in_range (- (1)) 1 r ->
  (l * ((2 # 100) + n) * r <= (25 # 1000) * l)%Q.
Proof.
  unfold in_range. intros Hl (Hn1 & Hn2) (Hr1 & Hr2).
  assert (H1 : (0 <= (l * ((2 # 100) + n)) * (1 - r))%Q).
  { apply Qmult_le_0_compat; [apply Qmult_le_0_compat|]; lra. }
  assert (H2 : (0 <= l * ((25 # 1000) - ((2 # 100) + n)))%Q).
  { apply Qmult_le_0_compat; lra. }
  lra.
Qed.

(** X22.  One tick moves a price by a bounded step.  From a last price
    of at least 1.03 and with random values in their ranges, the new
    price differs from the last by at most 2.6 percent of it (2.5
    percent of volatility, 0.1 percent of momentum) plus the half cent
    of the rounding. *)
Theorem tick_step_is_bounded (d : Draw) (l : Q) :
  valid_draw d -> (103 # 100 <= l)%Q ->
  exists q,
    next_price d (Fin l) = Fin q
    /\ (l - (26 # 1000) * l - (5 # 1000) <= q)%Q
    /\ (q <= l + (26 # 1000) * l + (5 # 1000))%Q.
Proof.
  intros Hd Hl.
  destruct (valid_draw_ranges d Hd)
    as ((n & Hn & Hnr) & (r & Hr & Hrr) & (c & Hc)).
  assert (Hl0 : (0 < l)%Q) by lra.
  pose proof (change_bound l n r Hl0 Hnr Hrr) as Hb1.
  pose proof (change_bound_up l n r Hl0 Hnr Hrr) as Hb2.
  unfold next_price. rewrite Hn, Hr, Hc.
  unfold BASE_VOLATILITY, dec. cbn [fadd fmul].
  assert (Hmax : py_max (Fin (l + l * ((2 # 100) + n) * r)) (Fin (1 # 1))
                 = Fin (l + l * ((2 # 100) + n) * r)).
  { unfold py_max, fgt. simpl.
    assert (E : Qlt_bool (l + l * ((2 # 100) + n) * r) (1 # 1) = false)
      by (apply Qlt_bool_false_iff; lra).
    rewrite E. reflexivity. }
  rewrite Hmax.
  destruct (Fin c <? Fin (3 # 10)).
  - destruct (Fin (l * ((2 # 100) + n) * r) >? Fin 0);
      cbn [fadd fmul of_int];
      match goal with
      | |- exists q, round2 (Fin ?x) = _ /\ _ =>
          destruct (round2_near x) as (q & Hq & Hq1 & Hq2)
      end;
      exists q; (split; [exact Hq|]).
    + change (inject_Z 1) with 1%Q in *. split; lra.
    + change (inject_Z (-1)) with (-1 # 1)%Q in *. split; lra.
  - destruct (round2_near (l + l * ((2 # 100) + n) * r))
      as (q & Hq & Hq1 & Hq2).
    exists q. split; [exact Hq|]. split; lra.
Qed.

Lemma tick_step_is_bounded_witness :
  exists q,
    next_price (steady (dec 1 1000) (dec (-1) 2) (dec 1 10) 200000 O)
               (Fin (100 # 1)) = Fin q
    /\ ((100 # 1) - (26 # 1000) * (100 # 1) - (5 # 1000) <= q)%Q
    /\ (q <= (100 # 1) + (26 # 1000) * (100 # 1) + (5 # 1000))%Q.
Proof.
  apply (tick_step_is_bounded
           (steady (dec 1 1000) (dec (-1) 2) (dec 1 10) 200000 O) (100 # 1)).
  - apply steady_valid.
  - unfold Qle. simpl. lia.
Defined.

Lemma fold_insert_head (x : PriceTick.t) (l R : list PriceTick.t) :
  (forall y, In y l -> (PriceTick.timestamp y <= PriceTick.timestamp x)%Z) ->
  exists R', fold_right insert_desc (x :: R) l = x :: R'.
Proof.
  induction l as [|a l IH]; intro H; simpl; [eauto|].
  destruct IH as (R' & ->); [intros y Hy; apply H; right; exact Hy|].
  simpl.
  assert (E : (PriceTick.timestamp x <? PriceTick.timestamp a)%Z = false).
  { apply Z.ltb_ge. apply H. left. reflexivity. }
  rewrite E. eauto.
Qed.

Lemma order_by_snoc_head (x : PriceTick.t) (l : list PriceTick.t) :
  (forall y, In y l -> (PriceTick.timestamp y <= PriceTick.timestamp x)%Z) ->
  hd_error (order_by_timestamp_desc (l ++ [x])) = Some x.
Proof.
  intro H. unfold order_by_timestamp_desc. rewrite fold_right_app. simpl.
  destruct (fold_insert_head x l [] H) as (R' & ->). reflexivity.
Qed.

(** X23.  The tick becomes the price.  When the clock is later than
    every stored tick of the instrument, the price the engine reads
    after [simulate_price_tick] has handled the instrument is the new
    one: the step of the simulator applied to the price it read
    before, or to the initial price of the symbol if there was none. *)
Theorem new_tick_is_latest_price (rng : nat -> Draw) (clock : nat -> Z)
  (db : Session) (k : nat) (ticker : Ticker.t) :
  (forall x, In x (price_ticks db) ->
             PriceTick.ticker_id x = Ticker.id ticker ->
             (PriceTick.timestamp x < clock k)%Z) ->
  let db' := fst (tick_for_ticker rng clock (db, k) ticker) in
  get_latest_price (Ticker.id ticker) db'
  = (db', Ok (next_price (rng k) (last_price_of db ticker))).
Proof.
  intros H db'. unfold get_latest_price. unfold_m.
  assert (E : hd_error (ticks_desc db' (Ticker.id ticker))
              = Some (PriceTick.mk (Ticker.id ticker)
                        (next_price (rng k) (last_price_of db ticker))
                        (volume (rng k)) (clock k))).
  { unfold db', tick_for_ticker, ticks_desc. cbv zeta.
    cbn [fst price_ticks set_price_ticks].
    rewrite filter_app. cbn [filter PriceTick.ticker_id].
    rewrite Z.eqb_refl.
    apply order_by_snoc_head. intros y Hy.
    apply filter_In in Hy. destruct Hy as (Hin & Hid).
    apply Z.eqb_eq in Hid. specialize (H y Hin Hid). simpl. lia. }
  rewrite E. reflexivity.
Qed.

Lemma new_tick_is_latest_price_witness :
  let rng := steady (dec 1 1000) (dec (-1) 2) (dec 1 10) 200000 in
  let db' := fst (tick_for_ticker rng (fun _ => 30) (demo_db, O) demo_ticker) in
  get_latest_price (Ticker.id demo_ticker) db'
  = (db', Ok (next_price (rng O) (last_price_of demo_db demo_ticker))).
Proof.
  apply (new_tick_is_latest_price
           (steady (dec 1 1000) (dec (-1) 2) (dec 1 10) 200000)
           (fun _ => 30) demo_db O demo_ticker).
  intros x [<-|[]] _. simpl. lia.
Defined.

Lemma tick_fold_rows (rng : nat -> Draw) (clock : nat -> Z)
  (ts : list Ticker.t) :
  forall (db : Session) (k : nat),
    let out := fold_left (tick_for_ticker rng clock) ts (db, k) in
    exists new,
      price_ticks (fst out) = (price_ticks db ++ new)%list
      /\ map PriceTick.ticker_id new = map Ticker.id ts
      /\ map PriceTick.timestamp new = map clock (seq k (List.length ts))
      /\ map PriceTick.volume new
         = map (fun i => volume (rng i)) (seq k (List.length ts))
      /\ snd out = (k + List.length ts)%nat.
Proof.
  induction ts as [|t ts IH]; intros db k; cbv zeta.
  - exists []. simpl. rewrite app_nil_r, Nat.add_0_r. repeat split.
  - cbn [fold_left].
    destruct (IH (fst (tick_for_ticker rng clock (db, k) t)) (S k))
      as (new & H1 & H2 & H3 & H4 & H5).
    assert (E : tick_for_ticker rng clock (db, k) t
                = (fst (tick_for_ticker rng clock (db, k) t), S k))
      by reflexivity.
    rewrite E.
    exists (PriceTick.mk (Ticker.id t)
              (next_price (rng k) (last_price_of db t))
              (volume (rng k)) (clock k) :: new).
    split; [|split; [|split; [|split]]].
    + rewrite H1. unfold tick_for_ticker. cbn [fst price_ticks set_price_ticks].
      rewrite <- app_assoc. reflexivity.
    + cbn [map]. rewrite H2. reflexivity.
    + cbn [map List.length seq]. rewrite H3. reflexivity.
    + cbn [map List.length seq]. rewrite H4. reflexivity.
    + rewrite H5. cbn [List.length]. lia.
Qed.

(** X24.  A round of ticks covers every instrument once.  What
    [simulate_price_tick] appends is one tick per row of the ticker
    table, in table order, each with the key of its ticker, the clock
    reading of its turn and the volume drawn for it; every other table
    is left alone. *)
Theorem tick_round_covers_every_ticker (rng : nat -> Draw) (clock : nat -> Z)
  (db : Session) :
  exists new,
    price_ticks (simulate_price_tick rng clock db)
    = (price_ticks db ++ new)%list
    /\ map PriceTick.ticker_id new = map Ticker.id (tickers db)
    /\ map PriceTick.timestamp new
       = map clock (seq 0 (List.length (tickers db)))
    /\ map PriceTick.volume new
       = map (fun i => volume (rng i)) (seq 0 (List.length (tickers db)))
    /\ same_tables db (simulate_price_tick rng clock db).
Proof.
  unfold simulate_price_tick.
  destruct (tick_fold_rows rng clock (tickers db) db O)
    as (new & H1 & H2 & H3 & H4 & _).
  destruct (tick_fold_spec rng clock (tickers db) db O)
    as (new' & _ & _ & Hsame & _).
  exists new. repeat split; try assumption; apply Hsame.
Qed.

End TickProps.

(* ------------------------------------------------------------------ *)
(** ** The timetable of the backfill *)

Module BackfillProps.
Local Open Scope py_scope.
Import PriceSimulator SimulatorProps TickProps.

Lemma step_positive : (0 < minutes HISTORICAL_INTERVAL_MINUTES)%Z.
Proof. reflexivity. Qed.

Lemma turns_left_step (t end_time : Z) :
  (t <= end_time)%Z ->
  turns_left t end_time
  = S (turns_left (t + minutes HISTORICAL_INTERVAL_MINUTES) end_time).
Proof.
  intro H. unfold turns_left, iterations.
  pose proof step_positive as Hs.
  set (step := minutes HISTORICAL_INTERVAL_MINUTES) in *.
  assert (E : (t <=? end_time)%Z = true) by (apply Z.leb_le; exact H).
  rewrite E.
  destruct (t + step <=? end_time)%Z eqn:E2.
  - apply Z.leb_le in E2.
    assert (Hd : ((end_time - t) / step
                  = (end_time - (t + step)) / step + 1)%Z).
    { replace (end_time - t)%Z with (end_time - (t + step) + 1 * step)%Z
        by lia.
      apply Z.div_add. lia. }
    rewrite Hd.
    assert (0 <= (end_time - (t + step)) / step)%Z
      by (apply Z.div_pos; lia).
    lia.
  - apply Z.leb_gt in E2.
    rewrite Z.div_small by lia. reflexivity.
Qed.

Lemma schedule_S (start : Z) (n : nat) :
  schedule start (S n)
  = start :: schedule (start + minutes HISTORICAL_INTERVAL_MINUTES) n.
Proof.
  unfold schedule. cbn [seq map]. f_equal; [lia|].
  rewrite <- seq_shift, map_map. apply map_ext. intro i. lia.
Qed.

(** One turn of the loop, with everything it writes. *)
Lemma historical_step_tick (rng : nat -> Draw) (tid : Z) (st : Loop) :
  let st' := historical_step rng tid st in
  produced st'
  = (produced st
       ++ [PriceTick.mk tid (round2 (current_price st'))
                        (volume (rng (drawn st))) (current_time st)])%list
  /\ current_time st'
     = (current_time st + minutes HISTORICAL_INTERVAL_MINUTES)%Z
  /\ drawn st' = S (drawn st).
Proof.
  unfold historical_step. cbv zeta. split; [|split; reflexivity].
  unfold produced. cbn [session batch current_price].
  destruct (_ >=? _)%Z; cbn [bulk_save set_price_ticks price_ticks].
  - rewrite app_nil_r, app_assoc. reflexivity.
  - rewrite app_assoc. reflexivity.
Qed.

Lemma historical_loop_schedule (rng : nat -> Draw) (tid end_time : Z) :
  forall (fuel : nat) (st : Loop),
    (turns_left (current_time st) end_time <= fuel)%nat ->
    let st' := historical_loop fuel rng tid end_time st in
    exists new,
      produced st' = (produced st ++ new)%list
      /\ map PriceTick.timestamp new
         = schedule (current_time st) (turns_left (current_time st) end_time)
      /\ map PriceTick.ticker_id new
         = repeat tid (turns_left (current_time st) end_time)
      /\ drawn st'
         = (drawn st + turns_left (current_time st) end_time)%nat.
Proof.
  induction fuel as [|fuel IH]; intros st Hfuel; cbv zeta.
  - assert (E : turns_left (current_time st) end_time = O) by lia.
    rewrite E. exists []. simpl. rewrite app_nil_r, Nat.add_0_r.
    repeat split.
  - cbn [historical_loop].
    destruct (current_time st <=? end_time)%Z eqn:Ht.
    + apply Z.leb_le in Ht.
      rewrite (turns_left_step _ _ Ht) in *.
      destruct (historical_step_tick rng tid st) as (Hprod & Htime & Hdrawn).
      cbv zeta in Hprod.
      destruct (IH (historical_step rng tid st)) as (new & H1 & H2 & H3 & H4).
      { rewrite Htime. lia. }
      rewrite Htime in H2, H3, H4.
      eexists (_ :: new).
      split; [rewrite H1, Hprod, <- app_assoc; reflexivity|].
      split; [rewrite schedule_S; cbn [map PriceTick.timestamp];
              rewrite H2; reflexivity|].
      split; [cbn [map repeat PriceTick.ticker_id]; rewrite H3; reflexivity|].
      rewrite H4, Hdrawn. lia.
    + assert (E : turns_left (current_time st) end_time = O).
      { unfold turns_left. rewrite Ht. reflexivity. }
      rewrite E. exists []. simpl. rewrite app_nil_r, Nat.add_0_r.
      repeat split.
Qed.

Lemma turns_of_backfill (now : Z) :
  turns_left (now - days (HISTORICAL_MONTHS * 30)) now = Z.to_nat 51841.
Proof.
  unfold turns_left, iterations.
  assert (E : (now - days (HISTORICAL_MONTHS * 30) <=? now)%Z = true).
  { apply Z.leb_le. assert (0 < days (HISTORICAL_MONTHS * 30))%Z
      by reflexivity. lia. }
  rewrite E.
  replace (now - (now - days (HISTORICAL_MONTHS * 30)))%Z
    with (days (HISTORICAL_MONTHS * 30)) by lia.
  f_equal.
Qed.

Lemma schedule_last (start : Z) (n : Z) :
  (0 <= n)%Z ->
  List.last (schedule start (Z.to_nat (Z.succ n))) 0%Z
  = (start + n * minutes HISTORICAL_INTERVAL_MINUTES)%Z.
Proof.
  intro H. rewrite Z2Nat.inj_succ by exact H. unfold schedule.
  rewrite seq_S, map_app. cbn [map]. rewrite last_last. simpl Nat.add.
  rewrite Z2Nat.id by exact H. reflexivity.
Qed.

(** X25.  The timetable of the backfill.  For an instrument without
    price points, [generate_historical_data] writes 51841 of them: one
    every five minutes from 180 days before now up to now itself, all
    with the key of the instrument, consuming one set of random values
    each. *)
Theorem backfill_timetable (rng : nat -> Draw) (now : Z) (db : Session)
  (k : nat) (ticker : Ticker.t) :
  ~ has_ticks db (Ticker.id ticker) ->
  let start_time := (now - days (HISTORICAL_MONTHS * 30))%Z in
  let out := generate_for_ticker rng start_time now (db, k) ticker in
  exists new,
    price_ticks (fst out) = (price_ticks db ++ new)%list
    /\ Z.of_nat (List.length new) = 51841%Z
    /\ map PriceTick.timestamp new = schedule start_time (List.length new)
    /\ List.last (map PriceTick.timestamp new) 0%Z = now
    /\ map PriceTick.ticker_id new
       = repeat (Ticker.id ticker) (List.length new)
    /\ snd out = (k + List.length new)%nat.
Proof.
  intros Hfresh start_time out.
  assert (Hcount :
    (Z.of_nat (List.length (filter (ticker_is (Ticker.id ticker))
                                   (price_ticks db))) >? 0)%Z = false).
  { destruct (_ >? 0)%Z eqn:E; [|reflexivity].
    exfalso. apply Hfresh. apply has_ticks_count. exact E. }
  set (st0 := mkLoop (initial_price_of (Ticker.symbol ticker)) start_time []
                     db k).
  set (st := historical_loop (S (iterations start_time now)) rng
               (Ticker.id ticker) now st0).
  assert (Hout : price_ticks (fst out) = produced st /\ snd out = drawn st).
  { unfold out, generate_for_ticker. rewrite Hcount. fold st0. fold st.
    unfold produced. destruct (batch st) as [|b bs]; simpl.
    - rewrite app_nil_r. split; reflexivity.
    - split; reflexivity. }
  destruct Hout as (Hticks & Hdrawn).
  assert (Hturns : turns_left (current_time st0) now = Z.to_nat 51841)
    by (apply turns_of_backfill).
  destruct (historical_loop_schedule rng (Ticker.id ticker) now
              (S (iterations start_time now)) st0)
    as (new & H1 & H2 & H3 & H4).
  { unfold turns_left. simpl current_time.
    destruct (start_time <=? now)%Z; lia. }
  fold st in H1, H4.
  assert (Hlen : List.length new = Z.to_nat 51841).
  { rewrite <- (length_map PriceTick.ticker_id), H3, repeat_length.
    exact Hturns. }
  rewrite Hturns in H2, H3, H4. rewrite <- Hlen in H2, H3, H4.
  exists new.
  split; [rewrite Hticks, H1; unfold produced; simpl; rewrite app_nil_r;
          reflexivity|].
  split; [rewrite Hlen; apply Z2Nat.id; lia|].
  split; [exact H2|].
  split.
  { rewrite H2, Hlen. simpl current_time.
    change 51841%Z with (Z.succ 51840).
    rewrite schedule_last by lia. unfold start_time.
    assert (E : (51840 * minutes HISTORICAL_INTERVAL_MINUTES
                 = days (HISTORICAL_MONTHS * 30))%Z) by reflexivity.
    rewrite E. lia. }
  split; [exact H3|].
  rewrite Hdrawn, H4. reflexivity.
Qed.

Lemma backfill_timetable_witness :
  let rng := steady (dec 1 1000) (dec (-1) 2) (dec 1 10) 200000 in
  let db := mkSession [] [] [demo_ticker] [] [] [] [] in
  let start_time := (40 - days (HISTORICAL_MONTHS * 30))%Z in
  let out := generate_for_ticker rng start_time 40 (db, O) demo_ticker in
  exists new,
    price_ticks (fst out) = (price_ticks db ++ new)%list
    /\ Z.of_nat (List.length new) = 51841%Z
    /\ map PriceTick.timestamp new = schedule start_time (List.length new)
    /\ List.last (map PriceTick.timestamp new) 0%Z = 40%Z
    /\ map PriceTick.ticker_id new
       = repeat (Ticker.id demo_ticker) (List.length new)
    /\ snd out = (O + List.length new)%nat.
Proof.
  apply (backfill_timetable
           (steady (dec 1 1000) (dec (-1) 2) (dec 1 10) 200000) 40
           (mkSession [] [] [demo_ticker] [] [] [] []) O demo_ticker).
  intro H. apply H. reflexivity.
Defined.

End BackfillProps.

(* ------------------------------------------------------------------ *)
(** ** Setting up the tickers *)

Module SetupProps.
Local Open Scope py_scope.
Import Trading PriceSimulator SimulatorProps PositionProps.

Lemma only_tickers_differ_refl (db : Session) : only_tickers_differ db db.
Proof. unfold only_tickers_differ. auto 10. Qed.

Lemma only_tickers_differ_trans (a b c : Session) :
  only_tickers_differ a b -> only_tickers_differ b c ->
  only_tickers_differ a c.
Proof.
  unfold only_tickers_differ.
  intros (H1 & H2 & H3 & H4 & H5 & H6) (G1 & G2 & G3 & G4 & G5 & G6).
  repeat split; congruence.
Qed.

Lemma first_app_some {A : Type} (p : A -> bool) (l l' : list A) (x : A) :
  first p l = Some x -> first p (l ++ l') = Some x.
Proof.
  unfold first. induction l as [|a l IH]; simpl; [discriminate|].
  destruct (p a); [auto | exact IH].
Qed.

Lemma listed_grows (db db' : Session) (new : list Ticker.t) (sym : string) :
  tickers db' = (tickers db ++ new)%list -> listed db sym -> listed db' sym.
Proof.
  intros E (t & Ht). exists t. rewrite E. apply first_app_some. exact Ht.
Qed.

Lemma not_listed_symbol (l : list Ticker.t) (sym : string) :
  first (has_symbol sym) l = None -> ~ In sym (map Ticker.symbol l).
Proof.
  intros Hn Hin. apply in_map_iff in Hin. destruct Hin as (t & <- & Hin).
  unfold first in Hn. apply (find_none _ _ Hn) in Hin.
  unfold has_symbol in Hin. rewrite String.eqb_refl in Hin. discriminate.
Qed.

(** One turn of the loop of [initialize_tickers]. *)
Lemma ensure_ticker_spec (assign_id : list Ticker.t -> Z) (i : TickerInit)
  (db : Session) :
  let out := ensure_ticker assign_id i db in
  snd out = Ok tt
  /\ only_tickers_differ db (fst out)
  /\ listed (fst out) (symbol i)
  /\ (listed db (symbol i) -> fst out = db)
  /\ (exists new, tickers (fst out) = (tickers db ++ new)%list
                  /\ Forall (fun t => ~ listed db (Ticker.symbol t)) new)
  /\ (NoDup (map Ticker.symbol (tickers db)) ->
      NoDup (map Ticker.symbol (tickers (fst out)))).
Proof.
  unfold ensure_ticker, bind, get, modify, ret.
  destruct (first (has_symbol (symbol i)) (tickers db)) as [t|] eqn:E; simpl.
  - split; [reflexivity|]. split; [apply only_tickers_differ_refl|].
    split; [exists t; exact E|]. split; [reflexivity|].
    split; [|tauto]. exists []. rewrite app_nil_r.
    split; [reflexivity | constructor].
  - split; [reflexivity|]. split; [unfold only_tickers_differ; simpl; auto 10|].
    split.
    { eexists. apply first_snoc; [exact E|].
      unfold has_symbol. simpl. apply String.eqb_refl. }
    split; [intros (t & Ht); congruence|].
    split.
    { eexists. split; [reflexivity|].
      constructor; [|constructor]. simpl. intros (t & Ht). congruence. }
    intro Hnd. rewrite map_app. simpl.
    apply NoDup_app; [exact Hnd | constructor; [tauto | constructor] |].
    intros s Hs [<-|[]]. apply (not_listed_symbol _ _ E Hs).
Qed.

Lemma ensure_loop_spec (assign_id : list Ticker.t -> Z)
  (inits : list TickerInit) :
  forall db,
    let out := for_each (ensure_ticker assign_id) inits db in
    snd out = Ok tt
    /\ only_tickers_differ db (fst out)
    /\ (forall i, In i inits -> listed (fst out) (symbol i))
    /\ ((forall i, In i inits -> listed db (symbol i)) -> fst out = db)
    /\ (exists new, tickers (fst out) = (tickers db ++ new)%list
                    /\ Forall (fun t => ~ listed db (Ticker.symbol t)) new)
    /\ (NoDup (map Ticker.symbol (tickers db)) ->
        NoDup (map Ticker.symbol (tickers (fst out)))).
Proof.
  induction inits as [|i inits IH]; intro db; cbv zeta.
  - simpl. split; [reflexivity|]. split; [apply only_tickers_differ_refl|].
    split; [intros i []|]. split; [reflexivity|].
    split; [|tauto]. exists []. rewrite app_nil_r.
    split; [reflexivity | constructor].
  - cbn [for_each]. unfold bind.
    destruct (ensure_ticker_spec assign_id i db)
      as (S1 & S2 & S3 & S4 & (new1 & S5 & S6) & S7).
    destruct (ensure_ticker assign_id i db) as [db1 [[]|e]]; simpl in *;
      [|discriminate].
    destruct (IH db1) as (L1 & L2 & L3 & L4 & (new2 & L5 & L6) & L7).
    cbv zeta in *.
    split; [exact L1|].
    split; [apply (only_tickers_differ_trans db db1); assumption|].
    split.
    { intros j [<-|Hj]; [|apply L3; exact Hj].
      apply (listed_grows db1 _ new2 _ L5 S3). }
    split.
    { intro Hall. assert (E : db1 = db) by (apply S4; apply Hall; auto).
      rewrite E in *. apply L4. intros j Hj. apply Hall. auto. }
    split.
    { exists (new1 ++ new2)%list. split.
      - rewrite L5, S5. symmetry. apply app_assoc.
      - apply Forall_app. split; [exact S6|].
        rewrite Forall_forall in *. intros t Ht Hl.
        apply (L6 t Ht). apply (listed_grows db db1 new1 _ S5 Hl). }
    intro Hnd. apply L7, S7. exact Hnd.
Qed.

(** X26.  [initialize_tickers] sets up the ten symbols once.  It returns
    normally; afterwards each configured symbol has a row; rows are only
    appended, and only for symbols that had none; if the symbols of the
    table were distinct they still are; no other table changes; and a
    second call, whatever keys the database would assign, does
    nothing. *)
Theorem initialize_tickers_once (assign_id assign_id' : list Ticker.t -> Z)
  (db : Session) :
  let once := fst (initialize_tickers assign_id db) in
  snd (initialize_tickers assign_id db) = Ok tt
  /\ (forall i, In i TICKERS_INIT -> listed once (symbol i))
  /\ (exists new, tickers once = (tickers db ++ new)%list
                  /\ Forall (fun t => ~ listed db (Ticker.symbol t)) new)
  /\ (NoDup (map Ticker.symbol (tickers db)) ->
      NoDup (map Ticker.symbol (tickers once)))
  /\ only_tickers_differ db once
  /\ initialize_tickers assign_id' once = (once, Ok tt).
Proof.
  unfold initialize_tickers.
  destruct (ensure_loop_spec assign_id TICKERS_INIT db)
    as (H1 & H2 & H3 & _ & H5 & H6).
  cbv zeta in *.
  split; [exact H1|]. split; [exact H3|]. split; [exact H5|].
  split; [exact H6|]. split; [exact H2|].
  destruct (ensure_loop_spec assign_id' TICKERS_INIT
              (fst (for_each (ensure_ticker assign_id) TICKERS_INIT db)))
    as (G1 & _ & _ & G4 & _).
  cbv zeta in *. specialize (G4 H3).
  destruct (for_each (ensure_ticker assign_id') TICKERS_INIT _) as [db2 r].
  simpl in *. subst. reflexivity.
Qed.

Lemma has_ticks_priced (db : Session) (tid : Z) :
  has_ticks db tid -> priced db tid.
Proof.
  unfold has_ticks, priced. intro H.
  destruct (filter (ticker_is tid) (price_ticks db)) as [|x l] eqn:E;
    [congruence|].
  assert (Hin : In x (filter (ticker_is tid) (price_ticks db)))
    by (rewrite E; left; reflexivity).
  apply filter_In in Hin. destruct Hin as (Hin & Hid).
  exists x. split; [exact Hin|]. apply Z.eqb_eq. exact Hid.
Qed.

(** X27.  After [init_data] every configured symbol can be traded: it
    has a row in the ticker table, and the engine finds a price for it. *)
Theorem init_data_prices_every_symbol (assign_id : list Ticker.t -> Z)
  (rng : nat -> Draw) (now : Z) (db : Session) :
  let out := init_data assign_id rng now db in
  snd out = Ok tt
  /\ forall i, In i TICKERS_INIT ->
       exists t price,
         first (has_symbol (symbol i)) (tickers (fst out)) = Some t
         /\ get_latest_price (Ticker.id t) (fst out) = (fst out, Ok price).
Proof.
  unfold init_data, bind, modify.
  destruct (ensure_loop_spec assign_id TICKERS_INIT db)
    as (H1 & H2 & H3 & _).
  cbv zeta in *. fold (initialize_tickers assign_id) in *.
  destruct (initialize_tickers assign_id db) as [db1 [[]|e]]; simpl in *;
    [|discriminate].
  split; [reflexivity|]. intros i Hi.
  unfold generate_historical_data.
  destruct (generate_fold_spec rng now (tickers db1) db1 O)
    as (new & G1 & _ & G3 & G4 & _).
  cbv zeta in *.
  set (db2 := fst (fold_left
                     (generate_for_ticker rng
                        (now - days (HISTORICAL_MONTHS * 30)) now)
                     (tickers db1) (db1, O))) in *.
  destruct (H3 i Hi) as (t & Ht).
  assert (Hin : In t (tickers db1)).
  { apply first_some_holds in Ht. tauto. }
  destruct (priced_get_latest_price db2 (Ticker.id t)
              (has_ticks_priced _ _ (G3 t Hin))) as (price & Hprice).
  exists t, price.
  split; [destruct G4 as (_ & _ & -> & _); exact Ht|].
  exact Hprice.
Qed.

End SetupProps.

(* ------------------------------------------------------------------ *)
(** ** Refreshing the prices of a portfolio *)

Module PortfolioPriceProps.
Local Open Scope py_scope.
Import Trading Endpoints.

Lemma update_nth_app {A : Type} (f : A -> A) (pre suf : list A) (x : A) :
  update_nth (List.length pre) f (pre ++ x :: suf) = (pre ++ f x :: suf)%list.
Proof.
  induction pre as [|a pre IH]; simpl; [reflexivity|].
  rewrite IH. reflexivity.
Qed.

Lemma set_portfolios_same (db : Session) :
  set_portfolios db (portfolios db) = db.
Proof. destruct db. reflexivity. Qed.

Lemma ticks_desc_same (db db' : Session) (t : Z) :
  price_ticks db' = price_ticks db -> ticks_desc db' t = ticks_desc db t.
Proof. unfold ticks_desc. intros ->. reflexivity. Qed.

(** The body of the loop of [update_portfolio_prices], on the row at
    position [length pre]. *)
Lemma refresh_row (db db0 : Session) (pre suf : list Portfolio.t)
  (p : Portfolio.t) :
  portfolios db0 = (pre ++ p :: suf)%list ->
  price_ticks db0 = price_ticks db ->
  except_value_error
    (current_price <- get_latest_price (Portfolio.ticker_id p) ;;
     modify (fun db1 =>
       set_portfolios db1
         (update_nth (List.length pre) (set_current_price current_price)
                     (portfolios db1)))) db0
  = (set_portfolios db0 (pre ++ refreshed db p :: suf), Ok tt).
Proof.
  intros Hrows Hticks. unfold except_value_error, bind, modify, refreshed.
  rewrite <- (ticks_desc_same db db0 _ Hticks).
  destruct (get_latest_price_cases (Portfolio.ticker_id p) db0)
    as [(tick & Hhd & Hp)|(Hhd & Hp)]; rewrite Hp, Hhd.
  - rewrite Hrows, update_nth_app. reflexivity.
  - rewrite <- Hrows, set_portfolios_same. reflexivity.
Qed.

Lemma refresh_loop (u : Z) (db : Session) :
  forall (suf pre : list Portfolio.t) (db0 : Session),
    portfolios db0 = (pre ++ suf)%list ->
    price_ticks db0 = price_ticks db ->
    for_each
      (fun ip =>
         except_value_error
           (current_price <- get_latest_price (Portfolio.ticker_id (snd ip)) ;;
            modify (fun db1 =>
              set_portfolios db1
                (update_nth (fst ip) (set_current_price current_price)
                            (portfolios db1)))))
      (filter (fun ip => (Portfolio.user_id (snd ip) =? u)%Z)
              (combine (seq (List.length pre) (List.length suf)) suf)) db0
    = (set_portfolios db0
         (pre ++ map (fun p => if row_of_user u p then refreshed db p else p)
                     suf),
       Ok tt).
Proof.
  induction suf as [|p suf IH]; intros pre db0 Hrows Hticks.
  - simpl. unfold ret. rewrite <- Hrows, set_portfolios_same. reflexivity.
  - cbn [List.length seq combine filter snd map]. unfold row_of_user at 1.
    destruct (Portfolio.user_id p =? u)%Z.
    + cbn [for_each]. unfold bind at 1. cbn [fst snd].
      rewrite (refresh_row db db0 pre suf p Hrows Hticks).
      specialize (IH (pre ++ [refreshed db p])%list
                     (set_portfolios db0 (pre ++ refreshed db p :: suf))).
      rewrite length_app in IH. simpl List.length in IH.
      rewrite Nat.add_1_r in IH. rewrite IH.
      * simpl. rewrite <- app_assoc. reflexivity.
      * simpl. rewrite <- app_assoc. reflexivity.
      * exact Hticks.
    + specialize (IH (pre ++ [p])%list db0).
      rewrite length_app in IH. simpl List.length in IH.
      rewrite Nat.add_1_r in IH. rewrite IH.
      * rewrite <- app_assoc. reflexivity.
      * rewrite Hrows, <- app_assoc. reflexivity.
      * exact Hticks.
Qed.

Lemma update_portfolio_prices_eq (u : Z) (db : Session) :
  update_portfolio_prices u db
  = (set_portfolios db (refreshed_rows db u), Ok tt).
Proof.
  unfold update_portfolio_prices, positions_of_user. unfold bind at 1.
  unfold get.
  apply (refresh_loop u db (portfolios db) [] db); reflexivity.
Qed.

Lemma refreshed_twice (db : Session) (u : Z) (p : Portfolio.t) :
  (if row_of_user u (if row_of_user u p then refreshed db p else p)
   then refreshed db (if row_of_user u p then refreshed db p else p)
   else if row_of_user u p then refreshed db p else p)
  = (if row_of_user u p then refreshed db p else p).
Proof.
  destruct (row_of_user u p) eqn:E; [|rewrite E; reflexivity].
  assert (E' : row_of_user u (refreshed db p) = true).
  { unfold refreshed. destruct (hd_error _); exact E. }
  rewrite E'. unfold refreshed.
  destruct (hd_error (ticks_desc db (Portfolio.ticker_id p))) as [tick|] eqn:H.
  - simpl. rewrite H. reflexivity.
  - rewrite H. reflexivity.
Qed.

Lemma refreshed_rows_idempotent (db : Session) (u : Z) :
  refreshed_rows (set_portfolios db (refreshed_rows db u)) u
  = refreshed_rows db u.
Proof.
  unfold refreshed_rows at 1. cbn [portfolios set_portfolios].
  unfold refreshed_rows. rewrite map_map. apply map_ext. intro p.
  exact (refreshed_twice db u p).
Qed.

(** X28.  Refreshing the prices of a portfolio.  [update_portfolio_prices]
    returns normally even when an instrument has no price data.  Its
    loop amounts to one pass over the table: a row of the user whose
    instrument has price data gets the latest price as its current
    price, every other row stays.  No row changes its user, instrument,
    quantity or average price, and no other table changes.  A second
    call changes nothing, and [get_portfolio] answers with the rows of
    the user from the refreshed table. *)
Theorem portfolio_prices_refreshed (current_user : User.t) (db : Session) :
  let u := User.id current_user in
  let out := update_portfolio_prices u db in
  out = (set_portfolios db (refreshed_rows db u), Ok tt)
  /\ map (fun p => (Portfolio.user_id p, Portfolio.ticker_id p,
                    Portfolio.quantity p, Portfolio.avg_price p))
         (portfolios (fst out))
     = map (fun p => (Portfolio.user_id p, Portfolio.ticker_id p,
                      Portfolio.quantity p, Portfolio.avg_price p))
           (portfolios db)
  /\ (forall p, In p (portfolios (fst out)) ->
                Portfolio.user_id p = u ->
                priced db (Portfolio.ticker_id p) ->
                get_latest_price (Portfolio.ticker_id p) db
                = (db, Ok (Portfolio.current_price p)))
  /\ update_portfolio_prices u (fst out) = (fst out, Ok tt)
  /\ get_portfolio current_user db
     = (fst out, Returned (filter (row_of_user u) (refreshed_rows db u))).
Proof.
  intros u out.
  assert (E : out = (set_portfolios db (refreshed_rows db u), Ok tt))
    by apply update_portfolio_prices_eq.
  split; [exact E|]. rewrite E. cbn [fst].
  split; [|split; [|split]].
  - cbn [portfolios set_portfolios]. unfold refreshed_rows.
    rewrite map_map. apply map_ext. intro p.
    destruct (row_of_user u p); [|reflexivity].
    unfold refreshed. destruct (hd_error _); reflexivity.
  - cbn [portfolios set_portfolios]. unfold refreshed_rows.
    intros p' Hin Hu Hpriced.
    apply in_map_iff in Hin. destruct Hin as (p & Hp & _).
    assert (Hrow : row_of_user u p = true).
    { unfold row_of_user. apply Z.eqb_eq. rewrite <- Hu, <- Hp.
      destruct (row_of_user u p); [|reflexivity].
      unfold refreshed. destruct (hd_error _); reflexivity. }
    rewrite Hrow in Hp. subst p'.
    assert (Ht : Portfolio.ticker_id (refreshed db p) = Portfolio.ticker_id p).
    { unfold refreshed. destruct (hd_error _); reflexivity. }
    rewrite Ht in *.
    destruct (priced_latest db _ Hpriced) as (tick & Hhd).
    destruct (get_latest_price_cases (Portfolio.ticker_id p) db)
      as [(tick' & Hhd' & Hprice)|(Hhd' & _)]; [|congruence].
    rewrite Hprice. unfold refreshed. rewrite Hhd'. reflexivity.
  - rewrite update_portfolio_prices_eq, refreshed_rows_idempotent.
    reflexivity.
  - unfold get_portfolio. fold u. fold out. rewrite E. reflexivity.
Qed.

(** A row without price data is skipped, the other is refreshed. *)
Example refresh_skips_unpriced :
  map Portfolio.current_price
    (portfolios
       (fst (update_portfolio_prices 7
               (mkSession [] [] [] [PriceTick.mk 3 (dec 100 1) 500000 10]
                  [Portfolio.mk 7 3 2 (dec 90 1) (dec 90 1);
                   Portfolio.mk 7 4 1 (dec 50 1) (dec 50 1);
                   Portfolio.mk 8 3 1 (dec 95 1) (dec 95 1)] [] []))))
  = [dec 100 1; dec 50 1; dec 95 1].
Proof. reflexivity. Qed.

End PortfolioPriceProps.

(* ------------------------------------------------------------------ *)
(** ** The trading endpoints *)

Module EndpointProps.
Local Open Scope py_scope.
Import Trading Endpoints RefusalProps CycleProps CostBasisProps.

(** X29.  The outcomes of [create_trade], for a quantity that the
    Integer column of the log holds.  A request that is answered with a
    404 (unknown symbol) or a 400 (the engine refused) has changed
    nothing.  A request that is answered with a trade has appended
    exactly that trade to the log: of the authenticated user, in the
    instrument of the symbol, of the requested quantity, priced at price
    times quantity, a BUY when the action is the string BUY and a SELL
    for any other action; the tables that the engine only reads are
    unchanged.  The only exceptions that escape are the division by zero
    of a buy and the missing account of a sell. *)
Theorem create_trade_outcomes (trade_data : TradeCreate)
  (current_user : User.t) (db : Session) :
  fits_integer_column (quantity trade_data) ->
  match create_trade trade_data current_user db with
  | (db', HTTPException status_code detail) =>
      db' = db
      /\ ((status_code = 404 /\ ~ listed db (ticker_symbol trade_data))
          \/ (status_code = 400 /\ listed db (ticker_symbol trade_data)))
  | (db', Returned trade) =>
      trades db' = (trades db ++ [trade])%list
      /\ Trade.user_id trade = User.id current_user
      /\ Trade.quantity trade = quantity trade_data
      /\ Trade.action trade
         = (if String.eqb (action trade_data) "BUY" then "BUY" else "SELL")
      /\ (exists ticker,
            first (PriceSimulator.has_symbol (ticker_symbol trade_data))
                  (tickers db) = Some ticker
            /\ Trade.ticker_id trade = Ticker.id ticker)
      /\ priced_at_cost trade
      /\ engine_frame db db'
  | (db', Unhandled e) => e = ZeroDivisionError \/ e = AttributeError
  end.
Proof.
  intros _. unfold create_trade.
  destruct (first (PriceSimulator.has_symbol (ticker_symbol trade_data))
                  (tickers db)) as [ticker|] eqn:Et.
  - assert (Hl : listed db (ticker_symbol trade_data))
      by (exists ticker; exact Et).
    destruct (String.eqb (action trade_data) "BUY").
    + pose proof (execute_buy_effect (User.id current_user) (Ticker.id ticker)
                    (quantity trade_data) db) as (Hframe & _).
      destruct (execute_buy _ _ _ db) as [db' [r|e]] eqn:E.
      * apply execute_buy_ok in E.
        destruct E as (price & a & _ & _ & _ & _ & Htr & _).
        rewrite Htr, rev_unit. simpl in Hframe.
        repeat split; try reflexivity; try assumption; try apply Hframe.
        exists ticker. split; reflexivity.
      * destruct (execute_buy_raises _ _ _ _ _ _ E) as [(msg & -> & ->)| ->].
        -- split; [reflexivity|]. right. split; [reflexivity | exact Hl].
        -- left. reflexivity.
    + pose proof (execute_sell_effect (User.id current_user) (Ticker.id ticker)
                    (quantity trade_data) db) as (Hframe & _).
      destruct (execute_sell _ _ _ db) as [db' [r|e]] eqn:E.
      * apply execute_sell_ok in E.
        destruct E as (price & p & a & _ & _ & _ & _ & _ & Htr & _).
        rewrite Htr, rev_unit. simpl in Hframe.
        repeat split; try reflexivity; try assumption; try apply Hframe.
        exists ticker. split; reflexivity.
      * destruct (execute_sell_raises _ _ _ _ _ _ E) as [(msg & -> & ->)| ->].
        -- split; [reflexivity|]. right. split; [reflexivity | exact Hl].
        -- right. reflexivity.
  - split; [reflexivity|]. left. split; [reflexivity|].
    intros (t & Ht). congruence.
Qed.

Lemma create_trade_outcomes_witness :
  let db := mkSession [demo_user] [demo_account] [demo_ticker]
              [PriceTick.mk 3 (dec 100 1) 500000 10] [] [] [] in
  let trade_data := mkTradeCreate "AAPL" "BUY" 2 in
  match create_trade trade_data demo_user db with
  | (db', HTTPException status_code detail) =>
      db' = db
      /\ ((status_code = 404 /\ ~ listed db (ticker_symbol trade_data))
          \/ (status_code = 400 /\ listed db (ticker_symbol trade_data)))
  | (db', Returned trade) =>
      trades db' = (trades db ++ [trade])%list
      /\ Trade.user_id trade = User.id demo_user
      /\ Trade.quantity trade = quantity trade_data
      /\ Trade.action trade
         = (if String.eqb (action trade_data) "BUY" then "BUY" else "SELL")
      /\ (exists ticker,
            first (PriceSimulator.has_symbol (ticker_symbol trade_data))
                  (tickers db) = Some ticker
            /\ Trade.ticker_id trade = Ticker.id ticker)
      /\ priced_at_cost trade
      /\ engine_frame db db'
  | (db', Unhandled e) => e = ZeroDivisionError \/ e = AttributeError
  end.
Proof.
  intros db trade_data.
  apply (create_trade_outcomes trade_data demo_user db).
  unfold fits_integer_column, trade_data. simpl. lia.
Defined.

(** A buy through the endpoint, and a request the engine refuses. *)
Example create_trade_answers :
  let db := mkSession [demo_user] [demo_account] [demo_ticker]
              [PriceTick.mk 3 (dec 100 1) 500000 10] [] [] [] in
  snd (create_trade (mkTradeCreate "AAPL" "BUY" 2) demo_user db)
  = Returned (Trade.mk 7 3 "BUY" 2 (dec 100 1) (dec 100 1 * of_int 2)
                (dec 10000 1 - dec 100 1 * of_int 2))
  /\ create_trade (mkTradeCreate "AAPL" "SELL" 2) demo_user db
     = (db, HTTPException 400 "No position found for this ticker")
  /\ create_trade (mkTradeCreate "MSFT" "BUY" 2) demo_user db
     = (db, HTTPException 404 "Ticker not found").
Proof. repeat split; reflexivity. Qed.

Lemma config_of_kept (u : Z) (data : AutoTradeConfigUpdate)
  (c : AutoTradeConfig.t) :
  AutoTradeConfig.user_id (apply_update data c) = AutoTradeConfig.user_id c.
Proof.
  unfold apply_update.
  destruct (enabled data), (confidence_threshold data), (max_trade_size data);
    reflexivity.
Qed.

Lemma apply_update_fields (data : AutoTradeConfigUpdate)
  (c : AutoTradeConfig.t) :
  AutoTradeConfig.enabled (apply_update data c)
  = Predictions.get_default (enabled data) (AutoTradeConfig.enabled c)
  /\ AutoTradeConfig.confidence_threshold (apply_update data c)
     = Predictions.get_default (confidence_threshold data)
         (AutoTradeConfig.confidence_threshold c)
  /\ AutoTradeConfig.max_trade_size (apply_update data c)
     = Predictions.get_default (max_trade_size data)
         (AutoTradeConfig.max_trade_size c).
Proof.
  unfold apply_update.
  destruct (enabled data), (confidence_threshold data), (max_trade_size data);
    repeat split.
Qed.

Lemma apply_update_twice (data : AutoTradeConfigUpdate)
  (c : AutoTradeConfig.t) :
  apply_update data (apply_update data c) = apply_update data c.
Proof.
  unfold apply_update.
  destruct (enabled data), (confidence_threshold data), (max_trade_size data);
    reflexivity.
Qed.

Lemma update_first_twice {A : Type} (p : A -> bool) (f : A -> A)
  (l : list A) :
  (forall x, p x = true -> p (f x) = true) ->
  (forall x, f (f x) = f x) ->
  update_first p f (update_first p f l) = update_first p f l.
Proof.
  intros Hp Hf. induction l as [|a l IH]; simpl; [reflexivity|].
  destruct (p a) eqn:E; simpl.
  - rewrite (Hp a E), Hf. reflexivity.
  - rewrite E, IH. reflexivity.
Qed.

Lemma config_of_apply (u : Z) (data : AutoTradeConfigUpdate)
  (c : AutoTradeConfig.t) :
  config_of u (apply_update data c) = config_of u c.
Proof. unfold config_of. rewrite (config_of_kept u). reflexivity. Qed.

(** X30.  The outcomes of [update_auto_config].  Without a configuration
    row the answer is a 404 and nothing changes.  Otherwise the row of
    the user gets the fields the request carries and keeps the others;
    it is the row the handler returns and the one a later lookup finds;
    the rows of other users and all other tables are unchanged; the
    same request again changes nothing.  And turning auto-trading off
    takes effect: when the row is the only one of the user and the
    request disables it, the next cycle leaves the account, the
    positions and the trades of the user alone. *)
Theorem update_auto_config_outcomes (config_data : AutoTradeConfigUpdate)
  (current_user : User.t) (db : Session) :
  let u := User.id current_user in
  match update_auto_config config_data current_user db with
  | (db', HTTPException status_code detail) =>
      status_code = 404 /\ db' = db
      /\ first (config_of u) (auto_trade_configs db) = None
  | (db', Returned config) =>
      first (config_of u) (auto_trade_configs db') = Some config
      /\ (exists old,
            first (config_of u) (auto_trade_configs db) = Some old
            /\ AutoTradeConfig.user_id config = u
            /\ AutoTradeConfig.enabled config
               = Predictions.get_default (enabled config_data)
                   (AutoTradeConfig.enabled old)
            /\ AutoTradeConfig.confidence_threshold config
               = Predictions.get_default (confidence_threshold config_data)
                   (AutoTradeConfig.confidence_threshold old)
            /\ AutoTradeConfig.max_trade_size config
               = Predictions.get_default (max_trade_size config_data)
                   (AutoTradeConfig.max_trade_size old))
      /\ configs_of_others u db' = configs_of_others u db
      /\ only_configs_differ db db'
      /\ update_auto_config config_data current_user db'
         = (db', Returned config)
      /\ (enabled config_data = Some false ->
          List.length (filter (config_of u) (auto_trade_configs db)) = 1%nat ->
          forall advisor,
            untouched u db' (fst (AutoTrader.process_auto_trading advisor db')))
  | (db', Unhandled e) => False
  end.
Proof.
  intro u. unfold update_auto_config. fold u.
  destruct (first (config_of u) (auto_trade_configs db)) as [old|] eqn:E;
    [|repeat split].
  assert (Hkeep : forall x, config_of u x = true ->
                            config_of u (apply_update config_data x) = true).
  { intros x Hx. rewrite config_of_apply. exact Hx. }
  assert (Hfirst : first (config_of u)
                     (update_first (config_of u) (apply_update config_data)
                                   (auto_trade_configs db))
                   = Some (apply_update config_data old)).
  { apply first_update_first; assumption. }
  split; [exact Hfirst|]. split.
  { exists old. split; [reflexivity|].
    destruct (apply_update_fields config_data old) as (F1 & F2 & F3).
    split; [|auto].
    rewrite (config_of_kept u). apply first_some_holds in E.
    destruct E as (E & _). apply Z.eqb_eq. exact E. }
  split.
  { unfold configs_of_others. cbn [auto_trade_configs set_auto_trade_configs].
    apply filter_update_other.
    - intros x Hx. rewrite Hx. reflexivity.
    - intros x Hx. rewrite config_of_apply, Hx. reflexivity. }
  split; [unfold only_configs_differ; simpl; auto 10|].
  split.
  { cbn [auto_trade_configs set_auto_trade_configs]. rewrite Hfirst.
    rewrite update_first_twice by (auto using apply_update_twice).
    rewrite apply_update_twice. reflexivity. }
  intros Hoff Hone advisor.
  apply (cycle_spec advisor). intros c Hc Hen Hu.
  cbn [auto_trade_configs set_auto_trade_configs] in Hc.
  assert (Hin : In c (filter (config_of u)
                        (update_first (config_of u) (apply_update config_data)
                                      (auto_trade_configs db)))).
  { apply filter_In. split; [exact Hc|]. apply Z.eqb_eq. exact Hu. }
  rewrite filter_update_first in Hin by exact Hkeep.
  destruct (filter (config_of u) (auto_trade_configs db)) as [|x [|y r]] eqn:F;
    try discriminate.
  destruct Hin as [<-|[]].
  destruct (apply_update_fields config_data x) as (F1 & _).
  rewrite Hoff in F1. simpl in F1. congruence.
Qed.

(** Turning auto-trading off for the demo user. *)
Example disabling_in_numbers :
  let off := mkConfigUpdate (Some false) None None in
  let db' := fst (update_auto_config off demo_user demo_db) in
  auto_trade_configs db' = [AutoTradeConfig.mk 7 false (dec 8 10) 5]
  /\ AutoTrader.process_auto_trading (answers "BUY" (dec 9 10)) db'
     = (db', Ok tt).
Proof. split; reflexivity. Qed.

End EndpointProps.
